(** * BrightnessController: security validation, display detection and
      brightness control, embedded from the Python sources

    Sources embedded here:
    - [src/core/security_manager.py]     ([Security])
    - [src/core/display_detector.py]     ([Detector])
    - [src/core/brightness_controller.py] ([Controller])
    - [src/brightness_controller.py]     ([Legacy], the single-file version)

    Logging calls are dropped: they have no influence on any result.
    Text is modelled as Rocq [string]s whose characters are the code
    points 0 to 255; the character tables below are Python's on these
    code points. *)

From Stdlib Require Import ZArith QArith Ascii String List Lia Bool.
From stdpp Require Import base option list gmap strings pretty.

Local Open Scope Z_scope.

(** ** Python text primitives used by the sources *)

Module Text.

(** [str.isspace] on one character: TAB, LF, VT, FF, CR, the four
    separators FS GS RS US, the blank, NEL (133) and the no-break space
    (160).  This is the set that [str.strip] removes and that [\s]
    matches in a [re] pattern over [str]. *)
Definition isspace (c : ascii) : bool :=
  let n := Z.of_nat (nat_of_ascii c) in
  ((9 <=? n) && (n <=? 13)) || ((28 <=? n) && (n <=? 32)) ||
  (n =? 133) || (n =? 160).

(** The white space that [float] and [int] skip around a numeral: TAB,
    LF, VT, FF, CR, the blank, NEL and the no-break space, but none of
    the four separators FS GS RS US. *)
Definition isspace_numeric (c : ascii) : bool :=
  let n := Z.of_nat (nat_of_ascii c) in
  ((9 <=? n) && (n <=? 13)) || (n =? 32) || (n =? 133) || (n =? 160).

(** The digits [0] to [9], the only characters that [int] and [float]
    read as digits. *)
Definition isdecimal_char (c : ascii) : bool :=
  let n := Z.of_nat (nat_of_ascii c) in (48 <=? n) && (n <=? 57).

(** [str.isdigit] on one character: the digits [0] to [9] and the
    superscripts two (178), three (179) and one (185). *)
Definition isdigit_char (c : ascii) : bool :=
  let n := Z.of_nat (nat_of_ascii c) in
  ((48 <=? n) && (n <=? 57)) || (n =? 178) || (n =? 179) || (n =? 185).

Definition isalpha_char (c : ascii) : bool :=
  let n := Z.of_nat (nat_of_ascii c) in
  ((65 <=? n) && (n <=? 90)) || ((97 <=? n) && (n <=? 122)).

Definition digit_value (c : ascii) : Z := Z.of_nat (nat_of_ascii c) - 48.

Fixpoint all_chars (p : ascii -> bool) (s : string) : bool :=
  match s with
  | EmptyString => true
  | String c s' => p c && all_chars p s'
  end.

Fixpoint keep_chars (p : ascii -> bool) (s : string) : string :=
  match s with
  | EmptyString => EmptyString
  | String c s' => if p c then String c (keep_chars p s') else keep_chars p s'
  end.

Definition nonempty (s : string) : bool :=
  match s with EmptyString => false | String _ _ => true end.

(** [s.isdigit()]: at least one character and all of them digits. *)
Definition isdigit (s : string) : bool := nonempty s && all_chars isdigit_char s.

Fixpoint lstrip (s : string) : string :=
  match s with
  | EmptyString => EmptyString
  | String c s' => if isspace c then lstrip s' else s
  end.

Definition rstrip (s : string) : string := String.rev (lstrip (String.rev s)).

(** [s.strip()] *)
Definition strip (s : string) : string := rstrip (lstrip s).

(** What [float] and [int] keep of a text before they read it. *)
Fixpoint lstrip_numeric (s : string) : string :=
  match s with
  | EmptyString => EmptyString
  | String c s' => if isspace_numeric c then lstrip_numeric s' else s
  end.

Definition strip_numeric (s : string) : string :=
  String.rev (lstrip_numeric (String.rev (lstrip_numeric s))).

(** [s.split(sep)] for a one-character separator: never an empty list,
    [''.split(sep) == ['']]. *)
Fixpoint split (sep : ascii) (s : string) : list string :=
  match s with
  | EmptyString => [EmptyString]
  | String c s' =>
      if Ascii.eqb c sep then EmptyString :: split sep s'
      else match split sep s' with
           | h :: t => String c h :: t
           | [] => [String c EmptyString]
           end
  end.

(** [s.startswith(p)] *)
Definition startswith (p s : string) : bool := String.prefix p s.

(** [sub in s] *)
Fixpoint contains (sub s : string) : bool :=
  String.prefix sub s ||
  match s with
  | EmptyString => false
  | String _ s' => contains sub s'
  end.

Fixpoint decimal_go (acc : Z) (s : string) : Z :=
  match s with
  | EmptyString => acc
  | String c s' => decimal_go (10 * acc + digit_value c) s'
  end.

(** The number that a run of the digits [0] to [9] writes in base ten. *)
Definition decimal_value (s : string) : Z := decimal_go 0 s.

(** [str(n)] for an integer, as an f-string interpolates it.  (Python
    refuses integers of more than 4300 digits; the sources format
    numbers of a few digits only.) *)
Definition str_of_int (n : Z) : string := pretty n.

Fixpoint lower (s : string) : string :=
  match s with
  | EmptyString => EmptyString
  | String c s' =>
      let n := nat_of_ascii c in
      String (if (65 <=? Z.of_nat n) && (Z.of_nat n <=? 90)
              then ascii_of_nat (n + 32) else c) (lower s')
  end.

End Text.

(** ** Exceptions and results *)

(** The exception classes that the modelled code can meet.  All of them
    derive from [Exception]; [TimeoutExpired] derives from
    [SubprocessError]. *)
Inductive pyexn : Type :=
| ValueError
| TypeError
| OverflowError
| TimeoutExpired
| SubprocessError
| OSError.

(** A call either returns a value or raises. *)
Inductive outcome (A : Type) : Type :=
| Ret (a : A)
| Raise (e : pyexn).
Arguments Ret {A} a.
Arguments Raise {A} e.

(** ** Python numbers: unbounded integers and binary64 floats *)

Module Num.

(** A float is a NaN, an infinity, or a finite value
    [(-1)^neg * m * 2^e] (signed zeros included). *)
Inductive pyfloat : Type :=
| FNan
| FInf (neg : bool)
| FFin (neg : bool) (m : N) (e : Z).

Definition smant (neg : bool) (m : N) : Z :=
  if neg then - Z.of_N m else Z.of_N m.

(** Comparison of a float with an integer.  Python compares the exact
    mathematical values; a NaN is unordered. *)
Definition cmp_int (x : pyfloat) (k : Z) : option comparison :=
  match x with
  | FNan => None
  | FInf neg => Some (if neg then Lt else Gt)
  | FFin neg m e =>
      Some (if 0 <=? e then (smant neg m * 2 ^ e ?= k)
            else (smant neg m ?= k * 2 ^ (- e)))
  end.

(** [k <= x] *)
Definition int_le (k : Z) (x : pyfloat) : bool :=
  match cmp_int x k with
  | Some Gt | Some Eq => true
  | _ => false
  end.

(** [x <= k] *)
Definition le_int (x : pyfloat) (k : Z) : bool :=
  match cmp_int x k with
  | Some Lt | Some Eq => true
  | _ => false
  end.

Definition round_half_even (q r den : Z) : Z :=
  match 2 * r ?= den with
  | Lt => q
  | Gt => q + 1
  | Eq => if Z.even q then q else q + 1
  end.

(** Quotient, remainder and denominator of [n / (d * 2^e)]. *)
Definition scaled_quot (n d e : Z) : Z * Z * Z :=
  let num := if 0 <=? e then n else n * 2 ^ (- e) in
  let den := if 0 <=? e then d * 2 ^ e else d in
  (num / den, num mod den, den).

(** The binary64 value nearest to [n / d] (ties to even), for [0 <= n]
    and [0 < d]: 53 significant bits, least exponent [-1074], and an
    infinity from [2^1024] on. *)
Definition round_ratio (neg : bool) (n d : Z) : pyfloat :=
  if n =? 0 then FFin neg 0 0
  else
    let e1 := Z.log2 n - Z.log2 d - 52 in
    let '(q1, _, _) := scaled_quot n d e1 in
    let e2 := if 2 ^ 52 <=? q1 then e1 else e1 - 1 in
    let e := Z.max e2 (-1074) in
    let '(q, r, den) := scaled_quot n d e in
    let m := round_half_even q r den in
    if 2 ^ 1024 <=? m * 2 ^ e then FInf neg else FFin neg (Z.to_N m) e.

(** [float(z)] for an integer: correctly rounded, [OverflowError] when
    the integer is too large for a float. *)
Definition float_of_int (z : Z) : outcome pyfloat :=
  match round_ratio (z <? 0) (Z.abs z) 1 with
  | FInf _ => Raise OverflowError
  | x => Ret x
  end.

(** [int(x)] for a float: truncation toward zero. *)
Definition int_of_float (x : pyfloat) : outcome Z :=
  match x with
  | FNan => Raise ValueError
  | FInf _ => Raise OverflowError
  | FFin neg m e =>
      let a := if 0 <=? e then Z.of_N m * 2 ^ e else Z.of_N m / 2 ^ (- e) in
      Ret (if neg then - a else a)
  end.

(** *** [float(s)] for a string *)

(** The rest of a digit part, after a digit: digits, each optionally
    preceded by one underscore.  Returns the digits and what follows. *)
Fixpoint digits_tail (s : string) : string * string :=
  match s with
  | EmptyString => (EmptyString, EmptyString)
  | String c s' =>
      if Text.isdecimal_char c then
        let '(ds, r) := digits_tail s' in (String c ds, r)
      else if Ascii.eqb c "_" then
        match s' with
        | String c' _ =>
            if Text.isdecimal_char c' then digits_tail s' else (EmptyString, s)
        | EmptyString => (EmptyString, s)
        end
      else (EmptyString, s)
  end.

Definition digitpart (s : string) : option (string * string) :=
  match s with
  | String c s' =>
      if Text.isdecimal_char c then
        let '(ds, r) := digits_tail s' in Some (String c ds, r)
      else None
  | EmptyString => None
  end.

Definition split_sign (s : string) : bool * string :=
  match s with
  | String "-" r => (true, r)
  | String "+" r => (false, r)
  | _ => (false, s)
  end.

(** What follows the letter [e]: an optionally signed digit part that
    ends the text. *)
Definition parse_exponent (s : string) : option Z :=
  let '(neg, s1) := split_sign s in
  match digitpart s1 with
  | Some (ds, EmptyString) =>
      Some (if neg then - Text.decimal_value ds else Text.decimal_value ds)
  | _ => None
  end.

(** A decimal literal [D * 10^k] as the pair [(D, k)]. *)
Definition parse_decimal (s : string) : option (Z * Z) :=
  let '(ip, s1) :=
    match digitpart s with Some p => p | None => (EmptyString, s) end in
  let '(fp, s2) :=
    match s1 with
    | String "." r =>
        match digitpart r with Some p => p | None => (EmptyString, r) end
    | _ => (EmptyString, s1)
    end in
  if Text.nonempty ip || Text.nonempty fp then
    let D := Text.decimal_value (ip +:+ fp) in
    let k := - Z.of_nat (String.length fp) in
    match s2 with
    | EmptyString => Some (D, k)
    | String c r =>
        if Ascii.eqb c "e" || Ascii.eqb c "E" then
          match parse_exponent r with
          | Some x => Some (D, k + x)
          | None => None
          end
        else None
    end
  else None.

Definition float_of_decimal (neg : bool) (D k : Z) : pyfloat :=
  if 0 <=? k then round_ratio neg (D * 10 ^ k) 1
  else round_ratio neg D (10 ^ (- k)).

(** [float(s)]: white space around the numeral is skipped; the numeral
    is a decimal literal or, in any case of letters, [inf], [infinity]
    or [nan], with an optional sign. *)
Definition float_of_str (s : string) : outcome pyfloat :=
  let '(neg, body) := split_sign (Text.strip_numeric s) in
  let low := Text.lower body in
  if String.eqb low "inf" || String.eqb low "infinity" then Ret (FInf neg)
  else if String.eqb low "nan" then Ret FNan
  else match parse_decimal body with
       | Some (D, k) => Ret (float_of_decimal neg D k)
       | None => Raise ValueError
       end.

(** *** [int(s)] for a string *)

(** [sys.get_int_max_str_digits()], at its default. *)
Definition max_str_digits : nat := 4300.

(** [int(s)] in base ten: white space around the numeral is skipped; the
    numeral is an optional sign and a digit part that ends the text;
    [ValueError] for any other text, and for a numeral of more than
    [max_str_digits] digits. *)
Definition int_of_str (s : string) : outcome Z :=
  let '(neg, body) := split_sign (Text.strip_numeric s) in
  match digitpart body with
  | Some (ds, EmptyString) =>
      if (max_str_digits <? String.length ds)%nat then Raise ValueError
      else Ret (if neg then - Text.decimal_value ds else Text.decimal_value ds)
  | _ => Raise ValueError
  end.

(** The floats that exist: a finite one has at most 53 significant bits
    and an exponent from -1074 to 971. *)
Definition binary64 (x : pyfloat) : Prop :=
  match x with
  | FFin _ m e => Z.of_N m < 2 ^ 53 /\ -1074 <= e <= 971
  | _ => True
  end.

End Num.

(** The Python values that occur in display dictionaries and as
    brightness arguments. *)
Inductive pyvalue : Type :=
| PyNone
| PyBool (b : bool)
| PyInt (z : Z)
| PyFloat (x : Num.pyfloat)
| PyStr (s : string)
| PyObject (id : Z).

(** The builtin [float(v)]. *)
Definition py_float (v : pyvalue) : outcome Num.pyfloat :=
  match v with
  | PyNone | PyObject _ => Raise TypeError
  | PyBool b => Ret (Num.FFin false (if b then 1%N else 0%N) 0)
  | PyInt z => Num.float_of_int z
  | PyFloat x => Ret x
  | PyStr s => Num.float_of_str s
  end.

(** [try: body / except (E1, ..): handler] on a pure computation. *)
Definition try_except {A : Type} (body : outcome A) (handled : pyexn -> bool)
    (handler : outcome A) : outcome A :=
  match body with
  | Ret a => Ret a
  | Raise e => if handled e then handler else Raise e
  end.

Definition ValueError_or_TypeError (e : pyexn) : bool :=
  match e with
  | ValueError | TypeError => true
  | _ => false
  end.

(** [except Exception] and the bare [except] catch every class above. *)
Definition any_Exception (e : pyexn) : bool := true.

(** ** [core/security_manager.py] *)

Module Security.

Definition safe_brightness_range : Z * Z := (0, 100).

(** The character class [[a-zA-Z0-9\s\-_=().,:/\\]]. *)
Definition safe_char (c : ascii) : bool :=
  Text.isalpha_char c || Text.isdecimal_char c || Text.isspace c ||
  Text.contains (String c EmptyString) "-_=().,:/\".

(** [safe_powershell_pattern.match(s)] for the pattern
    [^[a-zA-Z0-9\s\-_=().,:/\\]+$]: one or more characters, all in the
    class.  (A final line feed, which [$] tolerates, is in the class.) *)
Definition safe_powershell_pattern_match (s : string) : bool :=
  Text.nonempty s && Text.all_chars safe_char s.

(** [re.sub(r'[^a-zA-Z0-9\s\-_=().,:/\\]', '', s)] *)
Definition remove_unsafe (s : string) : string := Text.keep_chars safe_char s.

Definition validate_brightness_value (value : pyvalue) : outcome bool :=
  try_except
    (match py_float value with
     | Ret numeric_value =>
         Ret (Num.int_le (fst safe_brightness_range) numeric_value &&
              Num.le_int numeric_value (snd safe_brightness_range))
     | Raise e => Raise e
     end)
    ValueError_or_TypeError
    (Ret false).

(** The loop of [sanitize_powershell_command]: [safe_cmd] accumulates. *)
Fixpoint sanitize_loop (cmd safe_cmd : list string) : list string :=
  match cmd with
  | [] => safe_cmd
  | part_str :: rest =>
      if negb (safe_powershell_pattern_match part_str)
      then sanitize_loop rest (safe_cmd ++ [remove_unsafe part_str])
      else sanitize_loop rest (safe_cmd ++ [part_str])
  end.

Definition sanitize_powershell_command (cmd : list string) : list string :=
  sanitize_loop cmd [].

Definition safe_namespaces : list string :=
  ["root/WMI"; "root/CIMV2"; "root/StandardCimv2"].

Definition validate_wmi_namespace (namespace : string) : bool :=
  bool_decide (namespace ∈ safe_namespaces).

Definition safe_classes : list string :=
  ["WmiMonitorBrightness"; "WmiMonitorBrightnessMethods";
   "Win32_DesktopMonitor"; "Win32_VideoController"].

Definition validate_wmi_class (class_name : string) : bool :=
  bool_decide (class_name ∈ safe_classes).

(** Truth value of an optional string: [None] and [''] are false. *)
Definition truthy (o : option string) : bool :=
  match o with
  | Some s => Text.nonempty s
  | None => false
  end.

(** An f-string interpolates [None] as the text [None]. *)
Definition fmt (o : option string) : string := default "None" o.

Definition create_safe_wmi_command (namespace class_name : string)
    (method parameters : option string) : list string :=
  if negb (validate_wmi_namespace namespace) then []
  else if negb (validate_wmi_class class_name) then []
  else
    let wmi_query :=
      if truthy method then
        if truthy parameters then
          "(Get-WmiObject -Namespace " +:+ namespace +:+ " -Class " +:+
          class_name +:+ ")." +:+ fmt method +:+ "(" +:+ fmt parameters +:+ ")"
        else
          "(Get-WmiObject -Namespace " +:+ namespace +:+ " -Class " +:+
          class_name +:+ ")." +:+ fmt method +:+ "()"
      else
        "Get-WmiObject -Namespace " +:+ namespace +:+ " -Class " +:+ class_name in
    let cmd := ["powershell"; "-Command"; wmi_query] in
    sanitize_powershell_command cmd.

End Security.

(** ** Effects: a state monad with exceptions *)

Definition M (S A : Type) : Type := S -> outcome A * S.

Definition mret {S A : Type} (a : A) : M S A := fun s => (Ret a, s).

Definition mraise {S A : Type} (e : pyexn) : M S A := fun s => (Raise e, s).

Definition mbind {S A B : Type} (m : M S A) (k : A -> M S B) : M S B :=
  fun s =>
    match m s with
    | (Ret a, s') => k a s'
    | (Raise e, s') => (Raise e, s')
    end.

(** [try: body / except (..): handler]; effects of [body] up to the raise
    stay. *)
Definition mtry {S A : Type} (body : M S A) (handled : pyexn -> bool)
    (handler : M S A) : M S A :=
  fun s =>
    match body s with
    | (Ret a, s') => (Ret a, s')
    | (Raise e, s') => if handled e then handler s' else (Raise e, s')
    end.

Definition mlift {S A : Type} (o : outcome A) : M S A := fun s => (o, s).

Declare Scope monad_scope.
Delimit Scope monad_scope with monad.
Notation "x <- m ;; k" := (mbind m (fun x => k))
  (at level 100, m at next level, right associativity) : monad_scope.
Local Open Scope monad_scope.

(** ** The outside world: the shell and the monitor enumeration *)

(** What [subprocess.run(cmd, capture_output=True, text=True, timeout=..)]
    can do: complete, or raise ([TimeoutExpired] on a timeout, [OSError]
    when the program cannot be started, ...). *)
Inductive proc_result : Type :=
| Completed (returncode : Z) (stdout stderr : string)
| Failed (e : pyexn).

Record CompletedProcess : Type := {
  returncode : Z;
  stdout : string;
  stderr : string
}.

(** A monitor handed to the [EnumDisplayMonitors] callback: its handle
    and, unless the pointer is null, its rectangle (opaque). *)
Record monitor : Type := {
  hMonitor : Z;
  lprcMonitor : option Z
}.

(** [invocations] lists the commands given to [subprocess.run] so far,
    oldest first; [shell] is the environment's answer to a command after
    a given history; [monitors] are the monitors that the enumeration
    reports before it ends or fails. *)
Record world : Type := {
  invocations : list (list string);
  shell : list (list string) -> list string -> proc_result;
  monitors : list monitor
}.

Definition subprocess_run (cmd : list string) : M world CompletedProcess :=
  fun w =>
    let w' := {| invocations := invocations w ++ [cmd];
                 shell := shell w; monitors := monitors w |} in
    match shell w (invocations w) cmd with
    | Completed rc out err =>
        (Ret {| returncode := rc; stdout := out; stderr := err |}, w')
    | Failed e => (Raise e, w')
    end.

(** [IndexError] is the one further class that list indexing can raise;
    it is kept apart from the classes above because no handler in the
    sources names it. *)
Inductive index_result (A : Type) : Type :=
| Item (a : A)
| IndexError.
Arguments Item {A} a.
Arguments IndexError {A}.

(** [l[i]] on a Python list: negative indices count from the end. *)
Definition py_index {A : Type} (l : list A) (i : Z) : index_result A :=
  let n := Z.of_nat (length l) in
  let j := if i <? 0 then i + n else i in
  if (0 <=? j) && (j <? n) then
    match l !! Z.to_nat j with
    | Some a => Item a
    | None => IndexError
    end
  else IndexError.

(** ** [core/display_detector.py] *)

Module Detector.

Record DisplayInfo : Type := {
  name : string;
  type : string;
  method : string;
  properties : gmap string pyvalue
}.

(** [DisplayInfo.to_dict]: the three fields, then [update] with the
    properties (which win on a common key). *)
Definition to_dict (self : DisplayInfo) : gmap string pyvalue :=
  let result : gmap string pyvalue :=
    <["name" := PyStr (name self)]>
      (<["type" := PyStr (type self)]>
         (<["method" := PyStr (method self)]> ∅)) in
  properties self ∪ result.

Definition LF : ascii := "010"%char.

(** [[line for line in lines[2:] if line.strip() and not
    line.startswith('-')]] *)
Definition data_lines_of (lines : list string) : list string :=
  List.filter
    (fun line => Text.nonempty (Text.strip line) &&
                 negb (Text.startswith "-" line))
    (drop 2 lines).

(** The [for i, line in enumerate(data_lines)] loop shared by the two
    WMI queries; [flag] is the keyword set to [True]. *)
Fixpoint laptop_loop (flag : string) (i : Z) (data_lines : list string)
    (displays : list DisplayInfo) : list DisplayInfo :=
  match data_lines with
  | [] => displays
  | line :: rest =>
      if Text.nonempty (Text.strip line) then
        let display_info :=
          {| name := "Laptop Display " +:+ Text.str_of_int (i + 1);
             type := "internal";
             method := "wmi";
             properties :=
               <["instance" := PyStr (Text.strip line)]>
                 (<[flag := PyBool true]> ∅) |} in
        laptop_loop flag (i + 1) rest (displays ++ [display_info])
      else laptop_loop flag (i + 1) rest displays
  end.

(** Body shared by [_detect_brightness_methods] and
    [_detect_current_brightness]: every exception is caught and the
    displays gathered so far (none) are returned. *)
Definition wmi_query (select : string) (flag : string)
    : M world (list DisplayInfo) :=
  mtry
    (result <- subprocess_run ["powershell"; "-Command"; select] ;;
     if (returncode result =? 0) && Text.nonempty (Text.strip (stdout result))
     then
       let lines := Text.split LF (Text.strip (stdout result)) in
       mret (laptop_loop flag 0 (data_lines_of lines) [])
     else mret [])
    any_Exception
    (mret []).

Definition _detect_brightness_methods : M world (list DisplayInfo) :=
  wmi_query
    "Get-WmiObject -Namespace root/WMI -Class WmiMonitorBrightnessMethods | Select-Object InstanceName"
    "supports_brightness_methods".

Definition _detect_current_brightness : M world (list DisplayInfo) :=
  wmi_query
    "Get-WmiObject -Namespace root/WMI -Class WmiMonitorBrightness | Select-Object InstanceName, CurrentBrightness"
    "supports_current_brightness".

(** [any(d.name == current_display.name for d in displays)] *)
Definition name_known (displays : list DisplayInfo) (n : string) : bool :=
  existsb (fun d => String.eqb (name d) n) displays.

Fixpoint merge_loop (current_displays displays : list DisplayInfo)
    : list DisplayInfo :=
  match current_displays with
  | [] => displays
  | current_display :: rest =>
      if negb (name_known displays (name current_display))
      then merge_loop rest (displays ++ [current_display])
      else merge_loop rest displays
  end.

(** [WMIDisplayDetector.detect_displays] *)
Definition wmi_detect_displays : M world (list DisplayInfo) :=
  brightness_displays <- _detect_brightness_methods ;;
  let displays := [] ++ brightness_displays in
  current_displays <- _detect_current_brightness ;;
  mret (merge_loop current_displays displays).

Definition rect_value (r : option Z) : pyvalue :=
  match r with
  | Some id => PyObject id
  | None => PyNone
  end.

(** The callback [enum_display_proc], run once per monitor. *)
Fixpoint enum_display_loop (ms : list monitor) (displays : list DisplayInfo)
    : list DisplayInfo :=
  match ms with
  | [] => displays
  | mon :: rest =>
      let display_info :=
        {| name := "External Monitor " +:+
                   Text.str_of_int (Z.of_nat (length displays) + 1);
           type := "external";
           method := "ddc";
           properties :=
             <["handle" := PyInt (hMonitor mon)]>
               (<["rect_info" := rect_value (lprcMonitor mon)]> ∅) |} in
      enum_display_loop rest (displays ++ [display_info])
  end.

(** [DDCDisplayDetector.detect_displays]: a failure of the enumeration
    is caught, the monitors reported before it are kept. *)
Definition ddc_detect_displays : M world (list DisplayInfo) :=
  fun w => (Ret (enum_display_loop (monitors w) []), w).

Definition fallback_display : DisplayInfo :=
  {| name := "Primary Display";
     type := "unknown";
     method := "wmi";
     properties := <["is_fallback" := PyBool true]> ∅ |}.

(** The detector object: its one mutable field. *)
Record DisplayDetector : Type := { displays : list DisplayInfo }.

(** [DisplayDetector.detect_displays]: returns the detector with its
    [displays] field replaced. *)
Definition detect_displays (self : DisplayDetector) : M world DisplayDetector :=
  let displays0 : list DisplayInfo := [] in
  wmi_displays <- wmi_detect_displays ;;
  let displays1 := displays0 ++ wmi_displays in
  ddc_displays <- ddc_detect_displays ;;
  let displays2 := displays1 ++ ddc_displays in
  let displays3 :=
    match displays2 with
    | [] => displays2 ++ [fallback_display]
    | _ :: _ => displays2
    end in
  mret {| displays := displays3 |}.

Definition get_displays (self : DisplayDetector) : list (gmap string pyvalue) :=
  map to_dict (displays self).

(** [get_display_by_index]: [Item None] is a returned [None]. *)
Definition get_display_by_index (self : DisplayDetector) (index : Z)
    : index_result (option (gmap string pyvalue)) :=
  if (0 <=? index) && (index <? Z.of_nat (length (displays self))) then
    match py_index (displays self) index with
    | Item d => Item (Some (to_dict d))
    | IndexError => IndexError
    end
  else Item None.

Definition refresh_displays (self : DisplayDetector) : M world DisplayDetector :=
  detect_displays self.

End Detector.

(** ** [core/brightness_controller.py] *)

Module Controller.

(** A display is the dictionary produced by [to_dict]. *)
Abbreviation display := (gmap string pyvalue).

(** *** [WMIBrightnessController] *)

(** The [for i, line in enumerate(lines)] loop of [get_brightness]: it
    returns from the first line on which [isdigit] holds, or on whose
    second colon-separated field it holds, with [int] of that text,
    which may raise; [None] stands for leaving the loop without a
    return. *)
Fixpoint scan_lines (lines : list string) : outcome (option Z) :=
  match lines with
  | [] => Ret None
  | line :: rest =>
      let line_stripped := Text.strip line in
      if Text.nonempty line_stripped && Text.isdigit line_stripped then
        match Num.int_of_str line_stripped with
        | Ret brightness => Ret (Some brightness)
        | Raise e => Raise e
        end
      else if Text.contains ":" line_stripped then
        match Text.split ":" line_stripped with
        | _ :: part1 :: _ =>
            if Text.isdigit (Text.strip part1)
            then match Num.int_of_str (Text.strip part1) with
                 | Ret brightness => Ret (Some brightness)
                 | Raise e => Raise e
                 end
            else scan_lines rest
        | _ => scan_lines rest
        end
      else scan_lines rest
  end.

(** [cmd[-1] = cmd[-1] + suffix] *)
Fixpoint extend_last (cmd : list string) (suffix : string) : list string :=
  match cmd with
  | [] => []
  | [x] => [x +:+ suffix]
  | x :: rest => x :: extend_last rest suffix
  end.

Definition wmi_get_command : list string :=
  extend_last
    (Security.create_safe_wmi_command "root/WMI" "WmiMonitorBrightness" None None)
    " | Select-Object CurrentBrightness".

Definition wmi_get_brightness (d : display) : M world (option Z) :=
  mtry
    (let cmd :=
       Security.create_safe_wmi_command "root/WMI" "WmiMonitorBrightness"
         None None in
     match cmd with
     | [] => mret None
     | _ :: _ =>
         let cmd := extend_last cmd " | Select-Object CurrentBrightness" in
         result <- subprocess_run cmd ;;
         if returncode result =? 0 then
           let lines := Text.split Detector.LF (Text.strip (stdout result)) in
           mlift (scan_lines lines)
         else mret None
     end)
    any_Exception
    (mret None).

Definition wmi_set_command (brightness : Z) : list string :=
  Security.create_safe_wmi_command "root/WMI" "WmiMonitorBrightnessMethods"
    (Some "WmiSetBrightness") (Some ("1," +:+ Text.str_of_int brightness)).

Definition wmi_set_brightness (d : display) (brightness : Z) : M world bool :=
  valid <- mlift (Security.validate_brightness_value (PyInt brightness)) ;;
  if negb valid then mret false
  else
    mtry
      (let cmd := wmi_set_command brightness in
       match cmd with
       | [] => mret false
       | _ :: _ =>
           result <- subprocess_run cmd ;;
           let success := returncode result =? 0 in
           mret success
       end)
      any_Exception
      (mret false).

(** *** [DDCBrightnessController] (placeholder) *)

Definition ddc_get_brightness (d : display) : M world (option Z) :=
  let placeholder_brightness := 50 in
  mret (Some placeholder_brightness).

Definition ddc_set_brightness (d : display) (brightness : Z) : M world bool :=
  valid <- mlift (Security.validate_brightness_value (PyInt brightness)) ;;
  if negb valid then mret false
  else mret true.

(** *** [BrightnessController] *)

Section Dispatch.

(** The state that the strategy objects act on. *)
Context {S : Type}.

(** What the dispatcher needs from a controller object. *)
Record strategy : Type := {
  get_brightness_of : display -> M S (option Z);
  set_brightness_of : display -> Z -> M S bool
}.

(** [self.controllers], the mapping from method name to controller. *)
Variable controllers : gmap string strategy.

(** [display.get("method", "wmi")] *)
Definition method_of (d : display) : pyvalue :=
  default (PyStr "wmi") (d !! "method").

(** [self.controllers.get(method)] *)
Definition controller_for (method : pyvalue) : option strategy :=
  match method with
  | PyStr m => controllers !! m
  | _ => None
  end.

(** [not display]: an empty dictionary is false. *)
Definition is_empty (d : display) : bool := bool_decide (d = ∅).

Definition get_brightness (d : display) : M S (option Z) :=
  if is_empty d then mret None
  else
    let method := method_of d in
    match controller_for method with
    | None => mret None
    | Some controller =>
        mtry
          (result <- get_brightness_of controller d ;; mret result)
          any_Exception
          (mret None)
    end.

(** [int(float(brightness))] *)
Definition to_int (brightness : pyvalue) : outcome Z :=
  match py_float brightness with
  | Ret x => Num.int_of_float x
  | Raise e => Raise e
  end.

Definition set_brightness (d : display) (brightness : pyvalue) : M S bool :=
  if is_empty d then mret false
  else
    match to_int brightness with
    | Raise e =>
        if ValueError_or_TypeError e then mret false else mraise e
    | Ret brightness_int =>
        valid <- mlift (Security.validate_brightness_value
                          (PyInt brightness_int)) ;;
        if negb valid then mret false
        else
          let method := method_of d in
          match controller_for method with
          | None => mret false
          | Some controller =>
              mtry
                (result <- set_brightness_of controller d brightness_int ;;
                 mret result)
                any_Exception
                (mret false)
          end
    end.

Definition support_info0 : gmap string bool :=
  <["get_brightness" := false]>
    (<["set_brightness" := false]>
       (<["method_available" := false]> ∅)).

Definition test_brightness_support (d : display) : M S (gmap string bool) :=
  let support_info := support_info0 in
  let method := method_of d in
  match controller_for method with
  | None => mret support_info
  | Some controller =>
      let support_info := <["method_available" := true]> support_info in
      (* First [try]: [probe] is [current] when the get returned a value;
         a returned [None] and a caught exception both leave
         [support_info['get_brightness']] false. *)
      probe <- mtry
                 (current <- get_brightness_of controller d ;; mret current)
                 any_Exception
                 (mret None) ;;
      let support_info :=
        match probe with
        | Some _ => <["get_brightness" := true]> support_info
        | None => support_info
        end in
      (* [if support_info['get_brightness']:] second [try]. *)
      match probe with
      | Some current =>
          mtry
            (result <- set_brightness_of controller d current ;;
             mret (<["set_brightness" := result]> support_info))
            any_Exception
            (mret support_info)
      | None => mret support_info
      end
  end.

End Dispatch.

Arguments strategy S : clear implicits.

Definition wmi_controller : strategy world :=
  {| get_brightness_of := wmi_get_brightness;
     set_brightness_of := wmi_set_brightness |}.

Definition ddc_controller : strategy world :=
  {| get_brightness_of := ddc_get_brightness;
     set_brightness_of := ddc_set_brightness |}.

(** The mapping built by [BrightnessController.__init__]. *)
Definition controllers : gmap string (strategy world) :=
  <["wmi" := wmi_controller]> (<["ddc" := ddc_controller]> ∅).

End Controller.

(** ** [brightness_controller.py], the single-file version *)

Module Legacy.

Abbreviation display := (gmap string pyvalue).

(** [SecurityManager.validate_brightness_value], with its bare [except]. *)
Definition validate_brightness_value (value : pyvalue) : outcome bool :=
  try_except
    (match py_float value with
     | Ret num_val => Ret (Num.int_le 0 num_val && Num.le_int num_val 100)
     | Raise e => Raise e
     end)
    any_Exception
    (Ret false).

Definition count_command : list string :=
  ["powershell"; "-Command";
   "Get-WmiObject -Namespace root/WMI -Class WmiMonitorBrightnessMethods | Measure-Object | Select-Object Count"].

Definition laptop_display : display :=
  <["name" := PyStr "Laptop Display"]>
    (<["type" := PyStr "internal"]> (<["method" := PyStr "wmi"]> ∅)).

Definition fallback_display : display :=
  <["name" := PyStr "Primary Display"]>
    (<["type" := PyStr "unknown"]> (<["method" := PyStr "wmi"]> ∅)).

(** The callback [enum_proc], run once per monitor. *)
Fixpoint enum_loop (ms : list monitor) (displays : list display) : list display :=
  match ms with
  | [] => displays
  | mon :: rest =>
      let d : display :=
        <["name" := PyStr ("External Monitor " +:+
                           Text.str_of_int (Z.of_nat (length displays)))]>
          (<["type" := PyStr "external"]>
             (<["method" := PyStr "ddc"]>
                (<["handle" := PyInt (hMonitor mon)]> ∅))) in
      enum_loop rest (displays ++ [d])
  end.

(** [FastDisplayDetector.detect_displays]: returns the new value of
    [self.displays]. *)
Definition detect_displays : M world (list display) :=
  let displays0 : list display := [] in
  displays1 <- mtry
                 (result <- subprocess_run count_command ;;
                  if (returncode result =? 0) &&
                     Text.contains "Count" (stdout result)
                  then mret (displays0 ++ [laptop_display])
                  else mret displays0)
                 any_Exception
                 (mret displays0) ;;
  fun w =>
    let displays2 := enum_loop (monitors w) displays1 in
    let displays3 :=
      match displays2 with
      | [] => displays2 ++ [fallback_display]
      | _ :: _ => displays2
      end in
    (Ret displays3, w).

(** [not display or display.get("method") != "wmi"] *)
Definition not_wmi (d : display) : bool :=
  bool_decide (d = ∅) ||
  negb (match d !! "method" with
        | Some (PyStr m) => String.eqb m "wmi"
        | _ => false
        end).

(** The [for line in lines] loop of [get_brightness]: it returns from
    the first line on which [isdigit] holds, with [int] of that line,
    which may raise; [None] stands for leaving the loop without a
    return. *)
Fixpoint first_digit_line (lines : list string) : outcome (option Z) :=
  match lines with
  | [] => Ret None
  | line :: rest =>
      if Text.isdigit (Text.strip line)
      then match Num.int_of_str (Text.strip line) with
           | Ret brightness => Ret (Some brightness)
           | Raise e => Raise e
           end
      else first_digit_line rest
  end.

Definition get_command : list string :=
  ["powershell"; "-Command";
   "Get-WmiObject -Namespace root/WMI -Class WmiMonitorBrightness | ForEach-Object {$_.CurrentBrightness}"].

(** [FastBrightnessController.get_brightness] *)
Definition get_brightness (d : display) : M world Z :=
  if not_wmi d then mret 50
  else
    found <- mtry
               (result <- subprocess_run get_command ;;
                if (returncode result =? 0) &&
                   Text.nonempty (Text.strip (stdout result))
                then mlift (first_digit_line
                              (Text.split Detector.LF (Text.strip (stdout result))))
                else mret None)
               any_Exception
               (mret None) ;;
    mret (default 50 found).

Definition set_command (brightness_int : Z) : list string :=
  ["powershell"; "-Command";
   "(Get-WmiObject -Namespace root/WMI -Class WmiMonitorBrightnessMethods).WmiSetBrightness(1," +:+
   Text.str_of_int brightness_int +:+ ")"].

(** [FastBrightnessController.set_brightness] *)
Definition set_brightness (d : display) (brightness : pyvalue) : M world bool :=
  valid <- mlift (validate_brightness_value brightness) ;;
  if negb valid then mret false
  else
    brightness_int <- mlift (Controller.to_int brightness) ;;
    if not_wmi d then mret true
    else
      mtry
        (result <- subprocess_run (set_command brightness_int) ;;
         mret (returncode result =? 0))
        any_Exception
        (mret false).

End Legacy.

(** ** Specification-level notions *)

Module Spec.

(** The real number that a float denotes, as a rational; none for a NaN
    or an infinity. *)
Definition real_of_float (x : Num.pyfloat) : option Q :=
  match x with
  | Num.FFin neg m e =>
      Some (if 0 <=? e then inject_Z (Num.smant neg m * 2 ^ e)
            else Qmake (Num.smant neg m) (Z.to_pos (2 ^ (- e))))
  | _ => None
  end.

(** The range test [0 <= x <= 100] as the code writes it on a float. *)
Definition in_range (x : Num.pyfloat) : bool :=
  Num.int_le 0 x && Num.le_int x 100.

(** *** Decimal numerals

    The texts that write a real number, after the grammar that Python's
    documentation gives for the argument of [float]:
<<
      digit       ::=  "0" ... "9"
      digitpart   ::=  digit (["_"] digit)*
      number      ::=  [digitpart] "." digitpart | digitpart ["."]
      exponent    ::=  ("e" | "E") [sign] digitpart
      floatnumber ::=  number [exponent]
>>
    with an optional sign before and white space around. *)

(** The ten digits, in the order of their values. *)
Definition digits : string := "0123456789".

(** The place of a character in a text, counted from 0. *)
Fixpoint place (c : ascii) (s : string) : option Z :=
  match s with
  | EmptyString => None
  | String c' rest =>
      if Ascii.eqb c c' then Some 0
      else match place c rest with
           | Some k => Some (k + 1)
           | None => None
           end
  end.

(** The value of a digit is its place among the ten digits. *)
Definition digit (c : ascii) : option Z := place c digits.

Definition is_digit (c : ascii) : bool :=
  match digit c with Some _ => true | None => false end.

(** The white space that may stand around a numeral: TAB, LF, VT, FF,
    CR, the blank, NEL and the no-break space. *)
Definition blanks : list ascii :=
  ["009"; "010"; "011"; "012"; "013"; " "; "133"; "160"]%char.

Definition blank (c : ascii) : bool := bool_decide (c ∈ blanks).

(** The number that a run of digits writes, digit by digit: the first
    of [n + 1] digits counts [10 ^ n] times its value. *)
Fixpoint value (ds : string) : Z :=
  match ds with
  | EmptyString => 0
  | String c rest =>
      default 0 (digit c) * 10 ^ Z.of_nat (String.length rest) + value rest
  end.

(** [digitpart s ds]: the text [s] is a digit part, and [ds] are its
    digits without the underscores. *)
Inductive digitpart : string -> string -> Prop :=
| digitpart_one c :
    is_digit c = true -> digitpart (String c "") (String c "")
| digitpart_more c s ds :
    is_digit c = true -> digitpart s ds -> digitpart (String c s) (String c ds)
| digitpart_under c s ds :
    is_digit c = true -> digitpart s ds ->
    digitpart (String c (String "_" s)) (String c ds).

(** [number s ds fs]: the text [s] is a number with the integer digits
    [ds] and the fraction digits [fs]. *)
Inductive number : string -> string -> string -> Prop :=
| number_fraction s fs :
    digitpart s fs -> number ("." +:+ s) "" fs
| number_both s ds t fs :
    digitpart s ds -> digitpart t fs -> number (s +:+ "." +:+ t) ds fs
| number_integer s ds :
    digitpart s ds -> number s ds ""
| number_point s ds :
    digitpart s ds -> number (s +:+ ".") ds "".

Definition exponent_mark (c : ascii) : bool :=
  Ascii.eqb c "e" || Ascii.eqb c "E".

(** [exponent s x]: the text [s] is an exponent of value [x]; an absent
    exponent is 0. *)
Inductive exponent : string -> Z -> Prop :=
| exponent_none : exponent "" 0
| exponent_plain c s ds :
    exponent_mark c = true -> digitpart s ds -> exponent (String c s) (value ds)
| exponent_plus c s ds :
    exponent_mark c = true -> digitpart s ds ->
    exponent (String c (String "+" s)) (value ds)
| exponent_minus c s ds :
    exponent_mark c = true -> digitpart s ds ->
    exponent (String c (String "-" s)) (- value ds).

(** [numeral s neg D k]: the text [s] is an optionally signed float
    number that writes the real number [D * 10 ^ k], negated if [neg]. *)
Inductive numeral : string -> bool -> Z -> Z -> Prop :=
| numeral_plain n x ds fs e :
    number n ds fs -> exponent x e ->
    numeral (n +:+ x) false (value (ds +:+ fs)) (e - Z.of_nat (String.length fs))
| numeral_plus n x ds fs e :
    number n ds fs -> exponent x e ->
    numeral (String "+" (n +:+ x)) false
      (value (ds +:+ fs)) (e - Z.of_nat (String.length fs))
| numeral_minus n x ds fs e :
    number n ds fs -> exponent x e ->
    numeral (String "-" (n +:+ x)) true
      (value (ds +:+ fs)) (e - Z.of_nat (String.length fs)).

(** [reads_as s x]: the text [s] is a numeral between white space, and
    [x] is the float nearest to the number that it writes. *)
Definition reads_as (s : string) (x : Num.pyfloat) : Prop :=
  exists (before lit after : string) (neg : bool) (D k : Z),
    s = before +:+ lit +:+ after /\
    Text.all_chars blank before = true /\
    Text.all_chars blank after = true /\
    numeral lit neg D k /\
    x = Num.float_of_decimal neg D k.

(** [parses_as v q]: the value [v] parses as the real number [q].  An
    integer is itself, a float its value, a text the float that it reads
    as. *)
Definition parses_as (v : pyvalue) (q : Q) : Prop :=
  match v with
  | PyInt z => q = inject_Z z
  | PyBool b => q = inject_Z (if b then 1 else 0)
  | PyFloat x => real_of_float x = Some q
  | PyStr s => exists x, reads_as s x /\ real_of_float x = Some q
  | PyNone | PyObject _ => False
  end.

(** "v parses as a real number and 0 <= v <= 100" *)
Definition in_brightness_range (v : pyvalue) : Prop :=
  exists q : Q, parses_as v q /\ (0 <= q)%Q /\ (q <= 100)%Q.

(** A value that is no number and does not read as one. *)
Definition non_numeric (v : pyvalue) : Prop :=
  match v with
  | PyInt _ | PyBool _ | PyFloat _ => False
  | PyStr s => forall x, ~ reads_as s x
  | PyNone | PyObject _ => True
  end.

(** A value that can be given: a float among the floats that exist. *)
Definition well_formed (v : pyvalue) : Prop :=
  match v with
  | PyFloat x => Num.binary64 x
  | _ => True
  end.

(** *** Output lines

    What one output line offers, in the words of the specification: the
    digits of a bare-integer line, or the digits that are the value of a
    "Key : Value" line. *)
Definition bare_integer (line : string) : option string :=
  let t := Text.strip line in
  if Text.isdigit t then Some t else None.

Definition key_value (line : string) : option string :=
  match Text.split ":" (Text.strip line) with
  | _ :: value :: _ =>
      if Text.isdigit (Text.strip value) then Some (Text.strip value) else None
  | _ => None
  end.

Definition line_match (line : string) : option string :=
  match bare_integer line with
  | Some t => Some t
  | None => key_value line
  end.

(** The integer that a text of digits writes: there is one when the
    digits are all among [0] to [9] and no more than 4300. *)
Definition integer_of (t : string) : option Z :=
  if Text.all_chars is_digit t && (String.length t <=? 4300)%nat
  then Some (value t) else None.

(** What a reading offers as the brightness: the integer of the digits
    found, if there is one. *)
Definition brightness_of (found : option string) : option Z :=
  match found with
  | Some t => integer_of t
  | None => None
  end.

(** What the loop of [sanitize_powershell_command] does to one token. *)
Definition sanitize_part (part_str : string) : string :=
  if negb (Security.safe_powershell_pattern_match part_str)
  then Security.remove_unsafe part_str else part_str.

(** A call made on a controller object. *)
Inductive call : Type :=
| GetCall (d : gmap string pyvalue)
| SetCall (d : gmap string pyvalue) (value : Z).

(** A controller wrapped so that every call on it is recorded, in
    order, next to the state it acts on. *)
Definition spy {S : Type} (c : Controller.strategy S)
    : Controller.strategy (S * list call) :=
  {| Controller.get_brightness_of := fun d st =>
       let '(r, s') := Controller.get_brightness_of c d (fst st) in
       (r, (s', snd st ++ [GetCall d]));
     Controller.set_brightness_of := fun d v st =>
       let '(r, s') := Controller.set_brightness_of c d v (fst st) in
       (r, (s', snd st ++ [SetCall d v])) |}.

(** The world after one more command was given to [subprocess.run]. *)
Definition ran (w : world) (cmd : list string) : world :=
  {| invocations := invocations w ++ [cmd];
     shell := shell w;
     monitors := monitors w |}.

(** The lines that [get_brightness] scans. *)
Definition output_lines (out : string) : list string :=
  Text.split Detector.LF (Text.strip out).

(** [r] is what the first line of [lines] that matches offers, or
    nothing when no line matches; [offer] says what a line offers. *)
Definition first_of (offer : string -> option string) (lines : list string)
    (r : option string) : Prop :=
  match r with
  | Some t =>
      exists (i : nat) (line : string),
        lines !! i = Some line /\ offer line = Some t /\
        forall (j : nat) (earlier : string),
          (j < i)%nat -> lines !! j = Some earlier -> offer earlier = None
  | None =>
      forall (i : nat) (line : string),
        lines !! i = Some line -> offer line = None
  end.

Definition first_match : list string -> option string -> Prop :=
  first_of line_match.

(** A text of [n] characters [c]. *)
Fixpoint repeated (c : ascii) (n : nat) : string :=
  match n with
  | O => EmptyString
  | S n' => String c (repeated c n')
  end.

(** Sample displays and a sample world for the concrete runs below: a
    shell that completes every command with status 0 and no output. *)
Definition laptop : gmap string pyvalue :=
  <["name" := PyStr "Laptop"]>
    (<["type" := PyStr "internal"]> (<["method" := PyStr "wmi"]> ∅)).

Definition external : gmap string pyvalue :=
  <["name" := PyStr "External Monitor 1"]>
    (<["type" := PyStr "external"]> (<["method" := PyStr "ddc"]> ∅)).

Definition projector : gmap string pyvalue :=
  <["name" := PyStr "Projector"]>
    (<["type" := PyStr "external"]> (<["method" := PyStr "usb"]> ∅)).

Definition idle_world : world :=
  {| invocations := [];
     shell := fun _ _ => Completed 0 "" "";
     monitors := [] |}.

(** The float [-0.5]. *)
Definition minus_half : Num.pyfloat := Num.FFin true 1 (-1).

(** The float [2 ^ 1023]. *)
Definition two_to_1023 : Num.pyfloat := Num.FFin false (2 ^ 52) 971.

(** A world whose shell completes every command with status 0 and the
    given output. *)
Definition printing (out : string) : world :=
  {| invocations := [];
     shell := fun _ _ => Completed 0 out "";
     monitors := [] |}.

(** Two outputs of two lines, the second of which is 72: the first line
    is 4301 times the digit 1, or the superscript two alone. *)
Definition long_then_72 : string :=
  repeated "1" 4301 +:+ String Detector.LF "72".

Definition superscript_then_72 : string :=
  String "178" (String Detector.LF "72").

End Spec.

(** ** Notions for reasoning about the parsers *)

Module Reading.
Import Num.

(** A text that begins with a character that is no white space for a
    numeral. *)
Definition solid (s : string) : Prop :=
  match s with
  | String c _ => Text.isspace_numeric c = false
  | EmptyString => False
  end.

(** A text at which a digit part ends. *)
Definition stops (r : string) : Prop := digits_tail r = ("", r).

(** What [parse_decimal] does with the text that follows the number. *)
Definition finish (D k : Z) (s2 : string) : option (Z * Z) :=
  match s2 with
  | EmptyString => Some (D, k)
  | String c r =>
      if Ascii.eqb c "e" || Ascii.eqb c "E" then
        match parse_exponent r with
        | Some x => Some (D, k + x)
        | None => None
        end
      else None
  end.

(** A text that begins with a digit or the point, as a number does. *)
Definition starts_number (s : string) : Prop :=
  exists c r, s = String c r /\ (Spec.is_digit c = true \/ c = "."%char).

(** What [float_of_str] does with the text that is left between the
    white space. *)
Definition read_core (core : string) : outcome pyfloat :=
  let '(neg, body) := split_sign core in
  let low := Text.lower body in
  if String.eqb low "inf" || String.eqb low "infinity" then Ret (FInf neg)
  else if String.eqb low "nan" then Ret FNan
  else match parse_decimal body with
       | Some (D, k) => Ret (float_of_decimal neg D k)
       | None => Raise ValueError
       end.

(** What the scanning loops make of the digits found: [int] of them,
    which raises when there is no integer for them. *)
Definition converted (found : option string) : outcome (option Z) :=
  match found with
  | Some t =>
      match Spec.integer_of t with
      | Some n => Ret (Some n)
      | None => Raise ValueError
      end
  | None => Ret None
  end.

(** A finite float [m * 2 ^ e] whose integer part converts back to a
    float: the integer part is below [2 ^ 1023], or it has at most 54
    bits before [e] zeros and is below [2 ^ 1024]. *)
Definition fits (m : N) (e : Z) : Prop :=
  (e < 0 -> Z.of_N m / 2 ^ (- e) < 2 ^ 1023) /\
  (0 <= e -> Z.of_N m <= 2 ^ 53 /\ Z.of_N m * 2 ^ e < 2 ^ 1024).

Definition fits_float (x : pyfloat) : Prop :=
  match x with
  | FFin _ m e => fits m e
  | _ => True
  end.

End Reading.

(** ** Start-up check of the single-file version *)

Module Startup.

(** The desktop: the world of processes and the error dialogs that
    [messagebox.showerror] has put up, oldest first, each with its title
    and its message. *)
Record desktop : Type := {
  os : world;
  dialogs : list (string * string)
}.

Definition showerror (title message : string) : M desktop unit :=
  fun s => (Ret tt, {| os := os s; dialogs := dialogs s ++ [(title, message)] |}).

(** A computation on the world of processes, run on the desktop. *)
Definition on_os {A : Type} (m : M world A) : M desktop A :=
  fun s =>
    let '(r, w') := m (os s) in
    (r, {| os := w'; dialogs := dialogs s |}).

Definition echo_command : list string := ["powershell"; "-Command"; "echo test"].

(** [check_requirements()]; [platform] is [sys.platform]. *)
Definition check_requirements (platform : string) : M desktop bool :=
  if negb (String.eqb platform "win32") then
    shown <- showerror "Error" "Windows only" ;;
    mret false
  else
    mtry
      (result <- on_os (subprocess_run echo_command) ;;
       mret true)
      any_Exception
      (shown <- showerror "Error" "PowerShell required" ;;
       mret false).

End Startup.

(** ** Further specification-level notions *)

Module Extra.

Definition laptop_name (k : Z) : string :=
  "Laptop Display " +:+ Text.str_of_int k.

Definition external_name (k : Z) : string :=
  "External Monitor " +:+ Text.str_of_int k.

(** The record that a WMI query builds for its data line number [i]
    (counted from 0). *)
Definition laptop_record (flag : string) (i : Z) (line : string)
    : Detector.DisplayInfo :=
  {| Detector.name := laptop_name (i + 1);
     Detector.type := "internal";
     Detector.method := "wmi";
     Detector.properties :=
       <["instance" := PyStr (Text.strip line)]> (<[flag := PyBool true]> ∅) |}.

(** The record that the enumeration builds for the monitor that comes
    when [n] displays are already listed. *)
Definition external_record (n : Z) (mon : monitor) : Detector.DisplayInfo :=
  {| Detector.name := external_name (n + 1);
     Detector.type := "external";
     Detector.method := "ddc";
     Detector.properties :=
       <["handle" := PyInt (hMonitor mon)]>
         (<["rect_info" := Detector.rect_value (lprcMonitor mon)]> ∅) |}.

(** The data lines of a query output: what is left of its lines after
    the two header lines, the blank lines and the lines that begin with a
    dash. *)
Definition query_lines (out : string) : list string :=
  Detector.data_lines_of (Text.split Detector.LF (Text.strip out)).

Definition methods_command : list string :=
  ["powershell"; "-Command";
   "Get-WmiObject -Namespace root/WMI -Class WmiMonitorBrightnessMethods | Select-Object InstanceName"].

Definition current_command : list string :=
  ["powershell"; "-Command";
   "Get-WmiObject -Namespace root/WMI -Class WmiMonitorBrightness | Select-Object InstanceName, CurrentBrightness"].

(** The records that a completed or failed query gives. *)
Definition query_records (flag : string) (res : proc_result)
    : list Detector.DisplayInfo :=
  match res with
  | Completed rc out _ =>
      if rc =? 0
      then imap (fun k line => laptop_record flag (Z.of_nat k) line)
                (query_lines out)
      else []
  | Failed _ => []
  end.

Definition names (l : list Detector.DisplayInfo) : list string :=
  map Detector.name l.

(** A text with every character outside the safe class deleted. *)
Definition cleaned (s : string) : string :=
  Text.keep_chars Security.safe_char s.

(** The query text of a WMI command, with the method and the parameters
    cleaned. *)
Definition wmi_query_text (namespace class_name : string)
    (method parameters : option string) : string :=
  if Security.truthy method then
    if Security.truthy parameters then
      "(Get-WmiObject -Namespace " +:+ namespace +:+ " -Class " +:+ class_name +:+
      ")." +:+ cleaned (Security.fmt method) +:+ "(" +:+
      cleaned (Security.fmt parameters) +:+ ")"
    else
      "(Get-WmiObject -Namespace " +:+ namespace +:+ " -Class " +:+ class_name +:+
      ")." +:+ cleaned (Security.fmt method) +:+ "()"
  else
    "Get-WmiObject -Namespace " +:+ namespace +:+ " -Class " +:+ class_name.

(** The setter command for a brightness, written out. *)
Definition set_template (brightness : Z) : list string :=
  ["powershell"; "-Command";
   "(Get-WmiObject -Namespace root/WMI -Class WmiMonitorBrightnessMethods).WmiSetBrightness(1," +:+
   Text.str_of_int brightness +:+ ")"].

(** What a run of a command answers for a setter: success on exit
    status 0. *)
Definition exit_ok (res : proc_result) : bool :=
  match res with
  | Completed rc _ _ => rc =? 0
  | Failed _ => false
  end.

(** A list of records whose element [k] (from 0) is named
    "Laptop Display k+1". *)
Definition numbered (l : list Detector.DisplayInfo) : Prop :=
  forall (k : nat) (r : Detector.DisplayInfo),
    l !! k = Some r -> Detector.name r = laptop_name (Z.of_nat k + 1).

(** A record that the dispatcher can serve: its method is one of the two
    registered ones and no property hides it in the dictionary. *)
Definition servable (r : Detector.DisplayInfo) : Prop :=
  (Detector.method r = "wmi" \/ Detector.method r = "ddc") /\
  Detector.properties r !! "method" = None.

(** The record that the single-file enumeration builds for the monitor
    that comes when [n] displays are already listed. *)
Definition legacy_external (n : Z) (mon : monitor) : gmap string pyvalue :=
  <["name" := PyStr ("External Monitor " +:+ Text.str_of_int n)]>
    (<["type" := PyStr "external"]>
       (<["method" := PyStr "ddc"]>
          (<["handle" := PyInt (hMonitor mon)]> ∅))).

(** What the single-file detector concludes from its one query: a laptop
    display when the command exits with status 0 and prints "Count". *)
Definition legacy_laptop (res : proc_result) : list (gmap string pyvalue) :=
  match res with
  | Completed rc out _ =>
      if (rc =? 0) && Text.contains "Count" out then [Legacy.laptop_display] else []
  | Failed _ => []
  end.

End Extra.

(** * Properties *)

(** ** Facts about texts *)

Module StringFacts.
Import Reading.

Lemma app_cons (c : ascii) (s t : string) : String c s +:+ t = String c (s +:+ t).
Proof. reflexivity. Qed.

Lemma app_empty_l (s : string) : "" +:+ s = s.
Proof. reflexivity. Qed.

Lemma app_empty_r (s : string) : s +:+ "" = s.
Proof.
  induction s as [|c s IH]; [reflexivity|]. now rewrite app_cons, IH.
Qed.

Lemma app_assoc_str (a b c : string) : (a +:+ b) +:+ c = a +:+ (b +:+ c).
Proof.
  induction a as [|x a IH]; [reflexivity|]. now rewrite !app_cons, IH.
Qed.

Lemma app_length (a b : string) :
  String.length (a +:+ b) = (String.length a + String.length b)%nat.
Proof.
  induction a as [|x a IH]; [reflexivity|]. rewrite app_cons. simpl. now rewrite IH.
Qed.

Lemma rev_app_app (a b c : string) :
  String.rev_app (a +:+ b) c = String.rev_app b (String.rev_app a c).
Proof. revert c. induction a as [|x a IH]; intros c; simpl; [reflexivity | apply IH]. Qed.

Lemma rev_app_rev_app (a b c : string) :
  String.rev_app (String.rev_app a b) c = String.rev_app b (a +:+ c).
Proof.
  revert b c. induction a as [|x a IH]; intros b c; simpl; [reflexivity|].
  now rewrite IH.
Qed.

Lemma rev_rev (s : string) : String.rev (String.rev s) = s.
Proof. unfold String.rev. rewrite rev_app_rev_app. simpl. apply app_empty_r. Qed.

Lemma rev_app_append (a b : string) : String.rev_app a b = String.rev a +:+ b.
Proof.
  unfold String.rev. revert b.
  induction a as [|x a IH]; intros b; simpl; [reflexivity|].
  rewrite (IH (String x b)), (IH (String x "")).
  now rewrite app_assoc_str.
Qed.

Lemma rev_app (a b : string) :
  String.rev (a +:+ b) = String.rev b +:+ String.rev a.
Proof.
  unfold String.rev at 1. rewrite rev_app_app.
  fold (String.rev a). apply rev_app_append.
Qed.

Lemma all_chars_app p s1 s2 :
  Text.all_chars p (s1 +:+ s2) = Text.all_chars p s1 && Text.all_chars p s2.
Proof.
  induction s1 as [|c s1 IH]; simpl; [reflexivity|].
  now rewrite IH, andb_assoc.
Qed.

Lemma all_chars_ext (p q : ascii -> bool) s :
  (forall c, p c = q c) -> Text.all_chars p s = Text.all_chars q s.
Proof.
  intros H. induction s as [|c s IH]; simpl; [reflexivity|]. now rewrite H, IH.
Qed.

Lemma all_chars_rev p s : Text.all_chars p (String.rev s) = Text.all_chars p s.
Proof.
  induction s as [|c s IH]; [reflexivity|].
  change (String c s) with (String c "" +:+ s) at 1.
  rewrite rev_app, all_chars_app, IH. simpl.
  now rewrite andb_true_r, andb_comm.
Qed.

Lemma last_char (p : ascii -> bool) (s : string) :
  Text.nonempty s = true -> Text.all_chars p s = true ->
  exists a c, s = a +:+ String c "" /\ p c = true.
Proof.
  induction s as [|x s IH]; [discriminate|].
  intros _ [Hx Hs]%andb_prop.
  destruct s as [|y s'].
  - exists "", x. now split.
  - destruct (IH eq_refl Hs) as (a & c & -> & Hc).
    exists (String x a), c. now split.
Qed.

(** A character that is in no position of a text. *)
Lemma contains_char_none (sep : ascii) (p : ascii -> bool) (s : string) :
  p sep = false -> Text.all_chars p s = true ->
  Text.contains (String sep "") s = false.
Proof.
  intros Hsep. induction s as [|c s IH]; simpl; [reflexivity|].
  intros [Hc Hs]%andb_prop.
  destruct (Ascii.ascii_dec sep c) as [->|_]; [congruence|].
  simpl. now apply IH.
Qed.

Lemma split_at_sep (sep : ascii) (a b : string) :
  Text.contains (String sep "") a = false ->
  Text.split sep (a +:+ String sep b) = a :: Text.split sep b.
Proof.
  induction a as [|c a IH]; simpl.
  - intros _. now rewrite Ascii.eqb_refl.
  - destruct (Ascii.ascii_dec sep c) as [->|Hne]; simpl.
    + now destruct a.
    + intros H. rewrite (IH H).
      destruct (Ascii.eqb_spec c sep) as [->|_]; [contradiction | reflexivity].
Qed.

(** A text without the separator splits into itself alone. *)
Lemma split_without_sep (sep : ascii) (s : string) :
  Text.contains (String sep EmptyString) s = false ->
  Text.split sep s = [s].
Proof.
  induction s as [|c s IH]; simpl; [reflexivity|].
  destruct (Ascii.ascii_dec sep c) as [->|Hne]; simpl.
  - now destruct s.
  - intros H. rewrite (IH H).
    destruct (Ascii.eqb_spec c sep) as [->|_]; [contradiction|reflexivity].
Qed.

(** *** What [float] and [int] strip *)

Lemma solid_app (s t : string) : solid s -> solid (s +:+ t).
Proof. destruct s; [contradiction | exact id]. Qed.

Lemma lstrip_numeric_solid (s : string) : solid s -> Text.lstrip_numeric s = s.
Proof. destruct s as [|c s]; [contradiction|]. simpl. now intros ->. Qed.

Lemma lstrip_numeric_pad (pad rest : string) :
  Text.all_chars Text.isspace_numeric pad = true ->
  Text.lstrip_numeric (pad +:+ rest) = Text.lstrip_numeric rest.
Proof.
  induction pad as [|c pad IH]; simpl; [reflexivity|].
  intros [Hc Hp]%andb_prop. rewrite Hc. now apply IH.
Qed.

Lemma lstrip_numeric_split (s : string) :
  exists pad, s = pad +:+ Text.lstrip_numeric s /\
              Text.all_chars Text.isspace_numeric pad = true.
Proof.
  induction s as [|c s (pad & Hs & Hp)]; [now exists ""|].
  simpl. destruct (Text.isspace_numeric c) eqn:Hc.
  - exists (String c pad). rewrite app_cons, <- Hs. split; [reflexivity|].
    simpl. now rewrite Hc.
  - now exists "".
Qed.

(** A numeral that begins and ends with characters that are no white
    space is what is left of it between white space. *)
Lemma strip_numeric_core (before core after : string) :
  Text.all_chars Text.isspace_numeric before = true ->
  Text.all_chars Text.isspace_numeric after = true ->
  solid core -> solid (String.rev core) ->
  Text.strip_numeric (before +:+ core +:+ after) = core.
Proof.
  intros Hb Ha Hc Hr. unfold Text.strip_numeric.
  rewrite (lstrip_numeric_pad _ _ Hb).
  rewrite (lstrip_numeric_solid _ (solid_app _ _ Hc)).
  rewrite rev_app, lstrip_numeric_pad by now rewrite all_chars_rev.
  rewrite (lstrip_numeric_solid _ Hr). apply rev_rev.
Qed.

Lemma strip_numeric_split (s : string) :
  exists before after,
    s = before +:+ Text.strip_numeric s +:+ after /\
    Text.all_chars Text.isspace_numeric before = true /\
    Text.all_chars Text.isspace_numeric after = true.
Proof.
  unfold Text.strip_numeric.
  destruct (lstrip_numeric_split s) as (before & Hs & Hb).
  set (t := Text.lstrip_numeric s) in *.
  destruct (lstrip_numeric_split (String.rev t)) as (pad & Ht & Hp).
  exists before, (String.rev pad). split; [|split; [exact Hb|]].
  - rewrite <- rev_app, <- Ht, rev_rev. exact Hs.
  - now rewrite all_chars_rev.
Qed.

(** The end of a text is solid when its last part is. *)
Lemma solid_rev_app (s t : string) :
  solid (String.rev t) -> solid (String.rev (s +:+ t)).
Proof. intros H. rewrite rev_app. now apply solid_app. Qed.

Lemma solid_rev_cons (c : ascii) (t : string) :
  solid (String.rev t) -> solid (String.rev (String c t)).
Proof. apply (solid_rev_app (String c "") t). Qed.

End StringFacts.

(** ** The grammar of numerals and the parsers *)

Module NumeralFacts.
Import Num StringFacts Reading.

(** The digit table of the grammar against the character tests of the
    parsers. *)
Lemma is_digit_decimal c : Spec.is_digit c = Text.isdecimal_char c.
Proof. destruct c as [[] [] [] [] [] [] [] []]; reflexivity. Qed.

Lemma digit_value_table c :
  Spec.is_digit c = true -> Spec.digit c = Some (Text.digit_value c).
Proof. destruct c as [[] [] [] [] [] [] [] []]; (discriminate || reflexivity). Qed.

Lemma blank_numeric c : Spec.blank c = Text.isspace_numeric c.
Proof. destruct c as [[] [] [] [] [] [] [] []]; vm_compute; reflexivity. Qed.

Lemma blank_text s :
  Text.all_chars Spec.blank s = Text.all_chars Text.isspace_numeric s.
Proof. apply all_chars_ext, blank_numeric. Qed.

Lemma digit_solid c : Spec.is_digit c = true -> Text.isspace_numeric c = false.
Proof. destruct c as [[] [] [] [] [] [] [] []]; (discriminate || reflexivity). Qed.

Lemma digit_not_sign c :
  Spec.is_digit c = true -> forall r, split_sign (String c r) = (false, String c r).
Proof. destruct c as [[] [] [] [] [] [] [] []]; (discriminate || reflexivity). Qed.

Lemma digit_not_underscore c :
  Spec.is_digit c = true -> Ascii.eqb c "_" = false.
Proof. destruct c as [[] [] [] [] [] [] [] []]; (discriminate || reflexivity). Qed.

Lemma digit_not_point c : Spec.is_digit c = true -> c <> "."%char.
Proof. intros H ->. discriminate. Qed.

Lemma digit_no_keyword c r :
  Spec.is_digit c = true ->
  String.eqb (Text.lower (String c r)) "inf" = false /\
  String.eqb (Text.lower (String c r)) "infinity" = false /\
  String.eqb (Text.lower (String c r)) "nan" = false.
Proof.
  destruct c as [[] [] [] [] [] [] [] []]; try discriminate;
    intros _; repeat split; reflexivity.
Qed.

(** The value of a run of digits, read from the left with an
    accumulator as the parsers do. *)
Lemma decimal_go_value ds acc :
  Text.all_chars Spec.is_digit ds = true ->
  Text.decimal_go acc ds = acc * 10 ^ Z.of_nat (String.length ds) + Spec.value ds.
Proof.
  revert acc. induction ds as [|c ds IH]; intros acc.
  - intros _. simpl. lia.
  - intros [Hc Hds]%andb_prop. simpl Text.decimal_go. rewrite (IH _ Hds).
    simpl Spec.value. rewrite (digit_value_table c Hc). simpl default.
    simpl String.length. rewrite Nat2Z.inj_succ, Z.pow_succ_r by lia. ring.
Qed.

Lemma value_nonneg ds : 0 <= Spec.value ds.
Proof.
  induction ds as [|c ds IH]; simpl; [lia|].
  assert (H : 0 <= default 0 (Spec.digit c)).
  { destruct c as [[] [] [] [] [] [] [] []]; simpl; lia. }
  pose proof (Z.pow_nonneg 10 (Z.of_nat (String.length ds)) ltac:(lia)). nia.
Qed.

Lemma decimal_value_value ds :
  Text.all_chars Spec.is_digit ds = true -> Text.decimal_value ds = Spec.value ds.
Proof. intros H. unfold Text.decimal_value. rewrite (decimal_go_value _ _ H). lia. Qed.

(** What a digit part is made of. *)
Lemma digitpart_digits s ds :
  Spec.digitpart s ds -> Text.all_chars Spec.is_digit ds = true.
Proof. induction 1; simpl; rewrite ?H; auto. Qed.

Lemma digitpart_first s ds :
  Spec.digitpart s ds -> exists c s', s = String c s' /\ Spec.is_digit c = true.
Proof. destruct 1; eauto. Qed.

Lemma digitpart_solid s ds : Spec.digitpart s ds -> solid s.
Proof. destruct 1; simpl; now apply digit_solid. Qed.

Lemma digitpart_solid_end s ds : Spec.digitpart s ds -> solid (String.rev s).
Proof.
  induction 1.
  - simpl. now apply digit_solid.
  - now apply solid_rev_cons.
  - now apply solid_rev_cons, solid_rev_cons.
Qed.

(** *** The parser of digit parts *)

Lemma stops_empty : stops "".
Proof. reflexivity. Qed.

Lemma stops_char c r :
  Text.isdecimal_char c = false -> Ascii.eqb c "_" = false -> stops (String c r).
Proof. intros H1 H2. unfold stops. simpl. now rewrite H1, H2. Qed.

(** Completeness: a digit part followed by a text at which it ends is
    read in full. *)
Lemma digits_tail_complete s ds r :
  Spec.digitpart s ds -> stops r -> digits_tail (s +:+ r) = (ds, r).
Proof.
  intros H Hr. induction H as [c Hc | c s ds Hc H IH | c s ds Hc H IH].
  - rewrite app_cons, app_empty_l. simpl.
    rewrite <- is_digit_decimal, Hc. now rewrite Hr.
  - rewrite app_cons. simpl. rewrite <- is_digit_decimal, Hc. now rewrite IH.
  - rewrite !app_cons. simpl digits_tail at 1.
    rewrite <- is_digit_decimal, Hc.
    destruct (digitpart_first _ _ H) as (c' & s' & -> & Hc').
    rewrite app_cons in *.
    cbn [digits_tail]. cbn [digits_tail] in IH.
    change (Text.isdecimal_char "_") with false. cbv iota.
    change (Ascii.eqb "_" "_") with true. cbv iota.
    rewrite <- (is_digit_decimal c'), Hc' in *.
    now rewrite IH.
Qed.

Lemma digitpart_complete s ds r :
  Spec.digitpart s ds -> stops r -> digitpart (s +:+ r) = Some (ds, r).
Proof.
  intros H Hr. pose proof (digits_tail_complete _ _ _ H Hr) as Ht.
  destruct (digitpart_first _ _ H) as (c & s' & -> & Hc).
  rewrite app_cons in *. simpl in *.
  rewrite <- is_digit_decimal, Hc in *.
  destruct (digits_tail (s' +:+ r)) as [ds' r'].
  injection Ht as <- <-. reflexivity.
Qed.

(** Soundness: what the parser reads after a digit continues a digit
    part; what it reads from a digit on is a digit part. *)
Lemma digits_tail_sound s :
  forall ds r, digits_tail s = (ds, r) ->
  exists s0, s = s0 +:+ r /\
    (forall c0, Spec.is_digit c0 = true ->
                Spec.digitpart (String c0 s0) (String c0 ds)) /\
    (forall c s', s = String c s' -> Spec.is_digit c = true ->
                  Spec.digitpart s0 ds).
Proof.
  induction s as [|c s IH]; intros ds r.
  - intros [= <- <-]. exists "". split; [reflexivity|]. split.
    + intros c0 H0. now constructor.
    + discriminate.
  - simpl. destruct (Text.isdecimal_char c) eqn:Hc.
    + destruct (digits_tail s) as [ds' r'] eqn:Ht.
      intros [= <- <-].
      destruct (IH ds' r' eq_refl) as (s0 & -> & Hnext & _).
      rewrite <- is_digit_decimal in Hc.
      exists (String c s0). split; [reflexivity|]. split.
      * intros c0 H0. apply Spec.digitpart_more; [exact H0 | now apply Hnext].
      * intros c1 s1 [= <- <-] _. now apply Hnext.
    + assert (Hnone : (ds, r) = ("", String c s) ->
                exists s0, String c s = s0 +:+ r /\
                  (forall c0, Spec.is_digit c0 = true ->
                              Spec.digitpart (String c0 s0) (String c0 ds)) /\
                  (forall c1 s', String c s = String c1 s' ->
                                 Spec.is_digit c1 = true ->
                                 Spec.digitpart s0 ds)).
      { intros [= -> ->]. exists "". split; [reflexivity|]. split.
        - intros c0 H0. now constructor.
        - intros c1 s1 [= <- <-] H1. rewrite is_digit_decimal in H1. congruence. }
      destruct (Ascii.eqb_spec c "_") as [->|Hu].
      * destruct s as [|c' s'']; [intros H; now apply Hnone|].
        destruct (Text.isdecimal_char c') eqn:Hc';
          [|intros H; now apply Hnone].
        intros Ht.
        destruct (IH ds r Ht) as (s0 & Hs & _ & Hpart).
        rewrite <- is_digit_decimal in Hc'.
        specialize (Hpart c' s'' eq_refl Hc').
        exists (String "_" s0). split; [now rewrite app_cons, <- Hs|]. split.
        -- intros c0 H0. now apply Spec.digitpart_under.
        -- intros c1 s1 [= <- <-] H1. discriminate.
      * intros H. now apply Hnone.
Qed.

Lemma digitpart_sound s ds r :
  digitpart s = Some (ds, r) ->
  exists s0, s = s0 +:+ r /\ Spec.digitpart s0 ds.
Proof.
  destruct s as [|c s]; [discriminate|]. simpl.
  destruct (Text.isdecimal_char c) eqn:Hc; [|discriminate].
  destruct (digits_tail s) as [ds' r'] eqn:Ht. intros [= <- <-].
  destruct (digits_tail_sound s ds' r' Ht) as (s0 & -> & Hnext & _).
  exists (String c s0). split; [reflexivity|].
  apply Hnext. now rewrite is_digit_decimal.
Qed.

Lemma digitpart_none c r :
  Text.isdecimal_char c = false -> digitpart (String c r) = None.
Proof. intros H. simpl. now rewrite H. Qed.


Lemma digitpart_nonempty s ds : Spec.digitpart s ds -> Text.nonempty ds = true.
Proof. destruct 1; reflexivity. Qed.

Lemma digitpart_whole s ds : Spec.digitpart s ds -> digitpart s = Some (ds, "").
Proof.
  intros H. pose proof (digitpart_complete s ds "" H stops_empty) as Hp.
  now rewrite app_empty_r in Hp.
Qed.

(** *** Signs *)

Lemma split_sign_cases s :
  (exists r, s = String "-" r /\ split_sign s = (true, r)) \/
  (exists r, s = String "+" r /\ split_sign s = (false, r)) \/
  split_sign s = (false, s).
Proof.
  destruct s as [|c r]; [now (right; right)|].
  destruct c as [[] [] [] [] [] [] [] []];
    first [ now (right; right)
          | left; eexists; split; reflexivity
          | right; left; eexists; split; reflexivity ].
Qed.

(** *** Exponents *)

Lemma exponent_mark_cases c :
  Spec.exponent_mark c = true -> c = "e"%char \/ c = "E"%char.
Proof.
  unfold Spec.exponent_mark. intros [H|H]%orb_prop;
    apply Ascii.eqb_eq in H; auto.
Qed.

Lemma exponent_stops x e : Spec.exponent x e -> stops x.
Proof.
  destruct 1 as [|c s ds Hc _|c s ds Hc _|c s ds Hc _]; [apply stops_empty|..];
    destruct (exponent_mark_cases c Hc) as [-> | ->]; reflexivity.
Qed.

Lemma exponent_no_point x e r : Spec.exponent x e -> x <> String "." r.
Proof.
  destruct 1 as [|c s ds Hc _|c s ds Hc _|c s ds Hc _]; [discriminate|..];
    destruct (exponent_mark_cases c Hc) as [-> | ->]; discriminate.
Qed.

Lemma exponent_no_digit x e : Spec.exponent x e -> digitpart x = None.
Proof.
  destruct 1 as [|c s ds Hc _|c s ds Hc _|c s ds Hc _]; [reflexivity|..];
    destruct (exponent_mark_cases c Hc) as [-> | ->]; reflexivity.
Qed.

Lemma parse_exponent_plain s ds :
  Spec.digitpart s ds -> parse_exponent s = Some (Spec.value ds).
Proof.
  intros H. unfold parse_exponent.
  destruct (digitpart_first _ _ H) as (c & s' & -> & Hc).
  rewrite (digit_not_sign c Hc), (digitpart_whole _ _ H).
  now rewrite (decimal_value_value _ (digitpart_digits _ _ H)).
Qed.

Lemma parse_exponent_plus s ds :
  Spec.digitpart s ds -> parse_exponent (String "+" s) = Some (Spec.value ds).
Proof.
  intros H. unfold parse_exponent.
  change (split_sign (String "+" s)) with (false, s). cbv beta iota zeta.
  rewrite (digitpart_whole _ _ H).
  now rewrite (decimal_value_value _ (digitpart_digits _ _ H)).
Qed.

Lemma parse_exponent_minus s ds :
  Spec.digitpart s ds -> parse_exponent (String "-" s) = Some (- Spec.value ds).
Proof.
  intros H. unfold parse_exponent.
  change (split_sign (String "-" s)) with (true, s). cbv beta iota zeta.
  rewrite (digitpart_whole _ _ H).
  now rewrite (decimal_value_value _ (digitpart_digits _ _ H)).
Qed.

Lemma parse_exponent_sound r x c :
  parse_exponent r = Some x -> Spec.exponent_mark c = true ->
  Spec.exponent (String c r) x.
Proof.
  unfold parse_exponent. intros H Hc.
  destruct (split_sign r) as [neg body] eqn:Hs.
  destruct (digitpart body) as [[ds [|c' r']]|] eqn:Hd; try discriminate.
  destruct (digitpart_sound _ _ _ Hd) as (s0 & -> & Hpart).
  rewrite app_empty_r in *.
  pose proof (decimal_value_value _ (digitpart_digits _ _ Hpart)) as Hv.
  rewrite Hv in H.
  destruct (split_sign_cases r) as [(r0 & -> & Hr) | [(r0 & -> & Hr) | Hr]];
    rewrite Hr in Hs; injection Hs as <- <-; injection H as <-.
  - now apply Spec.exponent_minus.
  - now apply Spec.exponent_plus.
  - now apply Spec.exponent_plain.
Qed.

Lemma finish_complete D k x e :
  Spec.exponent x e -> finish D k x = Some (D, k + e).
Proof.
  destruct 1 as [|c s ds Hc H|c s ds Hc H|c s ds Hc H]; unfold finish.
  - now rewrite Z.add_0_r.
  - fold (Spec.exponent_mark c). now rewrite Hc, (parse_exponent_plain _ _ H).
  - fold (Spec.exponent_mark c). now rewrite Hc, (parse_exponent_plus _ _ H).
  - fold (Spec.exponent_mark c). now rewrite Hc, (parse_exponent_minus _ _ H).
Qed.

Lemma finish_sound D k s2 D' k' :
  finish D k s2 = Some (D', k') ->
  exists e, Spec.exponent s2 e /\ D' = D /\ k' = k + e.
Proof.
  unfold finish. destruct s2 as [|c r].
  - intros [= <- <-]. exists 0. split; [constructor|]. split; [reflexivity | lia].
  - fold (Spec.exponent_mark c). destruct (Spec.exponent_mark c) eqn:Hc; [|discriminate].
    destruct (parse_exponent r) as [x|] eqn:Hx; [|discriminate].
    intros [= <- <-]. exists x. split; [|now split].
    now apply parse_exponent_sound.
Qed.

(** *** Decimal literals *)

Lemma parse_decimal_unfold s :
  parse_decimal s =
  let '(ip, s1) :=
    match digitpart s with Some p => p | None => (EmptyString, s) end in
  let '(fp, s2) :=
    match s1 with
    | String "." r =>
        match digitpart r with Some p => p | None => (EmptyString, r) end
    | _ => (EmptyString, s1)
    end in
  if Text.nonempty ip || Text.nonempty fp then
    finish (Text.decimal_value (ip +:+ fp)) (- Z.of_nat (String.length fp)) s2
  else None.
Proof. reflexivity. Qed.

Lemma value_of_parts ds fs :
  Text.all_chars Spec.is_digit ds = true ->
  Text.all_chars Spec.is_digit fs = true ->
  Text.decimal_value (ds +:+ fs) = Spec.value (ds +:+ fs).
Proof.
  intros H1 H2. apply decimal_value_value. now rewrite all_chars_app, H1, H2.
Qed.

(** A text that is no point and the fraction after it. *)
Lemma no_fraction s1 :
  (forall r, s1 <> String "." r) ->
  match s1 with
  | String "." r =>
      match digitpart r with Some p => p | None => (EmptyString, r) end
  | _ => (EmptyString, s1)
  end = (EmptyString, s1).
Proof.
  intros H. destruct s1 as [|c r]; [reflexivity|].
  destruct (Ascii.ascii_dec c ".") as [->|Hne]; [now destruct (H r)|].
  destruct c as [[] [] [] [] [] [] [] []]; try reflexivity. now destruct Hne.
Qed.

Lemma parse_decimal_complete n x ds fs e :
  Spec.number n ds fs -> Spec.exponent x e ->
  parse_decimal (n +:+ x) =
  Some (Spec.value (ds +:+ fs), e - Z.of_nat (String.length fs)).
Proof.
  intros Hn Hx. rewrite parse_decimal_unfold.
  pose proof (exponent_stops _ _ Hx) as Hstop.
  destruct Hn as [s fs H | s ds t fs Hs Ht | s ds H | s ds H].
  - (* .5 *)
    rewrite !app_cons, app_empty_l.
    rewrite (digitpart_none "." (s +:+ x) eq_refl).
    rewrite (digitpart_complete _ _ _ H Hstop).
    rewrite (digitpart_nonempty _ _ H).
    rewrite (value_of_parts "" fs eq_refl (digitpart_digits _ _ H)).
    rewrite (finish_complete _ _ _ _ Hx). do 2 f_equal. lia.
  - (* 1.5 *)
    rewrite app_assoc_str, (app_cons "." "" t), app_empty_l, app_cons.
    rewrite (digitpart_complete _ _ _ Hs (stops_char "." _ eq_refl eq_refl)).
    rewrite (digitpart_complete _ _ _ Ht Hstop).
    rewrite (digitpart_nonempty _ _ Hs).
    rewrite (value_of_parts ds fs (digitpart_digits _ _ Hs) (digitpart_digits _ _ Ht)).
    rewrite (finish_complete _ _ _ _ Hx). do 2 f_equal. lia.
  - (* 1 *)
    rewrite (digitpart_complete _ _ _ H Hstop).
    rewrite (no_fraction x) by (intros r; apply (exponent_no_point _ _ _ Hx)).
    rewrite (digitpart_nonempty _ _ H).
    rewrite (value_of_parts ds "" (digitpart_digits _ _ H) eq_refl).
    rewrite (finish_complete _ _ _ _ Hx). do 2 f_equal. simpl. lia.
  - (* 1. *)
    rewrite app_assoc_str, app_cons, app_empty_l.
    rewrite (digitpart_complete _ _ _ H (stops_char "." _ eq_refl eq_refl)).
    rewrite (exponent_no_digit _ _ Hx).
    rewrite (digitpart_nonempty _ _ H).
    rewrite (value_of_parts ds "" (digitpart_digits _ _ H) eq_refl).
    rewrite (finish_complete _ _ _ _ Hx). do 2 f_equal. simpl. lia.
Qed.

Lemma parse_decimal_sound body D k :
  parse_decimal body = Some (D, k) ->
  exists n x ds fs e,
    body = n +:+ x /\ Spec.number n ds fs /\ Spec.exponent x e /\
    D = Spec.value (ds +:+ fs) /\ k = e - Z.of_nat (String.length fs).
Proof.
  rewrite parse_decimal_unfold.
  destruct (digitpart body) as [[ip s1]|] eqn:Hip.
  - destruct (digitpart_sound _ _ _ Hip) as (s0 & -> & Hs0).
    pose proof (digitpart_digits _ _ Hs0) as Hds.
    destruct (Ascii.ascii_dec (match s1 with String c _ => c | _ => " "%char end) ".")
      as [Hpoint|Hnopoint].
    + destruct s1 as [|c r]; [discriminate|]. simpl in Hpoint. subst c.
      destruct (digitpart r) as [[fp s2]|] eqn:Hfp.
      * destruct (digitpart_sound _ _ _ Hfp) as (t0 & -> & Ht0).
        pose proof (digitpart_digits _ _ Ht0) as Hfs.
        rewrite (digitpart_nonempty _ _ Hs0). simpl orb. cbv iota.
        rewrite (value_of_parts _ _ Hds Hfs).
        intros (e & He & -> & ->)%finish_sound.
        exists (s0 +:+ "." +:+ t0), s2, ip, fp, e.
        split; [now rewrite !app_assoc_str|].
        split; [now constructor|]. split; [exact He|]. split; [reflexivity | lia].
      * rewrite (digitpart_nonempty _ _ Hs0). simpl orb. cbv iota.
        rewrite (value_of_parts ip "" Hds eq_refl).
        intros (e & He & -> & ->)%finish_sound.
        exists (s0 +:+ "."), r, ip, "", e.
        split; [now rewrite app_assoc_str|].
        split; [now constructor|]. split; [exact He|]. split; [reflexivity|].
        simpl. lia.
    + rewrite (no_fraction s1).
      2:{ intros r ->. now apply Hnopoint. }
      rewrite (digitpart_nonempty _ _ Hs0). simpl orb. cbv iota.
      rewrite (value_of_parts ip "" Hds eq_refl).
      intros (e & He & -> & ->)%finish_sound.
      exists s0, s1, ip, "", e.
      split; [reflexivity|].
      split; [now constructor|]. split; [exact He|]. split; [reflexivity|].
      simpl. lia.
  - destruct (Ascii.ascii_dec (match body with String c _ => c | _ => " "%char end) ".")
      as [Hpoint|Hnopoint].
    + destruct body as [|c r]; [discriminate|]. simpl in Hpoint. subst c.
      destruct (digitpart r) as [[fp s2]|] eqn:Hfp; [|discriminate].
      destruct (digitpart_sound _ _ _ Hfp) as (t0 & -> & Ht0).
      pose proof (digitpart_digits _ _ Ht0) as Hfs.
      rewrite (digitpart_nonempty _ _ Ht0). simpl orb. cbv iota.
      rewrite (value_of_parts "" _ eq_refl Hfs).
      intros (e & He & -> & ->)%finish_sound.
      exists ("." +:+ t0), s2, "", fp, e.
      split; [reflexivity|].
      split; [now constructor|]. split; [exact He|]. split; [reflexivity | lia].
    + rewrite (no_fraction body).
      2:{ intros r ->. now apply Hnopoint. }
      discriminate.
Qed.

(** *** Numerals *)

Lemma number_starts n ds fs x : Spec.number n ds fs -> starts_number (n +:+ x).
Proof.
  destruct 1 as [s fs H | s ds t fs Hs Ht | s ds H | s ds H].
  - exists "."%char, (s +:+ x). split; [reflexivity | now right].
  - destruct (digitpart_first _ _ Hs) as (c & s' & -> & Hc).
    eexists c, _. split; [now rewrite !app_cons | now left].
  - destruct (digitpart_first _ _ H) as (c & s' & -> & Hc).
    eexists c, _. split; [now rewrite !app_cons | now left].
  - destruct (digitpart_first _ _ H) as (c & s' & -> & Hc).
    eexists c, _. split; [now rewrite !app_cons | now left].
Qed.

Lemma starts_number_plain s :
  starts_number s ->
  split_sign s = (false, s) /\ solid s /\
  String.eqb (Text.lower s) "inf" || String.eqb (Text.lower s) "infinity" = false /\
  String.eqb (Text.lower s) "nan" = false.
Proof.
  intros (c & r & -> & [Hc | ->]).
  - destruct (digit_no_keyword c r Hc) as (H1 & H2 & H3).
    rewrite H1, H2, H3, (digit_not_sign c Hc).
    repeat split. now apply digit_solid.
  - repeat split.
Qed.

Lemma number_solid_end n ds fs : Spec.number n ds fs -> solid (String.rev n).
Proof.
  destruct 1 as [s fs H | s ds t fs Hs Ht | s ds H | s ds H].
  - apply solid_rev_app. now apply (digitpart_solid_end s fs).
  - apply solid_rev_app, solid_rev_app. now apply (digitpart_solid_end t fs).
  - now apply (digitpart_solid_end s ds).
  - now apply solid_rev_app.
Qed.

Lemma floatnumber_solid_end n ds fs x e :
  Spec.number n ds fs -> Spec.exponent x e -> solid (String.rev (n +:+ x)).
Proof.
  intros Hn Hx.
  destruct Hx as [|c s es Hc H|c s es Hc H|c s es Hc H].
  - rewrite app_empty_r. now apply (number_solid_end n ds fs).
  - apply solid_rev_app, solid_rev_cons. now apply (digitpart_solid_end s es).
  - apply solid_rev_app, solid_rev_cons, solid_rev_cons.
    now apply (digitpart_solid_end s es).
  - apply solid_rev_app, solid_rev_cons, solid_rev_cons.
    now apply (digitpart_solid_end s es).
Qed.

Lemma float_of_str_core s : float_of_str s = read_core (Text.strip_numeric s).
Proof. reflexivity. Qed.

Lemma read_plain n x ds fs e neg :
  Spec.number n ds fs -> Spec.exponent x e ->
  (let low := Text.lower (n +:+ x) in
   if String.eqb low "inf" || String.eqb low "infinity" then Ret (FInf neg)
   else if String.eqb low "nan" then Ret FNan
   else match parse_decimal (n +:+ x) with
        | Some (D, k) => Ret (float_of_decimal neg D k)
        | None => Raise ValueError
        end) =
  Ret (float_of_decimal neg (Spec.value (ds +:+ fs))
         (e - Z.of_nat (String.length fs))).
Proof.
  intros Hn Hx. cbv zeta.
  destruct (starts_number_plain _ (number_starts n ds fs x Hn)) as (_ & _ & H1 & H2).
  now rewrite H1, H2, (parse_decimal_complete _ _ _ _ _ Hn Hx).
Qed.

(** Completeness: a numeral is read as the float of the number that it
    writes, and it is solid at both ends. *)
Lemma numeral_complete lit neg D k :
  Spec.numeral lit neg D k ->
  read_core lit = Ret (float_of_decimal neg D k) /\
  solid lit /\ solid (String.rev lit).
Proof.
  destruct 1 as [n x ds fs e Hn Hx | n x ds fs e Hn Hx | n x ds fs e Hn Hx];
    unfold read_core.
  - destruct (starts_number_plain _ (number_starts n ds fs x Hn)) as (Hs & Hsolid & _).
    rewrite Hs. split; [now apply read_plain|]. split; [exact Hsolid|].
    now apply (floatnumber_solid_end n ds fs x e).
  - simpl split_sign. split; [now apply read_plain|]. split; [reflexivity|].
    now apply solid_rev_cons, (floatnumber_solid_end n ds fs x e).
  - simpl split_sign. split; [now apply read_plain|]. split; [reflexivity|].
    now apply solid_rev_cons, (floatnumber_solid_end n ds fs x e).
Qed.

(** Soundness: whatever is read is an infinity or a NaN by name, or the
    float of a numeral. *)
Lemma read_core_sound core x :
  read_core core = Ret x ->
  x = FNan \/ (exists neg, x = FInf neg) \/
  exists neg D k, Spec.numeral core neg D k /\ x = float_of_decimal neg D k.
Proof.
  unfold read_core.
  destruct (split_sign core) as [neg body] eqn:Hs.
  destruct (_ || _); [intros [= <-]; right; left; now exists neg|].
  destruct (String.eqb _ _); [intros [= <-]; now left|].
  destruct (parse_decimal body) as [[D k]|] eqn:Hp; [|discriminate].
  intros [= <-]. right. right.
  destruct (parse_decimal_sound _ _ _ Hp) as (n & xs & ds & fs & e & Hb & Hn & Hx & HD & Hk).
  exists neg, D, k. split; [|reflexivity]. rewrite HD, Hk.
  destruct (split_sign_cases core) as [(r0 & Hc & Hr) | [(r0 & Hc & Hr) | Hr]];
    rewrite Hr in Hs; injection Hs as <- <-.
  - rewrite Hc, Hb. now constructor.
  - rewrite Hc, Hb. now constructor.
  - rewrite Hb. now constructor.
Qed.

(** The parser of [float] against the grammar. *)
Lemma reads_as_complete s x : Spec.reads_as s x -> float_of_str s = Ret x.
Proof.
  intros (before & lit & after & neg & D & k & -> & Hb & Ha & Hlit & ->).
  rewrite blank_text in Hb, Ha.
  destruct (numeral_complete _ _ _ _ Hlit) as (Hread & Hs & He).
  rewrite float_of_str_core.
  now rewrite (strip_numeric_core before lit after Hb Ha Hs He).
Qed.

Lemma reads_as_sound s x :
  float_of_str s = Ret x ->
  x = FNan \/ (exists neg, x = FInf neg) \/ Spec.reads_as s x.
Proof.
  rewrite float_of_str_core. intros H.
  destruct (read_core_sound _ _ H) as [-> | [Hinf | (neg & D & k & Hlit & ->)]];
    [now left | now (right; left) | right; right].
  destruct (strip_numeric_split s) as (before & after & Hs & Hb & Ha).
  exists before, (Text.strip_numeric s), after, neg, D, k.
  rewrite !blank_text. now repeat split.
Qed.

End NumeralFacts.

(** ** Facts about the numeric conversions *)

Module NumFacts.
Import Num Reading.

Lemma pow2_pos e : 0 <= e -> 0 < 2 ^ e.
Proof. intros. apply Z.pow_pos_nonneg; lia. Qed.

Lemma round_half_even_ge q r den : q <= round_half_even q r den.
Proof.
  unfold round_half_even.
  destruct (2 * r ?= den); [destruct (Z.even q)|..]; lia.
Qed.

Lemma round_half_even_le q r den : round_half_even q r den <= q + 1.
Proof.
  unfold round_half_even.
  destruct (2 * r ?= den); [destruct (Z.even q)|..]; lia.
Qed.

(** Rounding an integer: exact below 53 bits, and otherwise the result
    (or the overflow) stays at or above [2^52]. *)
Lemma round_ratio_int neg n :
  0 < n ->
  (round_ratio neg n 1 = FInf neg /\ 2 ^ 1023 <= n) \/
  (exists m e, round_ratio neg n 1 = FFin neg m e /\
     ((e < 0 /\ Z.of_N m = n * 2 ^ (- e)) \/
      (0 <= e /\ 2 ^ 52 <= Z.of_N m * 2 ^ e /\ 2 ^ 52 <= n))).
Proof.
  intros Hn. unfold round_ratio.
  destruct (Z.eqb_spec n 0) as [->|_]; [lia|].
  change (Z.log2 1) with 0.
  destruct (Z.log2_spec n Hn) as [Hlo Hhi].
  pose proof (Z.log2_nonneg n) as Ha.
  set (a := Z.log2 n) in *.
  replace (a - 0 - 52) with (a - 52) by lia.
  assert (Hq1 : 2 ^ 52 <= fst (fst (scaled_quot n 1 (a - 52)))).
  { unfold scaled_quot. destruct (Z.leb_spec 0 (a - 52)); simpl fst.
    - rewrite Z.mul_1_l. apply Z.div_le_lower_bound; [apply pow2_pos; lia|].
      rewrite <- Z.pow_add_r by lia. replace (a - 52 + 52) with a by lia. lia.
    - rewrite Z.div_1_r.
      replace (2 ^ 52) with (2 ^ a * 2 ^ (52 - a)).
      2:{ rewrite <- Z.pow_add_r by lia. f_equal; lia. }
      replace (- (a - 52)) with (52 - a) by lia.
      apply Z.mul_le_mono_nonneg_r; [apply Z.lt_le_incl, pow2_pos; lia | lia]. }
  destruct (scaled_quot n 1 (a - 52)) as [[q1 r1] d1] eqn:Hsq. simpl fst in Hq1.
  destruct (Z.leb_spec (2 ^ 52) q1) as [_|Hbad]; [|lia].
  rewrite Z.max_l by lia.
  rewrite Hsq. clear Hq1.
  unfold scaled_quot in Hsq.
  destruct (Z.leb_spec 0 (a - 52)) as [He|He].
  - (* at least 53 bits: the quotient keeps the top 53 *)
    injection Hsq as Hq Hr Hd.
    assert (H52 : 2 ^ 52 <= n).
    { apply Z.le_trans with (2 ^ a); [apply Z.pow_le_mono_r; lia | lia]. }
    assert (Hq1 : 2 ^ 52 <= q1).
    { subst q1. rewrite Z.mul_1_l. apply Z.div_le_lower_bound; [apply pow2_pos; lia|].
      rewrite <- Z.pow_add_r by lia. replace (a - 52 + 52) with a by lia. lia. }
    pose proof (round_half_even_ge q1 r1 d1) as Hm.
    pose proof (round_half_even_le q1 r1 d1) as Hm'.
    set (m := round_half_even q1 r1 d1) in *.
    destruct (Z.leb_spec (2 ^ 1024) (m * 2 ^ (a - 52))) as [Hover|Hfit].
    + left. split; [reflexivity|].
      pose proof (pow2_pos (a - 52) He) as Hp.
      assert (Hqn : q1 * 2 ^ (a - 52) <= n).
      { subst q1. rewrite Z.mul_1_l, Z.mul_comm. apply Z.mul_div_le. lia. }
      assert (Hpa : 2 ^ (a - 52) <= 2 ^ a) by (apply Z.pow_le_mono_r; lia).
      change (2 ^ 1024) with (2 * 2 ^ 1023) in Hover. nia.
    + right. exists (Z.to_N m), (a - 52). split; [reflexivity|].
      right. split; [lia|]. split; [|lia].
      rewrite Z2N.id by lia.
      pose proof (pow2_pos (a - 52) He). nia.
  - (* fewer than 53 bits: exact *)
    injection Hsq as Hq Hr Hd. rewrite Z.div_1_r in Hq. rewrite Z.mod_1_r in Hr.
    subst q1 r1 d1.
    assert (Hrne : round_half_even (n * 2 ^ (- (a - 52))) 0 1 = n * 2 ^ (- (a - 52))).
    { reflexivity. }
    rewrite Hrne.
    assert (Hz : 2 ^ (a - 52) = 0) by (apply Z.pow_neg_r; lia).
    rewrite Hz, Z.mul_0_r.
    change (2 ^ 1024 <=? 0) with false. cbv iota.
    right. exists (Z.to_N (n * 2 ^ (- (a - 52)))), (a - 52). split; [reflexivity|].
    left. split; [lia|]. rewrite Z2N.id; [reflexivity|].
    pose proof (pow2_pos (- (a - 52))). nia.
Qed.

(** On the float of an integer the range test decides [0 <= z <= 100];
    the conversion fails only by overflow, from [2^1023] on. *)
Lemma float_of_int_range z :
  match float_of_int z with
  | Ret x => Spec.in_range x = (0 <=? z) && (z <=? 100)
  | Raise e => e = OverflowError /\ 2 ^ 1023 <= Z.abs z
  end.
Proof.
  unfold float_of_int.
  destruct (Z.eq_dec z 0) as [->|Hz]; [reflexivity|].
  assert (Hn : 0 < Z.abs z) by lia.
  destruct (round_ratio_int (z <? 0) (Z.abs z) Hn)
    as [[-> H52] | (m & e & -> & [[He Hm] | (He & Hm & H52)])].
  - split; [reflexivity | exact H52].
  - unfold Spec.in_range, int_le, le_int, cmp_int, smant.
    destruct (Z.leb_spec 0 e); [lia|].
    pose proof (pow2_pos (- e)) as Hp. rewrite Hm.
    destruct (Z.ltb_spec z 0).
    + replace (Z.abs z) with (- z) by lia.
      destruct (Z.compare_spec (- (- z * 2 ^ (- e))) (0 * 2 ^ (- e)));
        destruct (Z.leb_spec 0 z); try nia; reflexivity.
    + replace (Z.abs z) with z by lia.
      destruct (Z.compare_spec (z * 2 ^ (- e)) (0 * 2 ^ (- e)));
        destruct (Z.compare_spec (z * 2 ^ (- e)) (100 * 2 ^ (- e)));
        destruct (Z.leb_spec 0 z); destruct (Z.leb_spec z 100);
        try nia; reflexivity.
  - change (2 ^ 52) with 4503599627370496 in *.
    unfold Spec.in_range, int_le, le_int, cmp_int, smant.
    destruct (Z.leb_spec 0 e); [|lia].
    destruct (Z.ltb_spec z 0).
    + destruct (Z.compare_spec (- Z.of_N m * 2 ^ e) 0);
        destruct (Z.leb_spec 0 z); try nia; reflexivity.
    + destruct (Z.compare_spec (Z.of_N m * 2 ^ e) 0);
        destruct (Z.compare_spec (Z.of_N m * 2 ^ e) 100);
        destruct (Z.leb_spec 0 z); destruct (Z.leb_spec z 100);
        try nia; try lia; reflexivity.
Qed.

(** The range test agrees with the order of the reals. *)
Lemma in_range_real x :
  Spec.in_range x = true <->
  exists q : Q, Spec.real_of_float x = Some q /\ (0 <= q)%Q /\ (q <= 100)%Q.
Proof.
  destruct x as [|neg|neg m e].
  - split; [discriminate | intros (q & Hq & _); discriminate].
  - split; [|intros (q & Hq & _); discriminate].
    destruct neg; discriminate.
  - unfold Spec.in_range, int_le, le_int, cmp_int, Spec.real_of_float.
    set (s := smant neg m).
    destruct (Z.leb_spec 0 e) as [He|He].
    + split.
      * intros H. eexists; split; [reflexivity|].
        unfold Qle, inject_Z; simpl Qnum; simpl Qden.
        destruct (Z.compare_spec (s * 2 ^ e) 0);
          destruct (Z.compare_spec (s * 2 ^ e) 100); try discriminate; lia.
      * intros (q & Hq & H0 & H100). injection Hq as <-.
        unfold Qle, inject_Z in H0, H100; simpl Qnum in *; simpl Qden in *.
        destruct (Z.compare_spec (s * 2 ^ e) 0);
          destruct (Z.compare_spec (s * 2 ^ e) 100); try reflexivity; lia.
    + pose proof (pow2_pos (- e)) as Hp.
      assert (Hpos : Z.pos (Z.to_pos (2 ^ (- e))) = 2 ^ (- e))
        by (apply Z2Pos.id; lia).
      split.
      * intros H. eexists; split; [reflexivity|].
        unfold Qle; simpl Qnum; simpl Qden. rewrite Hpos.
        destruct (Z.compare_spec s (0 * 2 ^ (- e)));
          destruct (Z.compare_spec s (100 * 2 ^ (- e))); try discriminate; lia.
      * intros (q & Hq & H0 & H100). injection Hq as <-.
        unfold Qle in H0, H100; simpl Qnum in *; simpl Qden in *.
        rewrite Hpos in H100.
        destruct (Z.compare_spec s (0 * 2 ^ (- e)));
          destruct (Z.compare_spec s (100 * 2 ^ (- e))); try reflexivity; lia.
Qed.

(** *** Integers that come from floats *)

Lemma binary64_fits x : binary64 x -> fits_float x.
Proof.
  destruct x as [| |neg m e]; try exact (fun _ => I).
  intros [Hm He]. split.
  - intros Hneg.
    assert (Hp : 0 < 2 ^ (- e)) by (apply pow2_pos; lia).
    assert (Hdiv : Z.of_N m / 2 ^ (- e) <= Z.of_N m)
      by (apply Z.div_le_upper_bound; nia).
    assert (H53 : 2 ^ 53 < 2 ^ 1023) by reflexivity. lia.
  - intros Hpos. split; [lia|].
    assert (Hp : 2 ^ e <= 2 ^ 971) by (apply Z.pow_le_mono_r; lia).
    assert (Hp0 : 0 < 2 ^ e) by (apply pow2_pos; lia).
    change (2 ^ 1024) with (2 ^ 53 * 2 ^ 971).
    set (P := 2 ^ 971) in *. set (X := 2 ^ e) in *. nia.
Qed.

(** Whatever [round_ratio] returns fits. *)
Lemma round_ratio_fits neg n d :
  0 <= n -> 0 < d -> fits_float (round_ratio neg n d).
Proof.
  intros Hn Hd. unfold round_ratio.
  destruct (Z.eqb_spec n 0) as [->|Hn0].
  { split; intros; [lia|]. split; [discriminate | reflexivity]. }
  assert (Hnpos : 0 < n) by lia.
  destruct (Z.log2_spec n Hnpos) as [Hn1 Hn2].
  destruct (Z.log2_spec d Hd) as [Hd1 Hd2].
  pose proof (Z.log2_nonneg n) as HLn. pose proof (Z.log2_nonneg d) as HLd.
  set (Ln := Z.log2 n) in *. set (Ld := Z.log2 d) in *.
  set (e1 := Ln - Ld - 52).
  assert (Hkey : forall a b, 0 <= a -> 0 <= b -> b - a = e1 ->
            n * 2 ^ a < 2 ^ 53 * (d * 2 ^ b)).
  { intros a b Ha Hb Hab.
    assert (H1 : n * 2 ^ a < 2 ^ (Z.succ Ln) * 2 ^ a)
      by (apply Z.mul_lt_mono_pos_r; [apply pow2_pos; lia | exact Hn2]).
    assert (H2 : 2 ^ (Z.succ Ln) * 2 ^ a = 2 ^ 53 * (2 ^ Ld * 2 ^ b)).
    { rewrite <- !Z.pow_add_r by lia. f_equal. unfold e1 in Hab. lia. }
    assert (H3 : 2 ^ Ld * 2 ^ b <= d * 2 ^ b)
      by (apply Z.mul_le_mono_nonneg_r; [apply Z.lt_le_incl, pow2_pos; lia | exact Hd1]).
    rewrite H2 in H1. lia. }
  destruct (scaled_quot n d e1) as [[q1 r1] den1] eqn:Hsq1.
  cbv zeta.
  set (e2 := if 2 ^ 52 <=? q1 then e1 else e1 - 1).
  set (e := Z.max e2 (-1074)).
  destruct (scaled_quot n d e) as [[q r] den] eqn:Hsq.
  set (m := round_half_even q r den).
  destruct (Z.leb_spec (2 ^ 1024) (m * 2 ^ e)) as [_|Hfit]; [exact I|].
  pose proof (round_half_even_ge q r den) as Hm1.
  pose proof (round_half_even_le q r den) as Hm2.
  fold m in Hm1, Hm2.
  assert (He2 : e1 - 1 <= e2 <= e1) by (unfold e2; destruct (2 ^ 52 <=? q1); lia).
  unfold scaled_quot in Hsq.
  destruct (Z.leb_spec 0 e) as [He|He]; injection Hsq as Hq Hr Hden.
  - (* a float with an integer value *)
    assert (Hee : e = e2) by lia.
    assert (Hp : 0 < 2 ^ e) by (apply pow2_pos; lia).
    assert (Hq0 : 0 <= q) by (subst q; apply Z.div_pos; nia).
    assert (Hq53 : q < 2 ^ 53).
    { subst q. apply Z.div_lt_upper_bound; [nia|].
      unfold e2 in Hee. destruct (Z.leb_spec (2 ^ 52) q1) as [_|Hq1].
      - specialize (Hkey 0 e ltac:(lia) ltac:(lia) ltac:(lia)).
        rewrite Z.pow_0_r, Z.mul_1_r in Hkey. lia.
      - assert (He1 : 0 <= e1) by lia.
        unfold scaled_quot in Hsq1.
        destruct (Z.leb_spec 0 e1) as [_|]; [|lia].
        injection Hsq1 as Hq1' _ _.
        assert (Hp1 : 0 < 2 ^ e1) by (apply pow2_pos; lia).
        pose proof (Z.mul_succ_div_gt n (d * 2 ^ e1) ltac:(nia)) as Hgt.
        rewrite Hq1' in Hgt.
        assert (Hpe : 2 ^ e1 = 2 * 2 ^ e).
        { rewrite <- Z.pow_succ_r by lia. f_equal. lia. }
        rewrite Hpe in *.
        set (X := 2 ^ e) in *. nia. }
    assert (Hm0 : 0 <= m) by lia.
    split; [lia|]. intros _. rewrite Z2N.id by lia. split; [lia | exact Hfit].
  - (* a float with a fraction *)
    assert (He1 : e1 <= 0) by lia.
    specialize (Hkey (- e1) 0 ltac:(lia) ltac:(lia) ltac:(lia)).
    rewrite Z.pow_0_r, Z.mul_1_r in Hkey.
    assert (Hp1 : 0 < 2 ^ (- e1)) by (apply pow2_pos; lia).
    assert (Hnd : n < 2 ^ 53 * d) by nia.
    assert (Hp : 0 < 2 ^ (- e)) by (apply pow2_pos; lia).
    set (P := 2 ^ (- e)) in *.
    assert (Hq0 : 0 <= q) by (subst q; apply Z.div_pos; nia).
    assert (Hq53 : q < 2 ^ 53 * P).
    { subst q. apply Z.div_lt_upper_bound; [lia|]. nia. }
    assert (Hm0 : 0 <= m) by lia.
    split; [|lia]. intros _. rewrite Z2N.id by lia.
    assert (Hdiv : m / P <= 2 ^ 53) by (apply Z.div_le_upper_bound; lia).
    assert (H53 : 2 ^ 53 < 2 ^ 1023) by reflexivity.
    change (m / P < 2 ^ 1023). lia.
Qed.

(** The integer part of a float that fits converts back to a float. *)
Lemma fits_converts neg m e b :
  fits m e -> int_of_float (FFin neg m e) = Ret b ->
  exists y, float_of_int b = Ret y.
Proof.
  intros [Hneg Hpos]. simpl. intros [= <-].
  set (a := if 0 <=? e then Z.of_N m * 2 ^ e else Z.of_N m / 2 ^ (- e)).
  set (b := if neg then - a else a).
  assert (Ha0 : 0 <= a).
  { unfold a. destruct (Z.leb_spec 0 e).
    - pose proof (pow2_pos e ltac:(lia)). nia.
    - apply Z.div_pos; [lia | apply pow2_pos; lia]. }
  assert (Hab : Z.abs b = a) by (unfold b; destruct neg; lia).
  destruct (Z.lt_ge_cases a (2 ^ 1023)) as [Hlt|Hbig].
  { pose proof (float_of_int_range b) as H.
    destruct (float_of_int b) as [y|err]; [now exists y|].
    destruct H as [_ H]. lia. }
  assert (He : 0 <= e).
  { destruct (Z.leb_spec 0 e) as [|He]; [assumption|].
    specialize (Hneg He). unfold a in Hbig.
    destruct (Z.leb_spec 0 e); lia. }
  destruct (Hpos He) as [Hm Hlt].
  assert (Hae : a = Z.of_N m * 2 ^ e).
  { unfold a. destruct (Z.leb_spec 0 e); [reflexivity | lia]. }
  set (P := 2 ^ 971).
  assert (HP : 0 < P) by (apply pow2_pos; lia).
  assert (H1023 : 2 ^ 1023 = 2 ^ 52 * P) by reflexivity.
  assert (H1024 : 2 ^ 1024 = 2 ^ 53 * P) by reflexivity.
  assert (Hc : exists c, a = c * P /\ 2 ^ 52 <= c < 2 ^ 53).
  { assert (Hdiv : exists c, a = c * P).
    { destruct (Z.le_gt_cases 971 e) as [Hge|Hlow].
      - exists (Z.of_N m * 2 ^ (e - 971)). rewrite Hae, <- Z.mul_assoc.
        unfold P. rewrite <- Z.pow_add_r by lia. do 2 f_equal. lia.
      - assert (Hle : 2 ^ e <= 2 ^ 970) by (apply Z.pow_le_mono_r; lia).
        assert (H970 : P = 2 * 2 ^ 970) by reflexivity.
        assert (Hpe : 0 < 2 ^ e) by (apply pow2_pos; lia).
        set (X := 2 ^ e) in *. set (Y := 2 ^ 970) in *.
        assert (Hm53 : Z.of_N m = 2 ^ 53) by nia.
        assert (HX : X = Y) by nia.
        exists (2 ^ 52). rewrite Hae, Hm53, HX, H970.
        change (2 ^ 53) with (2 * 2 ^ 52). ring. }
    destruct Hdiv as (c & Hc). exists c. split; [exact Hc|]. nia. }
  destruct Hc as (c & Hc & Hc52 & Hc53).
  exists (FFin (b <? 0) (Z.to_N c) 971).
  unfold float_of_int. rewrite Hab.
  assert (Hr : round_ratio (b <? 0) a 1 = FFin (b <? 0) (Z.to_N c) 971).
  { unfold round_ratio.
    destruct (Z.eqb_spec a 0) as [H0|_]; [lia|].
    assert (Hlog : Z.log2 a = 1023).
    { apply Z.log2_unique; [lia|]. change (1023 + 1) with 1024. lia. }
    rewrite Hlog. change (Z.log2 1) with 0. change (1023 - 0 - 52) with 971.
    assert (Hsq : scaled_quot a 1 971 = (c, 0, P)).
    { unfold scaled_quot. change (0 <=? 971) with true. cbv iota zeta.
      fold P. rewrite Z.mul_1_l, Hc.
      now rewrite Z.div_mul, Z.mod_mul by lia. }
    rewrite Hsq. cbv zeta iota beta.
    destruct (Z.leb_spec (2 ^ 52) c) as [_|]; [|lia].
    change (Z.max 971 (-1074)) with 971. rewrite Hsq.
    assert (Hrd : round_half_even c 0 P = c).
    { unfold round_half_even. rewrite Z.mul_0_r.
      destruct (Z.compare_spec 0 P); [lia | reflexivity | lia]. }
    rewrite Hrd. fold P.
    destruct (Z.leb_spec (2 ^ 1024) (c * P)) as [|_]; [lia | reflexivity]. }
  now rewrite Hr.
Qed.

(** What [float] returns fits. *)
Lemma py_float_fits v x :
  Spec.well_formed v -> py_float v = Ret x -> fits_float x.
Proof.
  destruct v as [|b|z|y|s|id]; simpl; intros Hwf; try discriminate.
  - intros [= <-]. destruct b; split; intros; try lia; split; try lia; reflexivity.
  - unfold float_of_int.
    pose proof (round_ratio_fits (z <? 0) (Z.abs z) 1 ltac:(lia) ltac:(lia)) as H.
    destruct (round_ratio (z <? 0) (Z.abs z) 1); try discriminate;
      intros [= <-]; exact H.
  - intros [= <-]. now apply binary64_fits.
  - unfold float_of_str.
    destruct (split_sign (Text.strip_numeric s)) as [neg body].
    destruct (_ || _); [intros [= <-]; exact I|].
    destruct (String.eqb _ _); [intros [= <-]; exact I|].
    destruct (parse_decimal body) as [[D k]|] eqn:Hp; [|discriminate].
    intros [= <-].
    destruct (NumeralFacts.parse_decimal_sound _ _ _ Hp)
      as (n & xs & ds & fs & e & _ & _ & _ & -> & _).
    pose proof (NumeralFacts.value_nonneg (ds +:+ fs)) as HD.
    unfold float_of_decimal.
    destruct (Z.leb_spec 0 k).
    + apply round_ratio_fits; [|lia].
      apply Z.mul_nonneg_nonneg; [exact HD | apply Z.pow_nonneg; lia].
    + apply round_ratio_fits; [exact HD | apply Z.pow_pos_nonneg; lia].
Qed.

(** The integer that [int(float(v))] gives converts back to a float,
    so the range test on it answers. *)
Lemma to_int_validates v b :
  Spec.well_formed v -> Controller.to_int v = Ret b ->
  Security.validate_brightness_value (PyInt b) = Ret ((0 <=? b) && (b <=? 100)).
Proof.
  intros Hwf. unfold Controller.to_int.
  destruct (py_float v) as [x|err] eqn:Hx; [|discriminate].
  intros Hb.
  pose proof (py_float_fits v x Hwf Hx) as Hfit.
  destruct x as [| |neg m e]; try discriminate.
  destruct (fits_converts neg m e b Hfit Hb) as (y & Hy).
  unfold Security.validate_brightness_value, try_except. simpl py_float.
  pose proof (float_of_int_range b) as Hrange. rewrite Hy in *.
  unfold Spec.in_range in Hrange. simpl. now rewrite Hrange.
Qed.

End NumFacts.

(** ** Validation of a brightness value *)

Lemma float_of_str_raises s e : Num.float_of_str s = Raise e -> e = ValueError.
Proof.
  unfold Num.float_of_str.
  destruct (Num.split_sign (Text.strip_numeric s)) as [neg body].
  destruct (_ || _); [discriminate|].
  destruct (String.eqb _ _); [discriminate|].
  destruct (Num.parse_decimal body) as [[D k]|]; [discriminate|].
  congruence.
Qed.

(** The modular validator, by cases on what [float(value)] does. *)
Lemma validate_cases v :
  Security.validate_brightness_value v =
  match py_float v with
  | Ret x => Ret (Spec.in_range x)
  | Raise e => if ValueError_or_TypeError e then Ret false else Raise e
  end.
Proof.
  unfold Security.validate_brightness_value, try_except.
  destruct (py_float v); reflexivity.
Qed.

(** On an integer the validator is the plain range test, unless the
    integer is too large for a float. *)
Lemma validate_int z :
  Security.validate_brightness_value (PyInt z) = Ret ((0 <=? z) && (z <=? 100)) \/
  (Security.validate_brightness_value (PyInt z) = Raise OverflowError /\
   2 ^ 1023 <= Z.abs z).
Proof.
  rewrite validate_cases. simpl py_float.
  pose proof (NumFacts.float_of_int_range z) as H.
  destruct (Num.float_of_int z) as [x|e].
  - left. now rewrite H.
  - right. destruct H as [-> H]. split; [reflexivity | exact H].
Qed.

Lemma pow2_1023_large : 100 < 2 ^ 1023.
Proof. reflexivity. Qed.

Lemma validate_int_true z :
  Security.validate_brightness_value (PyInt z) = Ret true <-> 0 <= z <= 100.
Proof.
  pose proof pow2_1023_large as Hbig.
  destruct (validate_int z) as [-> | [-> ?]].
  - split; [intros [= H]; lia | intros H; f_equal; lia].
  - split; [discriminate | lia].
Qed.

Lemma validate_int_false z :
  (z < 0 \/ 100 < z) -> Z.abs z < 2 ^ 1023 ->
  Security.validate_brightness_value (PyInt z) = Ret false.
Proof.
  intros Hz Hb. destruct (validate_int z) as [-> | [_ ?]]; [|lia].
  f_equal. lia.
Qed.

(** The range test on what a value converts to, against the
    specification's reading. *)
Lemma in_range_spec v :
  Spec.in_brightness_range v <->
  exists x, py_float v = Ret x /\ Spec.in_range x = true.
Proof.
  unfold Spec.in_brightness_range.
  destruct v as [|b|z|x|s|id]; simpl.
  - split; [intros (q & [] & _) | intros (x & [=] & _)].
  - split.
    + intros _. eexists; split; [reflexivity|]. now destruct b.
    + intros _. eexists; split; [reflexivity|].
      destruct b; unfold Qle; simpl; lia.
  - pose proof (NumFacts.float_of_int_range z) as H. split.
    + intros (q & -> & H0 & H100).
      unfold Qle in H0, H100; simpl in H0, H100.
      destruct (Num.float_of_int z) as [x|e];
        [|pose proof pow2_1023_large; lia].
      exists x; split; [reflexivity|]. rewrite H. lia.
    + intros (x & Hx & Hr). rewrite Hx in H. rewrite Hr in H.
      eexists; split; [reflexivity|]. unfold Qle; simpl. lia.
  - rewrite <- NumFacts.in_range_real. split.
    + intros H. exists x. now split.
    + now intros (x' & [= <-] & H).
  - split.
    + intros (q & (x & Hread & Hq) & H0 & H100). exists x.
      split; [now apply NumeralFacts.reads_as_complete|].
      apply NumFacts.in_range_real. now exists q.
    + intros (x & Hx & Hr).
      apply NumFacts.in_range_real in Hr as (q & Hq & H0 & H100).
      exists q. split; [|now split]. exists x. split; [|exact Hq].
      destruct (NumeralFacts.reads_as_sound s x Hx) as [-> | [(neg & ->) | H]];
        [discriminate.. | exact H].
  - split; [intros (q & [] & _) | intros (x & [=] & _)].
Qed.

(** C1.  For every value, [validate_brightness_value] returns true exactly
    when the value parses as a real number in the closed interval from 0
    to 100; on every non-numeric value it returns false, no exception
    leaving the call.  The single-file validator agrees, and returns a
    boolean on every value.  A text parses as a number when it is a
    numeral of the grammar of decimal numerals between white space, and
    the number is the float nearest to what the numeral writes. *)
Theorem validate_brightness_value_spec (v : pyvalue) :
  (Security.validate_brightness_value v = Ret true <-> Spec.in_brightness_range v) /\
  (Spec.non_numeric v -> Security.validate_brightness_value v = Ret false) /\
  (exists b, Legacy.validate_brightness_value v = Ret b /\
             (b = true <-> Spec.in_brightness_range v)).
Proof.
  pose proof (in_range_spec v) as HP.
  rewrite validate_cases.
  unfold Legacy.validate_brightness_value, try_except, any_Exception.
  fold (Spec.in_range).
  destruct (py_float v) as [x|e] eqn:Hf.
  - assert (Hx : Spec.in_range x = true <-> Spec.in_brightness_range v).
    { rewrite HP. split.
      - intros H. now exists x.
      - now intros (x' & [= <-] & H). }
    split; [|split].
    + rewrite <- Hx. split; [now intros [= H] | now intros ->].
    + destruct v as [|b|z|y|s|id]; simpl; try contradiction;
        try (intros _; discriminate).
      intros H. simpl in Hf.
      destruct (NumeralFacts.reads_as_sound s x Hf) as [-> | [(neg & ->) | Hr]];
        [reflexivity | now destruct neg | now destruct (H x)].
    + exists (Spec.in_range x). split; [reflexivity | exact Hx].
  - assert (Hno : ~ Spec.in_brightness_range v).
    { rewrite HP. intros (x & [=] & _). }
    split; [|split].
    + split; [|contradiction].
      destruct (ValueError_or_TypeError e); discriminate.
    + destruct v; simpl in *; try contradiction; intros _.
      * injection Hf as <-. reflexivity.
      * apply float_of_str_raises in Hf as ->. reflexivity.
      * injection Hf as <-. reflexivity.
    + exists false. split; [reflexivity|]. split; [discriminate | contradiction].
Qed.

Lemma validate_brightness_value_spec_witness :
  Spec.non_numeric (PyStr "abc") /\
  Security.validate_brightness_value (PyStr "abc") = Ret false.
Proof.
  assert (H : Spec.non_numeric (PyStr "abc")).
  { intros x Hx. apply NumeralFacts.reads_as_complete in Hx. discriminate. }
  split; [exact H|].
  exact (proj1 (proj2 (validate_brightness_value_spec (PyStr "abc"))) H).
Defined.

(** The examples of the specification. *)
Example validate_examples :
  map Security.validate_brightness_value
    [PyStr "50"; PyStr "150"; PyStr "abc"; PyStr "-1"; PyStr "0"; PyStr "100";
     PyInt 72; PyFloat (Num.FFin false 1 (-1)); PyNone] =
  [Ret true; Ret false; Ret false; Ret false; Ret true; Ret true;
   Ret true; Ret true; Ret false].
Proof. vm_compute. reflexivity. Qed.

(** White space around a numeral: TAB, LF, VT, FF, CR, the blank, NEL
    and the no-break space are skipped; the separators FS, GS, RS and US
    are not, although [str.strip] removes them. *)
Example validate_white_space :
  map Security.validate_brightness_value
    [PyStr (String "009" (String "160" "50" +:+ String "133" (String "010" "")));
     PyStr (String "028" "50"); PyStr ("50" +:+ String "031" "");
     PyStr "1_0"; PyStr "1__0"; PyStr "5e1"; PyStr ".5"; PyStr "5."; PyStr ".";
     PyStr "+100.0"; PyStr "-0"; PyStr "nan"; PyStr "Infinity"] =
  [Ret true; Ret false; Ret false;
   Ret true; Ret false; Ret true; Ret true; Ret true; Ret false;
   Ret true; Ret true; Ret false; Ret false] /\
  Text.strip (String "028" "50") = "50".
Proof. vm_compute. split; reflexivity. Qed.

(** An integer beyond the range of a float: the conversion's
    [OverflowError] is not among the classes that the modular validator
    catches, while the bare [except] of the single-file one answers
    false. *)
Example validate_huge_int :
  Security.validate_brightness_value (PyInt (10 ^ 400)) = Raise OverflowError /\
  Legacy.validate_brightness_value (PyInt (10 ^ 400)) = Ret false.
Proof. vm_compute. split; reflexivity. Qed.

(** ** Sanitising command tokens *)

Module SecurityFacts.
Import Security Spec.

Lemma sanitize_loop_map cmd acc :
  sanitize_loop cmd acc = acc ++ map sanitize_part cmd.
Proof.
  revert acc. induction cmd as [|part rest IH]; intros acc; simpl.
  - now rewrite app_nil_r.
  - unfold sanitize_part at 1.
    destruct (negb (safe_powershell_pattern_match part));
      rewrite IH, <- app_assoc; reflexivity.
Qed.

Lemma sanitize_map cmd : sanitize_powershell_command cmd = map sanitize_part cmd.
Proof. unfold sanitize_powershell_command. now rewrite sanitize_loop_map. Qed.

Lemma keep_chars_all p s : Text.all_chars p (Text.keep_chars p s) = true.
Proof.
  induction s as [|c s IH]; simpl; [reflexivity|].
  destruct (p c) eqn:Hc; simpl; [rewrite Hc|]; exact IH.
Qed.

Lemma keep_chars_id p s : Text.all_chars p s = true -> Text.keep_chars p s = s.
Proof.
  induction s as [|c s IH]; simpl; [reflexivity|].
  intros [Hc Hs]%andb_prop. rewrite Hc. f_equal. now apply IH.
Qed.

Lemma sanitize_part_safe s : Text.all_chars safe_char (sanitize_part s) = true.
Proof.
  unfold sanitize_part, safe_powershell_pattern_match.
  destruct (Text.nonempty s); simpl.
  - destruct (Text.all_chars safe_char s) eqn:H; simpl; [exact H|].
    apply keep_chars_all.
  - apply keep_chars_all.
Qed.

Lemma sanitize_part_match s :
  safe_powershell_pattern_match s = true -> sanitize_part s = s.
Proof. unfold sanitize_part. now intros ->. Qed.

Lemma sanitize_part_idem s : sanitize_part (sanitize_part s) = sanitize_part s.
Proof.
  pose proof (sanitize_part_safe s) as H.
  unfold sanitize_part at 1.
  destruct (negb _); [|reflexivity].
  now apply keep_chars_id.
Qed.

End SecurityFacts.

(** C9.  [sanitize_powershell_command] keeps the number of tokens; every
    token of its result consists of allow-listed characters only; a token
    that already matches the safe pattern is returned unchanged at its
    position; and sanitising the result again changes nothing. *)
Theorem sanitize_powershell_command_spec (cmd : list string) :
  length (Security.sanitize_powershell_command cmd) = length cmd /\
  Forall (fun tok => Text.all_chars Security.safe_char tok = true)
    (Security.sanitize_powershell_command cmd) /\
  (forall (i : nat) (tok : string),
      cmd !! i = Some tok ->
      Security.safe_powershell_pattern_match tok = true ->
      Security.sanitize_powershell_command cmd !! i = Some tok) /\
  Security.sanitize_powershell_command (Security.sanitize_powershell_command cmd) =
  Security.sanitize_powershell_command cmd.
Proof.
  rewrite !SecurityFacts.sanitize_map.
  split; [apply length_map|]. split; [|split].
  - induction cmd as [|part rest IH]; simpl; constructor;
      [apply SecurityFacts.sanitize_part_safe | exact IH].
  - intros i tok Hi Hm. rewrite list_lookup_fmap, Hi. simpl.
    now rewrite SecurityFacts.sanitize_part_match.
  - rewrite map_map. apply map_ext. intros t.
    apply SecurityFacts.sanitize_part_idem.
Qed.

Lemma sanitize_powershell_command_spec_witness :
  Security.sanitize_powershell_command ["powershell"; "rm -rf; $x"; ""] !! 0%nat =
  Some "powershell".
Proof.
  apply (proj1 (proj2 (proj2
    (sanitize_powershell_command_spec ["powershell"; "rm -rf; $x"; ""])))).
  - reflexivity.
  - vm_compute. reflexivity.
Defined.

Example sanitize_example :
  Security.sanitize_powershell_command ["powershell"; "rm -rf; $x | y`z"; ""] =
  ["powershell"; "rm -rf x  yz"; ""].
Proof. vm_compute. reflexivity. Qed.

(** ** Building the WMI command *)

(** C6.  [create_safe_wmi_command] returns the empty list whenever the
    namespace is not on the namespace allow-list or the class is not on
    the class allow-list, whatever the method and the parameters. *)
Theorem create_safe_wmi_command_rejects
    (namespace class_name : string) (method parameters : option string) :
  namespace ∉ Security.safe_namespaces \/ class_name ∉ Security.safe_classes ->
  Security.create_safe_wmi_command namespace class_name method parameters = [].
Proof.
  unfold Security.create_safe_wmi_command, Security.validate_wmi_namespace,
    Security.validate_wmi_class.
  intros [H|H].
  - now rewrite bool_decide_eq_false_2.
  - destruct (bool_decide (namespace ∈ Security.safe_namespaces)); simpl;
      [|reflexivity].
    now rewrite bool_decide_eq_false_2.
Qed.

Lemma create_safe_wmi_command_rejects_witness :
  Security.create_safe_wmi_command "root/Evil" "WmiMonitorBrightness"
    (Some "WmiSetBrightness") (Some "1,50") = [].
Proof.
  apply create_safe_wmi_command_rejects.
  left. apply (bool_decide_eq_false_1 _). vm_compute. reflexivity.
Defined.

(** An allow-listed pair gives the fixed template. *)
Example create_safe_wmi_command_example :
  Security.create_safe_wmi_command "root/WMI" "WmiMonitorBrightnessMethods"
    (Some "WmiSetBrightness") (Some "1,72") =
  ["powershell"; "-Command";
   "(Get-WmiObject -Namespace root/WMI -Class WmiMonitorBrightnessMethods).WmiSetBrightness(1,72)"].
Proof. vm_compute. reflexivity. Qed.

(** ** Display detection *)

Module DetectorFacts.
Import Detector.



End DetectorFacts.


(** Both strategies empty-handed: a shell that fails and no monitor. *)
Example detect_displays_fallback :
  let w := {| invocations := [];
              shell := fun _ _ => Failed TimeoutExpired;
              monitors := [] |} in
  fst (Detector.detect_displays {| Detector.displays := [] |} w) =
    Ret {| Detector.displays := [Detector.fallback_display] |} /\
  fst (Legacy.detect_displays w) = Ret [Legacy.fallback_display].
Proof. vm_compute. split; reflexivity. Qed.

(** C10.  [get_display_by_index] returns the dictionary of the record at
    position [index] when [0 <= index < len(displays)], and [None] for every
    other index; it never raises. *)
Theorem get_display_by_index_spec (self : Detector.DisplayDetector) (index : Z) :
  (0 <= index < Z.of_nat (length (Detector.displays self)) ->
   exists d, Detector.displays self !! Z.to_nat index = Some d /\
             Detector.get_display_by_index self index =
               Item (Some (Detector.to_dict d))) /\
  (index < 0 \/ Z.of_nat (length (Detector.displays self)) <= index ->
   Detector.get_display_by_index self index = Item None).
Proof.
  unfold Detector.get_display_by_index, py_index.
  set (l := Detector.displays self). split.
  - intros H.
    destruct (lookup_lt_is_Some_2 l (Z.to_nat index)) as [d Hd]; [lia|].
    exists d. split; [exact Hd|].
    destruct (Z.leb_spec 0 index); [|lia].
    destruct (Z.ltb_spec index (Z.of_nat (length l))); [|lia]. simpl.
    destruct (Z.ltb_spec index 0); [lia|].
    destruct (Z.leb_spec 0 index); [|lia].
    destruct (Z.ltb_spec index (Z.of_nat (length l))); [|lia]. simpl.
    now rewrite Hd.
  - intros H.
    destruct (Z.leb_spec 0 index); destruct (Z.ltb_spec index (Z.of_nat (length l)));
      simpl; try reflexivity; lia.
Qed.

Lemma get_display_by_index_spec_witness :
  Detector.get_display_by_index
    {| Detector.displays := [Detector.fallback_display] |} 0 =
    Item (Some (Detector.to_dict Detector.fallback_display)) /\
  Detector.get_display_by_index
    {| Detector.displays := [Detector.fallback_display] |} (-1) = Item None.
Proof.
  pose proof (get_display_by_index_spec
                {| Detector.displays := [Detector.fallback_display] |} 0) as H0.
  pose proof (get_display_by_index_spec
                {| Detector.displays := [Detector.fallback_display] |} (-1)) as H1.
  split.
  - destruct (proj1 H0) as (d & Hd & Hr); [simpl; lia|].
    simpl in Hd. injection Hd as <-. exact Hr.
  - apply (proj2 H1). left. lia.
Defined.

(** ** Scanning output lines *)

Module ScanFacts.
Import Num StringFacts Reading.

(** What [isdigit] accepts is no white space, no sign and no
    underscore. *)
Lemma isdigit_char_plain c :
  Text.isdigit_char c = true ->
  Text.isspace_numeric c = false /\ Text.isspace c = false /\
  Ascii.eqb c "_" = false /\
  forall r, split_sign (String c r) = (false, String c r).
Proof.
  destruct c as [[] [] [] [] [] [] [] []]; try discriminate;
    intros _; (split; [|split; [|split]]); try reflexivity; intros r; reflexivity.
Qed.

Lemma isdigit_solid t :
  Text.isdigit t = true -> solid t /\ solid (String.rev t).
Proof.
  unfold Text.isdigit. intros [Hne Hall]%andb_prop. split.
  - destruct t as [|c t]; [discriminate|]. simpl in Hall.
    apply andb_prop in Hall as [Hc _]. now apply isdigit_char_plain.
  - destruct (last_char _ t Hne Hall) as (a & c & -> & Hc).
    apply solid_rev_app. now apply isdigit_char_plain.
Qed.

Lemma strip_numeric_digits t :
  Text.isdigit t = true -> Text.strip_numeric t = t.
Proof.
  intros H. destruct (isdigit_solid t H) as [Hs He].
  pose proof (strip_numeric_core "" t "" eq_refl eq_refl Hs He) as Hc.
  now rewrite app_empty_l, app_empty_r in Hc.
Qed.

Lemma digitpart_unfold c t :
  digitpart (String c t) =
  if Text.isdecimal_char c then Some (digits_tail (String c t)) else None.
Proof.
  simpl. destruct (Text.isdecimal_char c); [|reflexivity].
  now destruct (digits_tail t).
Qed.

(** On a text of what [isdigit] accepts, the digit part is the whole
    text when all of it is among [0] to [9], and otherwise it ends
    before the end of the text. *)
Lemma digits_tail_digits t :
  Text.all_chars Text.isdigit_char t = true ->
  if Text.all_chars Text.isdecimal_char t then digits_tail t = (t, "")
  else exists ds c r, digits_tail t = (ds, String c r).
Proof.
  induction t as [|c t IH]; [reflexivity|].
  intros [Hc Ht]%andb_prop. specialize (IH Ht). simpl.
  destruct (Text.isdecimal_char c) eqn:Hd; simpl.
  - destruct (Text.all_chars Text.isdecimal_char t).
    + now rewrite IH.
    + destruct IH as (ds & c' & r & ->). now exists (String c ds), c', r.
  - destruct (isdigit_char_plain c Hc) as (_ & _ & -> & _).
    now exists "", c, t.
Qed.

(** [int] on a text that [isdigit] accepts: the integer that the digits
    write, if there is one. *)
Lemma int_of_str_digits t :
  Text.isdigit t = true ->
  int_of_str t =
  match Spec.integer_of t with
  | Some n => Ret n
  | None => Raise ValueError
  end.
Proof.
  intros H. unfold int_of_str. rewrite (strip_numeric_digits t H).
  unfold Text.isdigit in H. apply andb_prop in H as [Hne Hall].
  destruct t as [|c t]; [discriminate|].
  pose proof Hall as Hc. simpl in Hc. apply andb_prop in Hc as [Hc _].
  destruct (isdigit_char_plain c Hc) as (_ & _ & _ & ->).
  rewrite digitpart_unfold.
  pose proof (digits_tail_digits _ Hall) as Ht.
  unfold Spec.integer_of.
  rewrite (all_chars_ext Spec.is_digit Text.isdecimal_char _ NumeralFacts.is_digit_decimal).
  destruct (Text.all_chars Text.isdecimal_char (String c t)) eqn:Hdec.
  - pose proof Hdec as Hd. simpl in Hd. apply andb_prop in Hd as [-> _].
    rewrite Ht. unfold max_str_digits. cbv beta iota. simpl andb.
    rewrite NumeralFacts.decimal_value_value
      by now rewrite (all_chars_ext _ _ _ NumeralFacts.is_digit_decimal).
    destruct (Nat.ltb_spec 4300 (String.length (String c t))) as [Hlt|Hle];
      destruct (Nat.leb_spec (String.length t) 4299) as [Hle'|Hgt'];
      simpl String.length in *; try reflexivity; lia.
  - simpl andb. destruct (Text.isdecimal_char c); [|reflexivity].
    destruct Ht as (ds & c' & r & ->). reflexivity.
Qed.

(** One step of the scanning loop of the modular version. *)
Lemma scan_lines_cons line rest :
  Controller.scan_lines (line :: rest) =
  match Spec.line_match line with
  | Some t => converted (Some t)
  | None => Controller.scan_lines rest
  end.
Proof.
  unfold Spec.line_match, Spec.bare_integer, Spec.key_value, converted. simpl.
  set (t := Text.strip line).
  destruct (Text.isdigit t) eqn:Hd.
  - assert (Hne : Text.nonempty t = true).
    { unfold Text.isdigit in Hd. now apply andb_prop in Hd. }
    rewrite Hne. simpl andb. cbv iota. rewrite (int_of_str_digits t Hd).
    now destruct (Spec.integer_of t).
  - rewrite andb_false_r.
    destruct (Text.contains ":" t) eqn:Hc.
    + destruct (Text.split ":" t) as [|p0 [|p1 ps]]; try reflexivity.
      destruct (Text.isdigit (Text.strip p1)) eqn:Hp; [|reflexivity].
      rewrite (int_of_str_digits _ Hp).
      now destruct (Spec.integer_of (Text.strip p1)).
    + now rewrite (StringFacts.split_without_sep _ _ Hc).
Qed.

(** One step of the scanning loop of the single-file version. *)
Lemma first_digit_line_cons line rest :
  Legacy.first_digit_line (line :: rest) =
  match Spec.bare_integer line with
  | Some t => converted (Some t)
  | None => Legacy.first_digit_line rest
  end.
Proof.
  unfold Spec.bare_integer, converted. simpl.
  destruct (Text.isdigit (Text.strip line)) eqn:Hd; [|reflexivity].
  rewrite (int_of_str_digits _ Hd).
  now destruct (Spec.integer_of (Text.strip line)).
Qed.

(** A loop that converts what the first line that offers something
    offers. *)
Lemma first_of_loop (offer : string -> option string)
    (loop : list string -> outcome (option Z)) :
  loop [] = Ret None ->
  (forall line rest,
      loop (line :: rest) =
      match offer line with
      | Some t => converted (Some t)
      | None => loop rest
      end) ->
  forall lines,
    exists found, Spec.first_of offer lines found /\ loop lines = converted found.
Proof.
  intros Hnil Hcons lines. induction lines as [|line rest IH].
  - exists None. split; [|exact Hnil]. intros i l H. destruct i; discriminate.
  - rewrite Hcons. destruct (offer line) as [t|] eqn:Hl.
    + exists (Some t). split; [|reflexivity].
      exists 0%nat, line. split; [reflexivity|]. split; [exact Hl|].
      intros j e Hj. lia.
    + destruct IH as (found & Hfirst & Hloop). exists found.
      split; [|exact Hloop].
      destruct found as [t|].
      * destruct Hfirst as (i & l & Hi & Hm & Hbefore).
        exists (S i), l. split; [exact Hi|]. split; [exact Hm|].
        intros [|j] e Hj He.
        -- injection He as <-. exact Hl.
        -- apply (Hbefore j e); [lia | exact He].
      * intros [|i] l Hi.
        -- injection Hi as <-. exact Hl.
        -- apply (Hfirst i l Hi).
Qed.

Lemma scan_lines_first lines :
  exists found,
    Spec.first_match lines found /\ Controller.scan_lines lines = converted found.
Proof. apply first_of_loop; [reflexivity | apply scan_lines_cons]. Qed.

Lemma first_digit_line_first lines :
  exists found,
    Spec.first_of Spec.bare_integer lines found /\
    Legacy.first_digit_line lines = converted found.
Proof. apply first_of_loop; [reflexivity | apply first_digit_line_cons]. Qed.

(** What is first is one thing only. *)
Lemma first_of_unique offer lines r1 r2 :
  Spec.first_of offer lines r1 -> Spec.first_of offer lines r2 -> r1 = r2.
Proof.
  destruct r1 as [t1|], r2 as [t2|]; simpl.
  - intros (i & l & Hi & Hm & Hb) (j & l' & Hj & Hm' & Hb').
    destruct (Nat.lt_trichotomy i j) as [Hlt | [-> | Hgt]].
    + rewrite (Hb' i l Hlt Hi) in Hm. discriminate.
    + congruence.
    + rewrite (Hb j l' Hgt Hj) in Hm'. discriminate.
  - intros (i & l & Hi & Hm & _) H. rewrite (H i l Hi) in Hm. discriminate.
  - intros H (i & l & Hi & Hm & _). rewrite (H i l Hi) in Hm. discriminate.
  - reflexivity.
Qed.

(** The brightness that a reading offers is what the conversion
    returns, an exception counting as nothing. *)
Lemma brightness_of_converted found :
  Spec.brightness_of found =
  match converted found with
  | Ret r => r
  | Raise _ => None
  end.
Proof.
  destruct found as [t|]; [|reflexivity]. simpl.
  now destruct (Spec.integer_of t).
Qed.

End ScanFacts.

(** ** The WMI strategy *)

Module WmiFacts.
Import Controller.

Lemma wmi_get_brightness_run d w :
  wmi_get_brightness d w =
  (Ret match shell w (invocations w) wmi_get_command with
       | Completed rc out _ =>
           if rc =? 0 then
             match scan_lines (Spec.output_lines out) with
             | Ret r => r
             | Raise _ => None
             end
           else None
       | Failed _ => None
       end,
   Spec.ran w wmi_get_command).
Proof.
  unfold wmi_get_brightness.
  change (Security.create_safe_wmi_command "root/WMI" "WmiMonitorBrightness" None None)
    with ["powershell"; "-Command";
          "Get-WmiObject -Namespace root/WMI -Class WmiMonitorBrightness"].
  change (extend_last _ " | Select-Object CurrentBrightness") with wmi_get_command.
  unfold mtry, mbind, subprocess_run, any_Exception, mret, mlift, Spec.ran.
  destruct (shell w (invocations w) wmi_get_command) as [rc out err|e]; simpl.
  - destruct (rc =? 0); [|reflexivity].
    fold (Spec.output_lines out).
    now destruct (scan_lines (Spec.output_lines out)).
  - reflexivity.
Qed.

(** The single-file [get_brightness] on a display of method "wmi". *)
Lemma legacy_get_brightness_run d w :
  Legacy.not_wmi d = false ->
  Legacy.get_brightness d w =
  (Ret match shell w (invocations w) Legacy.get_command with
       | Completed rc out _ =>
           if rc =? 0 then
             match Legacy.first_digit_line (Spec.output_lines out) with
             | Ret r => default 50 r
             | Raise _ => 50
             end
           else 50
       | Failed _ => 50
       end,
   Spec.ran w Legacy.get_command).
Proof.
  intros Hd. unfold Legacy.get_brightness. rewrite Hd.
  unfold mbind, mtry, subprocess_run, any_Exception, mret, mlift, Spec.ran.
  destruct (shell w (invocations w) Legacy.get_command) as [rc out err|e]; simpl;
    [|reflexivity].
  destruct (rc =? 0); simpl; [|reflexivity].
  fold (Spec.output_lines out).
  destruct (Text.strip out) as [|c rest] eqn:Hs.
  - unfold Spec.output_lines. rewrite Hs. reflexivity.
  - simpl Text.nonempty. cbv iota.
    now destruct (Legacy.first_digit_line (Spec.output_lines out)) as [[n|]|e].
Qed.

Lemma not_wmi_false d :
  d <> ∅ -> d !! "method" = Some (PyStr "wmi") -> Legacy.not_wmi d = false.
Proof.
  intros Hd Hm. unfold Legacy.not_wmi. rewrite Hm.
  now rewrite bool_decide_eq_false_2.
Qed.

End WmiFacts.

(** The claim that the first matching line is what the WMI
    [get_brightness] returns fails when [int] refuses the digits of that
    line: after a line of 4301 digits, or of a superscript two, the
    result is [None], although the next line is the bare integer 72.
    The single-file version answers 50 there. *)
Lemma get_brightness_gives_up_at_first_match :
  Spec.output_lines Spec.long_then_72 = [Spec.repeated "1" 4301; "72"] /\
  Spec.output_lines Spec.superscript_then_72 = [String "178" ""; "72"] /\
  Spec.line_match (Spec.repeated "1" 4301) = Some (Spec.repeated "1" 4301) /\
  Spec.line_match (String "178" "") = Some (String "178" "") /\
  Spec.line_match "72" = Some "72" /\ Spec.integer_of "72" = Some 72 /\
  fst (Controller.wmi_get_brightness Spec.laptop
         (Spec.printing Spec.long_then_72)) = Ret None /\
  fst (Controller.wmi_get_brightness Spec.laptop
         (Spec.printing Spec.superscript_then_72)) = Ret None /\
  fst (Legacy.get_brightness Spec.laptop
         (Spec.printing Spec.long_then_72)) = Ret 50 /\
  fst (Legacy.get_brightness Spec.laptop
         (Spec.printing Spec.superscript_then_72)) = Ret 50.
Proof. vm_compute. repeat split; reflexivity. Qed.

(** C5 (amended).  The WMI [get_brightness] runs one shell query and
    returns without raising.  When the exit status is 0 it looks for the
    first output line that is a bare run of digits or a "Key : Value"
    line whose value is one, and returns the integer that these digits
    write, or nothing when there is no integer for them (they are more
    than 4300, or not all among 0 to 9): it does not go on to later
    lines.  It returns nothing when the query times out or fails, when
    the exit status is not 0, and when no line matches.  Output
    "CurrentBrightness : 72" with exit status 0 gives 72.  The
    single-file [get_brightness] on a display of method "wmi" does the
    same with bare runs of digits only, and answers 50 wherever the
    modular one returns nothing. *)
Theorem wmi_get_brightness_spec (d : gmap string pyvalue) (w : world) :
  (exists r : option Z,
      Controller.wmi_get_brightness d w =
        (Ret r, Spec.ran w Controller.wmi_get_command) /\
      match shell w (invocations w) Controller.wmi_get_command with
      | Completed rc out _ =>
          if rc =? 0 then
            exists found,
              Spec.first_match (Spec.output_lines out) found /\
              r = Spec.brightness_of found
          else r = None
      | Failed _ => r = None
      end) /\
  (forall err,
      shell w (invocations w) Controller.wmi_get_command =
        Completed 0 "CurrentBrightness : 72" err ->
      fst (Controller.wmi_get_brightness d w) = Ret (Some 72)) /\
  (d <> ∅ -> d !! "method" = Some (PyStr "wmi") ->
   exists n : Z,
      Legacy.get_brightness d w = (Ret n, Spec.ran w Legacy.get_command) /\
      match shell w (invocations w) Legacy.get_command with
      | Completed rc out _ =>
          if rc =? 0 then
            exists found,
              Spec.first_of Spec.bare_integer (Spec.output_lines out) found /\
              n = default 50 (Spec.brightness_of found)
          else n = 50
      | Failed _ => n = 50
      end).
Proof.
  rewrite WmiFacts.wmi_get_brightness_run. split; [|split].
  - eexists. split; [reflexivity|].
    destruct (shell w (invocations w) Controller.wmi_get_command) as [rc out err|e];
      [|reflexivity].
    destruct (rc =? 0); [|reflexivity].
    destruct (ScanFacts.scan_lines_first (Spec.output_lines out))
      as (found & Hfirst & ->).
    exists found. split; [exact Hfirst|].
    now rewrite ScanFacts.brightness_of_converted.
  - intros err ->. reflexivity.
  - intros Hd Hm.
    rewrite (WmiFacts.legacy_get_brightness_run d w (WmiFacts.not_wmi_false d Hd Hm)).
    eexists. split; [reflexivity|].
    destruct (shell w (invocations w) Legacy.get_command) as [rc out err|e];
      [|reflexivity].
    destruct (rc =? 0); [|reflexivity].
    destruct (ScanFacts.first_digit_line_first (Spec.output_lines out))
      as (found & Hfirst & ->).
    exists found. split; [exact Hfirst|].
    rewrite ScanFacts.brightness_of_converted.
    now destruct (Reading.converted found).
Qed.

Lemma wmi_get_brightness_spec_witness :
  fst (Controller.wmi_get_brightness
         (Detector.to_dict Detector.fallback_display)
         (Spec.printing "CurrentBrightness : 72")) = Ret (Some 72) /\
  exists n : Z,
    Legacy.get_brightness Spec.laptop (Spec.printing "CurrentBrightness : 72") =
      (Ret n, Spec.ran (Spec.printing "CurrentBrightness : 72") Legacy.get_command).
Proof.
  split.
  - apply (proj1 (proj2 (wmi_get_brightness_spec _ _)) ""). reflexivity.
  - destruct (proj2 (proj2 (wmi_get_brightness_spec Spec.laptop
                (Spec.printing "CurrentBrightness : 72"))))
      as (n & Hn & _); [discriminate | reflexivity |].
    now exists n.
Defined.

(** The scan on sample outputs: a table with a header, a bare number
    after noise, a time-like value (the second field counts), no match,
    and a first match that [int] refuses. *)
Example scan_lines_examples :
  map (fun out => Controller.scan_lines (Spec.output_lines out))
    ["CurrentBrightness : 72";
     String.concat (String Detector.LF "") ["CurrentBrightness"; "-----"; "  40 "];
     "Time : 12:30";
     "a:b:5";
     "no number here";
     Spec.superscript_then_72] =
  [Ret (Some 72); Ret (Some 40); Ret (Some 12); Ret None; Ret None;
   Raise ValueError].
Proof. vm_compute. reflexivity. Qed.

(** ** The placeholder strategy *)




(** ** The dispatcher *)

Module ControllerFacts.
Import Controller.

Lemma controller_for_spy {S : Type} (cs : gmap string (strategy S)) method :
  controller_for (Spec.spy <$> cs) method = Spec.spy <$> controller_for cs method.
Proof.
  destruct method; try reflexivity.
  unfold controller_for. apply lookup_fmap.
Qed.

(** A value that converts to an integer in range passes the inner
    validation. *)
Lemma set_brightness_dispatch {S : Type} (cs : gmap string (strategy S))
    d v b s :
  is_empty d = false -> to_int v = Ret b -> 0 <= b <= 100 ->
  set_brightness cs d v s =
  match controller_for cs (method_of d) with
  | None => (Ret false, s)
  | Some c =>
      match set_brightness_of c d b s with
      | (Ret r, s') => (Ret r, s')
      | (Raise _, s') => (Ret false, s')
      end
  end.
Proof.
  intros Hd Hv Hb. unfold set_brightness. rewrite Hd, Hv.
  unfold mbind, mlift. rewrite (proj2 (validate_int_true b) Hb). simpl.
  destruct (controller_for cs (method_of d)) as [c|]; [|reflexivity].
  unfold mtry, mbind, mret, any_Exception.
  destruct (set_brightness_of c d b s) as [[r|e] s']; reflexivity.
Qed.

End ControllerFacts.

(** C7.  Run with every controller wrapped in a call recorder,
    [test_brightness_support] makes these calls and no others: none when
    no controller is registered for the display's method; otherwise one
    [get_brightness] on the display, followed by one [set_brightness]
    exactly when that get returned a value (it neither raised nor returned
    [None]), and then with the same display and exactly the value
    returned. *)
Theorem test_brightness_support_probes {S : Type}
    (cs : gmap string (Controller.strategy S)) (d : gmap string pyvalue) (s : S) :
  let calls :=
    snd (snd (Controller.test_brightness_support (Spec.spy <$> cs) d (s, []))) in
  match Controller.controller_for cs (Controller.method_of d) with
  | None => calls = []
  | Some c =>
      match fst (Controller.get_brightness_of c d s) with
      | Ret (Some current) => calls = [Spec.GetCall d; Spec.SetCall d current]
      | _ => calls = [Spec.GetCall d]
      end
  end.
Proof.
  unfold Controller.test_brightness_support.
  rewrite ControllerFacts.controller_for_spy.
  destruct (Controller.controller_for cs (Controller.method_of d)) as [c|];
    [|reflexivity].
  unfold mbind, mtry, mret, any_Exception. simpl.
  destruct (Controller.get_brightness_of c d s) as [[[current|]|e] s1]; simpl;
    try reflexivity.
  destruct (Controller.set_brightness_of c d current s1) as [[r|e] s2];
    reflexivity.
Qed.

(** The self-test on a laptop display whose query prints 72: the one
    setter command carries 72. *)
Example test_brightness_support_example :
  let w := {| invocations := [];
              shell := fun _ _ => Completed 0 "CurrentBrightness : 72" "";
              monitors := [] |} in
  let '(r, w') := Controller.test_brightness_support Controller.controllers
                    Spec.laptop w in
  r = Ret (<["get_brightness" := true]>
             (<["set_brightness" := true]>
                (<["method_available" := true]> ∅))) /\
  invocations w' = [Controller.wmi_get_command; Controller.wmi_set_command 72].
Proof. vm_compute. split; reflexivity. Qed.

(** The claim that a value failing range validation is rejected before
    any external call fails at [-0.5]: the validator rejects it, yet
    [set_brightness] truncates it to 0 first, validates 0, and runs the
    setter command with 0, reporting success. *)
Lemma set_brightness_truncates_before_validation :
  Security.validate_brightness_value (PyFloat Spec.minus_half) = Ret false /\
  Controller.set_brightness Controller.controllers Spec.laptop
    (PyFloat Spec.minus_half) Spec.idle_world =
  (Ret true, Spec.ran Spec.idle_world (Controller.wmi_set_command 0)).
Proof. vm_compute. split; reflexivity. Qed.

(** C2 (amended).  [set_brightness] converts the value with
    [int(float(value))] and validates the resulting integer.  It returns
    false, leaving the state untouched (no call on any strategy, hence no
    external process), when the display is empty, when the conversion
    raises [ValueError] or [TypeError], and when the validator rejects the
    integer, as it does for every integer below 0 or above 100 that the
    conversion can give.  An integer in 0..100 is handed to the strategy
    of the display's method unchanged: nothing is clamped. *)
Theorem set_brightness_validates {S : Type}
    (cs : gmap string (Controller.strategy S))
    (d : gmap string pyvalue) (value : pyvalue) (s : S) :
  (Controller.is_empty d = true ->
   Controller.set_brightness cs d value s = (Ret false, s)) /\
  (forall e, Controller.to_int value = Raise e ->
             ValueError_or_TypeError e = true ->
             Controller.set_brightness cs d value s = (Ret false, s)) /\
  (forall b, Controller.to_int value = Ret b ->
             Security.validate_brightness_value (PyInt b) = Ret false ->
             Controller.set_brightness cs d value s = (Ret false, s)) /\
  (forall b, Spec.well_formed value ->
             Controller.to_int value = Ret b ->
             b < 0 \/ 100 < b ->
             Controller.set_brightness cs d value s = (Ret false, s)) /\
  (forall b c, Controller.is_empty d = false ->
               Controller.to_int value = Ret b ->
               0 <= b <= 100 ->
               Controller.controller_for cs (Controller.method_of d) = Some c ->
               Controller.set_brightness cs d value s =
               match Controller.set_brightness_of c d b s with
               | (Ret r, s') => (Ret r, s')
               | (Raise _, s') => (Ret false, s')
               end).
Proof.
  assert (Hrej : forall b, Controller.to_int value = Ret b ->
            Security.validate_brightness_value (PyInt b) = Ret false ->
            Controller.set_brightness cs d value s = (Ret false, s)).
  { intros b Hb Hv. unfold Controller.set_brightness.
    destruct (Controller.is_empty d); [reflexivity|].
    rewrite Hb. unfold mbind, mlift. now rewrite Hv. }
  split; [|split; [|split; [exact Hrej|split]]].
  - intros Hd. unfold Controller.set_brightness. now rewrite Hd.
  - intros e He Hc. unfold Controller.set_brightness.
    destruct (Controller.is_empty d); [reflexivity|].
    now rewrite He, Hc.
  - intros b Hwf Hb Hout. apply (Hrej b Hb).
    rewrite (NumFacts.to_int_validates value b Hwf Hb). f_equal.
    destruct (Z.leb_spec 0 b); destruct (Z.leb_spec b 100); try reflexivity; lia.
  - intros b c Hd Hb Hin Hc.
    rewrite (ControllerFacts.set_brightness_dispatch cs d value b s Hd Hb Hin).
    now rewrite Hc.
Qed.

Lemma set_brightness_validates_witness :
  Controller.set_brightness Controller.controllers Spec.laptop (PyStr "abc")
    Spec.idle_world = (Ret false, Spec.idle_world) /\
  Controller.set_brightness Controller.controllers Spec.laptop
    (PyStr (String "028" "50")) Spec.idle_world = (Ret false, Spec.idle_world) /\
  Controller.set_brightness Controller.controllers Spec.laptop (PyInt 150)
    Spec.idle_world = (Ret false, Spec.idle_world) /\
  Controller.set_brightness Controller.controllers Spec.laptop
    (PyFloat Spec.two_to_1023) Spec.idle_world = (Ret false, Spec.idle_world) /\
  Controller.set_brightness Controller.controllers Spec.laptop (PyStr "72.9")
    Spec.idle_world =
  (Ret true, Spec.ran Spec.idle_world (Controller.wmi_set_command 72)).
Proof.
  pose proof (set_brightness_validates Controller.controllers Spec.laptop
                (PyStr "abc") Spec.idle_world) as Habc.
  pose proof (set_brightness_validates Controller.controllers Spec.laptop
                (PyStr (String "028" "50")) Spec.idle_world) as Hfs.
  pose proof (set_brightness_validates Controller.controllers Spec.laptop
                (PyInt 150) Spec.idle_world) as H150.
  pose proof (set_brightness_validates Controller.controllers Spec.laptop
                (PyFloat Spec.two_to_1023) Spec.idle_world) as Hbig.
  pose proof (set_brightness_validates Controller.controllers Spec.laptop
                (PyStr "72.9") Spec.idle_world) as H72.
  split; [|split; [|split; [|split]]].
  - apply (proj1 (proj2 Habc) ValueError); reflexivity.
  - apply (proj1 (proj2 Hfs) ValueError); reflexivity.
  - apply (proj1 (proj2 (proj2 H150)) 150); reflexivity.
  - apply (proj1 (proj2 (proj2 (proj2 Hbig))) (2 ^ 1023)).
    + simpl. lia.
    + reflexivity.
    + right. reflexivity.
  - rewrite (proj2 (proj2 (proj2 (proj2 H72))) 72 Controller.wmi_controller);
      try reflexivity.
    simpl. lia.
Defined.

(** The end-to-end scenario of the specification: the query prints
    "CurrentBrightness : 72", [get_brightness] returns 72, and setting 72
    issues exactly one further command and succeeds on exit status 0. *)
Example end_to_end_scenario :
  let w := {| invocations := [];
              shell := fun _ _ => Completed 0 "CurrentBrightness : 72" "";
              monitors := [] |} in
  let '(got, w1) := Controller.get_brightness Controller.controllers Spec.laptop w in
  let '(ok, w2) := Controller.set_brightness Controller.controllers Spec.laptop
                     (PyInt 72) w1 in
  got = Ret (Some 72) /\ ok = Ret true /\
  invocations w2 = invocations w1 ++ [Controller.wmi_set_command 72].
Proof. vm_compute. repeat split; reflexivity. Qed.

(** ** A method without a registered strategy *)

(** What does hold for an unregistered method: [get_brightness] returns
    [None], and [set_brightness] returns false whenever the conversion of
    the value does not overflow; the state is untouched in every case. *)
Lemma unregistered_method {S : Type} (cs : gmap string (Controller.strategy S))
    (d : gmap string pyvalue) (value : pyvalue) (s : S) :
  Controller.controller_for cs (Controller.method_of d) = None ->
  Controller.get_brightness cs d s = (Ret None, s) /\
  snd (Controller.set_brightness cs d value s) = s /\
  (Controller.set_brightness cs d value s = (Ret false, s) \/
   Controller.set_brightness cs d value s = (Raise OverflowError, s)).
Proof.
  intros Hc. split.
  - unfold Controller.get_brightness. rewrite Hc.
    now destruct (Controller.is_empty d).
  - unfold Controller.set_brightness. rewrite Hc.
    destruct (Controller.is_empty d); [split; [|left]; reflexivity|].
    destruct (Controller.to_int value) as [b|e] eqn:Hv.
    + unfold mbind, mlift.
      destruct (validate_int b) as [-> | [-> _]].
      * destruct ((0 <=? b) && (b <=? 100)); split; try reflexivity;
          left; reflexivity.
      * split; [reflexivity | right; reflexivity].
    + assert (He : ValueError_or_TypeError e = true \/ e = OverflowError).
      { unfold Controller.to_int in Hv.
        destruct value as [|b|z|x|str|id]; simpl in Hv; try (injection Hv as <-; now left).
        - discriminate.
        - pose proof (NumFacts.float_of_int_range z) as Hz.
          destruct (Num.float_of_int z) as [x|e'].
          + destruct x; simpl in Hv; [injection Hv as <-; now left
                                     | injection Hv as <-; now right
                                     | discriminate].
          + injection Hv as <-. right. tauto.
        - destruct x; simpl in Hv; [injection Hv as <-; now left
                                   | injection Hv as <-; now right
                                   | discriminate].
        - destruct (Num.float_of_str str) as [x|e'] eqn:Hs.
          + destruct x; simpl in Hv; [injection Hv as <-; now left
                                     | injection Hv as <-; now right
                                     | discriminate].
          + injection Hv as <-. apply float_of_str_raises in Hs as ->. now left. }
      destruct He as [-> | ->]; split; try reflexivity;
        [left | right]; reflexivity.
Qed.

(** C4 (defect).  On a display whose method "usb" has no registered
    strategy, [set_brightness] with the string "inf" does not return
    false: [int(float("inf"))] raises [OverflowError], which the handler
    for [ValueError] and [TypeError] lets through to the caller.  (No
    external process is run.)  The single-file [set_brightness], which
    validates before it converts, returns false on the same value. *)
Theorem set_brightness_unregistered_inf :
  Controller.controller_for Controller.controllers
    (Controller.method_of Spec.projector) = None /\
  Controller.get_brightness Controller.controllers Spec.projector Spec.idle_world =
    (Ret None, Spec.idle_world) /\
  Controller.set_brightness Controller.controllers Spec.projector (PyStr "inf")
    Spec.idle_world = (Raise OverflowError, Spec.idle_world) /\
  Legacy.set_brightness Spec.laptop (PyStr "inf") Spec.idle_world =
    (Ret false, Spec.idle_world).
Proof. vm_compute. repeat split; reflexivity. Qed.

(** * Further properties of the code *)

(** ** The security helper *)

Module SecurityMore.
Import Security.

Lemma keep_chars_app p s1 s2 :
  Text.keep_chars p (s1 +:+ s2) = Text.keep_chars p s1 +:+ Text.keep_chars p s2.
Proof.
  induction s1 as [|c s1 IH]; simpl; [reflexivity|].
  destruct (p c); simpl; now rewrite IH.
Qed.

Lemma sanitize_part_cleaned s : Spec.sanitize_part s = Extra.cleaned s.
Proof.
  unfold Spec.sanitize_part, Extra.cleaned, remove_unsafe,
    safe_powershell_pattern_match.
  destruct (Text.nonempty s); simpl; [|reflexivity].
  destruct (Text.all_chars safe_char s) eqn:H; simpl; [|reflexivity].
  symmetry. now apply SecurityFacts.keep_chars_id.
Qed.

Lemma keep_chars_length p s :
  (String.length (Text.keep_chars p s) <= String.length s)%nat.
Proof.
  induction s as [|c s IH]; simpl; [lia|].
  destruct (p c); simpl; lia.
Qed.

Lemma safe_namespace_cases ns :
  ns ∈ safe_namespaces ->
  ns = "root/WMI" \/ ns = "root/CIMV2" \/ ns = "root/StandardCimv2".
Proof. unfold safe_namespaces. rewrite !elem_of_cons, elem_of_nil. tauto. Qed.

Lemma safe_class_cases cls :
  cls ∈ safe_classes ->
  cls = "WmiMonitorBrightness" \/ cls = "WmiMonitorBrightnessMethods" \/
  cls = "Win32_DesktopMonitor" \/ cls = "Win32_VideoController".
Proof. unfold safe_classes. rewrite !elem_of_cons, elem_of_nil. tauto. Qed.

Lemma accepts (namespace class_name : string) (method parameters : option string) :
  namespace ∈ safe_namespaces ->
  class_name ∈ safe_classes ->
  create_safe_wmi_command namespace class_name method parameters =
  ["powershell"; "-Command";
   Extra.wmi_query_text namespace class_name method parameters].
Proof.
  intros Hns Hcls.
  unfold create_safe_wmi_command, validate_wmi_namespace, validate_wmi_class.
  rewrite !bool_decide_eq_true_2 by assumption. simpl negb. cbv iota.
  rewrite SecurityFacts.sanitize_map. simpl map.
  rewrite !sanitize_part_cleaned.
  change (Extra.cleaned "powershell") with "powershell".
  change (Extra.cleaned "-Command") with "-Command".
  do 2 f_equal. f_equal.
  unfold Extra.wmi_query_text.
  apply safe_namespace_cases in Hns.
  apply safe_class_cases in Hcls.
  destruct (truthy method); [destruct (truthy parameters)|];
    unfold Extra.cleaned; rewrite !keep_chars_app;
    destruct Hns as [-> | [-> | ->]];
    destruct Hcls as [-> | [-> | [-> | ->]]]; reflexivity.
Qed.

End SecurityMore.

(** X1.  Sanitising a command is deleting, in every token, each character
    outside the safe class: the test against the safe pattern makes no
    difference to the result.  No token grows. *)
Theorem sanitize_is_cleaning (cmd : list string) :
  Security.sanitize_powershell_command cmd = map Extra.cleaned cmd /\
  Forall2 (fun out tok => (String.length out <= String.length tok)%nat)
    (Security.sanitize_powershell_command cmd) cmd.
Proof.
  rewrite SecurityFacts.sanitize_map.
  assert (H : map Spec.sanitize_part cmd = map Extra.cleaned cmd).
  { apply map_ext. intros s. apply SecurityMore.sanitize_part_cleaned. }
  rewrite H. split; [reflexivity|].
  clear H. induction cmd as [|tok rest IH]; simpl; [constructor|].
  constructor; [apply SecurityMore.keep_chars_length | exact IH].
Qed.

(** X2.  For an allow-listed namespace and class, [create_safe_wmi_command]
    returns exactly three tokens: "powershell", "-Command" and the fixed
    query template, in which the method and the parameters appear with
    every character outside the safe class deleted.  Without a method
    (absent or empty) the parameters are ignored. *)
Theorem create_safe_wmi_command_accepts
    (namespace class_name : string) (method parameters : option string) :
  namespace ∈ Security.safe_namespaces ->
  class_name ∈ Security.safe_classes ->
  Security.create_safe_wmi_command namespace class_name method parameters =
  ["powershell"; "-Command";
   Extra.wmi_query_text namespace class_name method parameters].
Proof. apply SecurityMore.accepts. Qed.

Lemma create_safe_wmi_command_accepts_witness :
  Security.create_safe_wmi_command "root/CIMV2" "Win32_VideoController"
    (Some "Reset; rm") (Some "1 | 2") =
  ["powershell"; "-Command";
   "(Get-WmiObject -Namespace root/CIMV2 -Class Win32_VideoController).Reset rm(1  2)"].
Proof.
  apply (create_safe_wmi_command_accepts "root/CIMV2" "Win32_VideoController"
           (Some "Reset; rm") (Some "1 | 2")).
  - apply (bool_decide_eq_true_1 _). vm_compute. reflexivity.
  - apply (bool_decide_eq_true_1 _). vm_compute. reflexivity.
Defined.

(** X3.  [create_safe_wmi_command] returns the empty list only when it
    rejects: the result is empty exactly when the namespace or the class
    is off its allow-list. *)
Theorem create_safe_wmi_command_empty_iff
    (namespace class_name : string) (method parameters : option string) :
  Security.create_safe_wmi_command namespace class_name method parameters = [] <->
  namespace ∉ Security.safe_namespaces \/ class_name ∉ Security.safe_classes.
Proof.
  split.
  - intros Hempty.
    destruct (decide (namespace ∈ Security.safe_namespaces)) as [Hns|Hns];
      [|now left].
    destruct (decide (class_name ∈ Security.safe_classes)) as [Hcls|Hcls];
      [|now right].
    rewrite (SecurityMore.accepts _ _ method parameters Hns Hcls) in Hempty.
    discriminate.
  - unfold Security.create_safe_wmi_command, Security.validate_wmi_namespace,
      Security.validate_wmi_class.
    intros [H|H].
    + now rewrite bool_decide_eq_false_2.
    + destruct (bool_decide (namespace ∈ Security.safe_namespaces)); simpl;
        [|reflexivity].
      now rewrite bool_decide_eq_false_2.
Qed.

(** ** The validator and the WMI setter *)

Module TextFacts.

Lemma all_chars_weaken (p q : ascii -> bool) s :
  (forall c, p c = true -> q c = true) ->
  Text.all_chars p s = true -> Text.all_chars q s = true.
Proof.
  intros Hpq. induction s as [|c s IH]; simpl; [reflexivity|].
  intros [Hc Hs]%andb_prop. now rewrite (Hpq c Hc), IH.
Qed.

Lemma pretty_N_char_digit x : Text.isdecimal_char (pretty_N_char x) = true.
Proof. unfold pretty_N_char. repeat case_match; reflexivity. Qed.

(** The decimal digits that [str] writes for a natural number. *)
Lemma pretty_N_go_digits (x : N) (s : string) :
  Text.all_chars Text.isdecimal_char (pretty_N_go x s) =
  Text.all_chars Text.isdecimal_char s.
Proof.
  revert s. induction (N.lt_wf_0 x) as [x _ IH]; intros s.
  destruct (N.eq_dec x 0%N) as [->|Hx]; [reflexivity|].
  rewrite pretty_N_go_step by lia.
  rewrite IH by (apply N.div_lt; lia).
  simpl. now rewrite pretty_N_char_digit.
Qed.

Lemma pretty_N_digits (x : N) :
  Text.all_chars Text.isdecimal_char (pretty x) = true.
Proof.
  unfold pretty, pretty_N. destruct (decide (x = 0%N)); [reflexivity|].
  now rewrite pretty_N_go_digits.
Qed.

Lemma digit_is_safe c : Text.isdecimal_char c = true -> Security.safe_char c = true.
Proof.
  intros H. unfold Security.safe_char. rewrite H.
  now rewrite orb_true_r.
Qed.

Lemma decimal_isdigit c :
  Text.isdecimal_char c = true -> Text.isdigit_char c = true.
Proof. unfold Text.isdigit_char, Text.isdecimal_char. now intros ->. Qed.

(** [str(n)] consists of safe characters, for every integer. *)
Lemma str_of_int_safe (n : Z) :
  Text.all_chars Security.safe_char (Text.str_of_int n) = true.
Proof.
  unfold Text.str_of_int, pretty, pretty_Z.
  destruct n as [|p|p]; [reflexivity| |].
  - apply (all_chars_weaken _ _ _ digit_is_safe), (pretty_N_digits (N.pos p)).
  - rewrite StringFacts.all_chars_app. simpl.
    apply (all_chars_weaken _ _ _ digit_is_safe), (pretty_N_digits (N.pos p)).
Qed.

End TextFacts.

Module WmiMore.
Import Controller.

(** The setter command is the written-out template: sanitising leaves
    the number alone. *)
Lemma wmi_set_command_template (b : Z) : wmi_set_command b = Extra.set_template b.
Proof.
  unfold wmi_set_command.
  rewrite SecurityMore.accepts;
    [|apply (bool_decide_eq_true_1 _); vm_compute; reflexivity
     |apply (bool_decide_eq_true_1 _); vm_compute; reflexivity].
  unfold Extra.set_template, Extra.wmi_query_text. simpl Security.truthy.
  cbv iota. simpl Security.fmt.
  change (Extra.cleaned "WmiSetBrightness") with "WmiSetBrightness".
  unfold Extra.cleaned. rewrite SecurityMore.keep_chars_app.
  rewrite (SecurityFacts.keep_chars_id _ _ (TextFacts.str_of_int_safe b)).
  reflexivity.
Qed.

Lemma wmi_set_brightness_valid d b w :
  0 <= b <= 100 ->
  wmi_set_brightness d b w =
  (Ret (Extra.exit_ok (shell w (invocations w) (Extra.set_template b))),
   Spec.ran w (Extra.set_template b)).
Proof.
  intros Hb. unfold wmi_set_brightness, mbind, mlift.
  rewrite (proj2 (validate_int_true b) Hb), wmi_set_command_template.
  unfold mtry, mbind, subprocess_run, any_Exception, mret, Spec.ran, Extra.exit_ok.
  cbn beta iota delta [negb Extra.set_template].
  fold (Extra.set_template b).
  destruct (shell w (invocations w) (Extra.set_template b)) as [rc out err|e];
    reflexivity.
Qed.

End WmiMore.

(** X4.  The two validators agree wherever the modular one returns.  The
    modular one raises on no value but an integer of magnitude [2^1023] or
    more, and then with [OverflowError]; on such an integer the
    single-file one returns false. *)
Theorem validators_agree (v : pyvalue) :
  (forall b, Security.validate_brightness_value v = Ret b ->
             Legacy.validate_brightness_value v = Ret b) /\
  (forall e, Security.validate_brightness_value v = Raise e ->
             e = OverflowError /\
             (exists z, v = PyInt z /\ 2 ^ 1023 <= Z.abs z) /\
             Legacy.validate_brightness_value v = Ret false).
Proof.
  rewrite validate_cases.
  unfold Legacy.validate_brightness_value, try_except, any_Exception.
  fold Spec.in_range.
  destruct (py_float v) as [x|e0] eqn:Hf.
  - split; [now intros b [= <-] | discriminate].
  - split.
    + intros b. destruct (ValueError_or_TypeError e0); [now intros [= <-] | discriminate].
    + intros e He.
      destruct (ValueError_or_TypeError e0) eqn:Hc; [discriminate|].
      injection He as <-.
      destruct v as [|b|z|x|s|id]; simpl in Hf; try discriminate.
      * injection Hf as <-. discriminate.
      * pose proof (NumFacts.float_of_int_range z) as Hz.
        rewrite Hf in Hz. destruct Hz as [-> Hz].
        split; [reflexivity|]. split; [now exists z | reflexivity].
      * apply float_of_str_raises in Hf as ->. discriminate.
      * injection Hf as <-. discriminate.
Qed.

Lemma validators_agree_witness :
  Legacy.validate_brightness_value (PyStr " 42.5 ") = Ret true /\
  Legacy.validate_brightness_value (PyInt (10 ^ 400)) = Ret false.
Proof.
  split.
  - apply (proj1 (validators_agree (PyStr " 42.5 ")) true).
    vm_compute. reflexivity.
  - apply (proj2 (validators_agree (PyInt (10 ^ 400))) OverflowError).
    vm_compute. reflexivity.
Defined.

(** X5.  The WMI [set_brightness] on a brightness in 0..100 runs exactly
    one command, the setter template with the number in decimal, and
    returns true exactly when that command completes with exit status 0
    (a timeout or any other failure gives false); it never raises there.
    On a brightness outside 0..100 it returns false and runs nothing. *)
Theorem wmi_set_brightness_spec (d : gmap string pyvalue) (brightness : Z) (w : world) :
  (0 <= brightness <= 100 ->
   Controller.wmi_set_brightness d brightness w =
   (Ret (Extra.exit_ok (shell w (invocations w) (Extra.set_template brightness))),
    Spec.ran w (Extra.set_template brightness))) /\
  (brightness < 0 \/ 100 < brightness -> Z.abs brightness < 2 ^ 1023 ->
   Controller.wmi_set_brightness d brightness w = (Ret false, w)).
Proof.
  split; [apply WmiMore.wmi_set_brightness_valid|].
  intros Hout Hfit. unfold Controller.wmi_set_brightness, mbind, mlift.
  now rewrite (validate_int_false brightness Hout Hfit).
Qed.

Lemma wmi_set_brightness_spec_witness :
  Controller.wmi_set_brightness Spec.laptop 30
    {| invocations := []; shell := fun _ _ => Failed TimeoutExpired; monitors := [] |} =
  (Ret false,
   {| invocations := [Extra.set_template 30];
      shell := fun _ _ => Failed TimeoutExpired; monitors := [] |}) /\
  Controller.wmi_set_brightness Spec.laptop 101 Spec.idle_world =
  (Ret false, Spec.idle_world).
Proof.
  split.
  - apply (proj1 (wmi_set_brightness_spec Spec.laptop 30
       {| invocations := []; shell := fun _ _ => Failed TimeoutExpired;
          monitors := [] |})).
    lia.
  - apply (proj2 (wmi_set_brightness_spec Spec.laptop 101 Spec.idle_world)).
    + right. lia.
    + reflexivity.
Defined.

(** ** The dispatcher, for any registered controllers *)

Module DispatchFacts.
Import Controller.

(** What can make [int(float(v))] raise [OverflowError]. *)
Lemma to_int_overflow v :
  to_int v = Raise OverflowError ->
  (exists neg, py_float v = Ret (Num.FInf neg)) \/
  (exists z, v = PyInt z /\ 2 ^ 1023 <= Z.abs z).
Proof.
  unfold to_int. destruct (py_float v) as [x|e] eqn:Hf.
  - destruct x as [|neg|neg m e]; try discriminate. intros _. left. now exists neg.
  - intros [= ->]. right.
    destruct v as [|b|z|x|s|id]; simpl in Hf; try discriminate.
    + pose proof (NumFacts.float_of_int_range z) as Hz. rewrite Hf in Hz.
      exists z. split; [reflexivity | apply Hz].
    + now apply float_of_str_raises in Hf.
Qed.

(** The exceptions of [int(float(v))]. *)
Lemma to_int_raises v e :
  to_int v = Raise e -> ValueError_or_TypeError e = true \/ e = OverflowError.
Proof.
  unfold to_int. destruct (py_float v) as [x|e0] eqn:Hf.
  - destruct x; simpl; intros [= <-]; [now left | now right].
  - intros [= <-].
    destruct v as [|b|z|x|s|id]; simpl in Hf; try discriminate.
    + injection Hf as <-. now left.
    + pose proof (NumFacts.float_of_int_range z) as Hz. rewrite Hf in Hz.
      right. apply Hz.
    + apply float_of_str_raises in Hf as ->. now left.
    + injection Hf as <-. now left.
Qed.

Lemma controllers_lookup (m : string) :
  controllers !! m =
  if String.eqb m "wmi" then Some wmi_controller
  else if String.eqb m "ddc" then Some ddc_controller
  else None.
Proof.
  unfold controllers.
  destruct (String.eqb_spec m "wmi") as [->|Hw]; [reflexivity|].
  rewrite lookup_insert_ne by congruence.
  destruct (String.eqb_spec m "ddc") as [->|Hd]; [reflexivity|].
  rewrite lookup_insert_ne by congruence. reflexivity.
Qed.

(** What the scan returns is what a run of digits writes. *)
Lemma scan_lines_nonneg lines n : scan_lines lines = Ret (Some n) -> 0 <= n.
Proof.
  destruct (ScanFacts.scan_lines_first lines) as (found & _ & ->).
  destruct found as [t|]; simpl; [|discriminate].
  unfold Spec.integer_of. destruct (_ && _); [|discriminate].
  intros [= <-]. apply NumeralFacts.value_nonneg.
Qed.

(** The dispatcher's [get_brightness] on the controllers of the
    application. *)
Lemma get_brightness_table d w :
  is_empty d = false ->
  get_brightness controllers d w =
  match d !! "method" with
  | None => wmi_get_brightness d w
  | Some (PyStr m) =>
      if String.eqb m "wmi" then wmi_get_brightness d w
      else if String.eqb m "ddc" then (Ret (Some 50), w)
      else (Ret None, w)
  | Some _ => (Ret None, w)
  end.
Proof.
  intros Hd. unfold get_brightness, method_of. rewrite Hd.
  assert (Hwmi : mtry (result <- get_brightness_of wmi_controller d ;; mret result)
                   any_Exception (mret None) w = wmi_get_brightness d w).
  { unfold mtry, mbind, mret. simpl get_brightness_of.
    now rewrite WmiFacts.wmi_get_brightness_run. }
  destruct (d !! "method") as [[|b|z|x|m|id]|]; simpl; try reflexivity.
  - rewrite controllers_lookup.
    destruct (String.eqb m "wmi"); [exact Hwmi|].
    destruct (String.eqb m "ddc"); reflexivity.
  - exact Hwmi.
Qed.

End DispatchFacts.

(** X6.  The dispatcher's [get_brightness] never raises, whatever the
    registered controllers do: an exception of the controller becomes
    [None].  With an empty display or without a controller for the
    display's method it returns [None] and leaves the state untouched. *)
Theorem get_brightness_never_raises {S : Type}
    (cs : gmap string (Controller.strategy S)) (d : gmap string pyvalue) (s : S) :
  exists r s',
    Controller.get_brightness cs d s = (Ret r, s') /\
    (Controller.is_empty d = true \/
     Controller.controller_for cs (Controller.method_of d) = None ->
     r = None /\ s' = s) /\
    (forall c, Controller.is_empty d = false ->
               Controller.controller_for cs (Controller.method_of d) = Some c ->
               s' = snd (Controller.get_brightness_of c d s) /\
               r = match fst (Controller.get_brightness_of c d s) with
                   | Ret x => x
                   | Raise _ => None
                   end).
Proof.
  unfold Controller.get_brightness.
  destruct (Controller.is_empty d).
  - exists None, s. split; [reflexivity|]. split; [now intros _ | discriminate].
  - destruct (Controller.controller_for cs (Controller.method_of d)) as [c|].
    + unfold mtry, mbind, mret, any_Exception.
      destruct (Controller.get_brightness_of c d s) as [[x|e] s1] eqn:Hg; simpl.
      * exists x, s1. split; [reflexivity|]. split.
        -- intros [H|H]; discriminate.
        -- intros c' _ [= <-]. now rewrite Hg.
      * exists None, s1. split; [reflexivity|]. split.
        -- intros [H|H]; discriminate.
        -- intros c' _ [= <-]. now rewrite Hg.
    + exists None, s. split; [reflexivity|]. split; [now intros _ | discriminate].
Qed.

Lemma get_brightness_never_raises_witness :
  Controller.get_brightness Controller.controllers Spec.projector Spec.idle_world =
  (Ret None, Spec.idle_world).
Proof.
  destruct (get_brightness_never_raises Controller.controllers Spec.projector
              Spec.idle_world) as (r & s' & Heq & Hnone & _).
  destruct Hnone as [-> ->]; [right; reflexivity|]. exact Heq.
Defined.

(** X7.  The dispatcher's [set_brightness] either returns a boolean or
    raises [OverflowError], and nothing else, whatever the registered
    controllers do.  When it raises, no controller was called (the state
    is untouched), and the value converts to an infinity or to an integer
    of magnitude [2^1023] or more. *)
Theorem set_brightness_raises_only_overflow {S : Type}
    (cs : gmap string (Controller.strategy S)) (d : gmap string pyvalue)
    (value : pyvalue) (s : S) :
  (exists b s', Controller.set_brightness cs d value s = (Ret b, s')) \/
  (Controller.set_brightness cs d value s = (Raise OverflowError, s) /\
   ((exists neg, py_float value = Ret (Num.FInf neg)) \/
    (exists z, Controller.to_int value = Ret z /\ 2 ^ 1023 <= Z.abs z) \/
    (exists z, value = PyInt z /\ 2 ^ 1023 <= Z.abs z))).
Proof.
  unfold Controller.set_brightness.
  destruct (Controller.is_empty d); [left; now exists false, s|].
  destruct (Controller.to_int value) as [b|e] eqn:Hv.
  - unfold mbind, mlift.
    destruct (validate_int b) as [-> | [-> Hbig]].
    + destruct ((0 <=? b) && (b <=? 100)); simpl; [|left; now exists false, s].
      destruct (Controller.controller_for cs (Controller.method_of d)) as [c|];
        [|left; now exists false, s].
      unfold mtry, mbind, mret, any_Exception.
      destruct (Controller.set_brightness_of c d b s) as [[r|e] s1];
        left; eauto.
    + right. split; [reflexivity|]. right. left. now exists b.
  - destruct (DispatchFacts.to_int_raises value e Hv) as [Hc | ->].
    + rewrite Hc. left. now exists false, s.
    + right. split; [reflexivity|].
      destruct (DispatchFacts.to_int_overflow value Hv) as [H|H];
        [now left | right; now right].
Qed.

(** X8.  On the controllers of the application, a display without a
    "method" key is served by the WMI controller, like one whose method is
    "wmi"; a "ddc" display reads as 50 without any external call; a method
    that is no string, or an unknown one, reads as [None] without any
    external call. *)
Theorem get_brightness_dispatch (d : gmap string pyvalue) (w : world) :
  Controller.is_empty d = false ->
  Controller.get_brightness Controller.controllers d w =
  match d !! "method" with
  | None => Controller.wmi_get_brightness d w
  | Some (PyStr m) =>
      if String.eqb m "wmi" then Controller.wmi_get_brightness d w
      else if String.eqb m "ddc" then (Ret (Some 50), w)
      else (Ret None, w)
  | Some _ => (Ret None, w)
  end.
Proof. apply DispatchFacts.get_brightness_table. Qed.

Lemma get_brightness_dispatch_witness :
  Controller.get_brightness Controller.controllers
    (<["name" := PyStr "Panel"]> ∅) Spec.idle_world =
  Controller.wmi_get_brightness (<["name" := PyStr "Panel"]> ∅) Spec.idle_world /\
  Controller.get_brightness Controller.controllers Spec.external Spec.idle_world =
  (Ret (Some 50), Spec.idle_world).
Proof.
  split.
  - exact (get_brightness_dispatch (<["name" := PyStr "Panel"]> ∅) Spec.idle_world
             eq_refl).
  - exact (get_brightness_dispatch Spec.external Spec.idle_world eq_refl).
Defined.

(** X9.  A brightness read through the dispatcher of the application is
    never negative: whatever the shell prints, [get_brightness] returns
    [None] or an integer that is at least 0. *)
Theorem get_brightness_nonnegative (d : gmap string pyvalue) (w : world) (n : Z) :
  fst (Controller.get_brightness Controller.controllers d w) = Ret (Some n) ->
  0 <= n.
Proof.
  destruct (Controller.is_empty d) eqn:Hd.
  - unfold Controller.get_brightness. rewrite Hd. discriminate.
  - rewrite (DispatchFacts.get_brightness_table d w Hd).
    assert (Hwmi : fst (Controller.wmi_get_brightness d w) = Ret (Some n) -> 0 <= n).
    { rewrite WmiFacts.wmi_get_brightness_run. simpl.
      destruct (shell w (invocations w) Controller.wmi_get_command)
        as [rc out err|e]; [|discriminate].
      destruct (rc =? 0); [|discriminate].
      destruct (Controller.scan_lines (Spec.output_lines out)) as [r|e] eqn:Hs;
        [|discriminate].
      intros [= ->]. now apply DispatchFacts.scan_lines_nonneg in Hs. }
    destruct (d !! "method") as [[|b|z|x|m|id]|]; try discriminate; [|exact Hwmi].
    destruct (String.eqb m "wmi"); [exact Hwmi|].
    destruct (String.eqb m "ddc"); [|discriminate].
    intros [= <-]. lia.
Qed.

Lemma get_brightness_nonnegative_witness :
  let w := {| invocations := [];
              shell := fun _ _ => Completed 0 "CurrentBrightness : 72" "";
              monitors := [] |} in
  fst (Controller.get_brightness Controller.controllers Spec.laptop w) =
    Ret (Some 72) /\ 0 <= 72.
Proof.
  intros w.
  assert (H : fst (Controller.get_brightness Controller.controllers Spec.laptop w) =
              Ret (Some 72)) by (vm_compute; reflexivity).
  split; [exact H|].
  exact (get_brightness_nonnegative Spec.laptop w 72 H).
Defined.

(** X10.  [test_brightness_support] never raises and always returns a
    dictionary with the three keys.  In it "set_brightness" is true only
    if "get_brightness" is, "get_brightness" is true only if
    "method_available" is, and "method_available" is true exactly when a
    controller is registered for the display's method. *)
Theorem test_brightness_support_report {S : Type}
    (cs : gmap string (Controller.strategy S)) (d : gmap string pyvalue) (s : S) :
  exists info s',
    Controller.test_brightness_support cs d s = (Ret info, s') /\
    (exists g t a, info !! "get_brightness" = Some g /\
                   info !! "set_brightness" = Some t /\
                   info !! "method_available" = Some a /\
                   (t = true -> g = true) /\
                   (g = true -> a = true) /\
                   (a = true <->
                    is_Some (Controller.controller_for cs (Controller.method_of d)))) /\
    (forall k, k <> "get_brightness" -> k <> "set_brightness" ->
               k <> "method_available" -> info !! k = None).
Proof.
  unfold Controller.test_brightness_support, Controller.support_info0.
  destruct (Controller.controller_for cs (Controller.method_of d)) as [c|].
  - unfold mbind, mtry, mret, any_Exception.
    destruct (Controller.get_brightness_of c d s) as [[[current|]|e] s1]; simpl.
    + destruct (Controller.set_brightness_of c d current s1) as [[r|e] s2];
        eexists _, _; (split; [reflexivity|]); split.
      * exists true, r, true. repeat split; eauto.
      * intros k H1 H2 H3. now rewrite !lookup_insert_ne by congruence.
      * exists true, false, true. repeat split; eauto; try discriminate.
      * intros k H1 H2 H3. now rewrite !lookup_insert_ne by congruence.
    + eexists _, _; (split; [reflexivity|]); split.
      * exists false, false, true. repeat split; eauto; try discriminate.
      * intros k H1 H2 H3. now rewrite !lookup_insert_ne by congruence.
    + eexists _, _; (split; [reflexivity|]); split.
      * exists false, false, true. repeat split; eauto; try discriminate.
      * intros k H1 H2 H3. now rewrite !lookup_insert_ne by congruence.
  - eexists _, _; (split; [reflexivity|]); split.
    + exists false, false, false. repeat split; try discriminate.
      intros [x Hx]. discriminate.
    + intros k H1 H2 H3. now rewrite !lookup_insert_ne by congruence.
Qed.

Lemma test_brightness_support_report_witness :
  exists info s',
    Controller.test_brightness_support Controller.controllers Spec.laptop
      Spec.idle_world = (Ret info, s') /\
    info !! "brightness" = None.
Proof.
  destruct (test_brightness_support_report Controller.controllers Spec.laptop
              Spec.idle_world) as (info & s' & Heq & _ & Hkeys).
  exists info, s'. split; [exact Heq|].
  apply Hkeys; discriminate.
Defined.

(** ** The detectors, record by record *)

Module DetectMore.
Import Detector.

Lemma data_lines_nonblank lines :
  Forall (fun line => Text.nonempty (Text.strip line) = true) (data_lines_of lines).
Proof.
  unfold data_lines_of. induction (drop 2 lines) as [|line rest IH]; simpl;
    [constructor|].
  destruct (Text.nonempty (Text.strip line)) eqn:Hn; simpl; [|exact IH].
  destruct (negb (Text.startswith "-" line)); [|exact IH].
  constructor; assumption.
Qed.

(** The loop of a WMI query appends one record per line, numbered on. *)
Lemma laptop_loop_records flag (lines : list string) :
  Forall (fun line => Text.nonempty (Text.strip line) = true) lines ->
  forall (i : nat) (acc : list DisplayInfo),
    laptop_loop flag (Z.of_nat i) lines acc =
    acc ++ imap (fun k line => Extra.laptop_record flag (Z.of_nat (i + k)) line) lines.
Proof.
  induction 1 as [|line rest Hline _ IH]; intros i acc; simpl.
  - now rewrite app_nil_r.
  - rewrite Hline.
    replace (Z.of_nat i + 1) with (Z.of_nat (S i)) by lia.
    rewrite IH, <- app_assoc. simpl. f_equal.
    unfold Extra.laptop_record at 2. rewrite Nat.add_0_r.
    replace (Z.of_nat i + 1) with (Z.of_nat (S i)) by lia.
    f_equal. apply imap_ext. intros k x _. simpl.
    now replace (S (i + k))%nat with (i + S k)%nat by lia.
Qed.

Lemma blank_output_no_lines out :
  Text.nonempty (Text.strip out) = false -> Extra.query_lines out = [].
Proof.
  unfold Extra.query_lines. destruct (Text.strip out); [reflexivity | discriminate].
Qed.

(** A WMI query, whatever the shell does. *)
Lemma wmi_query_run select flag w :
  wmi_query select flag w =
  (Ret (Extra.query_records flag
          (shell w (invocations w) ["powershell"; "-Command"; select])),
   Spec.ran w ["powershell"; "-Command"; select]).
Proof.
  unfold wmi_query, mtry, mbind, subprocess_run, Spec.ran, any_Exception, mret,
    Extra.query_records.
  destruct (shell w (invocations w) _) as [rc out err|e]; simpl; [|reflexivity].
  destruct (rc =? 0); simpl; [|reflexivity].
  destruct (Text.nonempty (Text.strip out)) eqn:Hne.
  - change 0 with (Z.of_nat 0).
    rewrite (laptop_loop_records flag _ (data_lines_nonblank _) 0%nat []).
    reflexivity.
  - now rewrite (blank_output_no_lines out Hne).
Qed.

Lemma query_records_lookup flag res (k : nat) r :
  Extra.query_records flag res !! k = Some r ->
  exists line, r = Extra.laptop_record flag (Z.of_nat k) line.
Proof.
  unfold Extra.query_records.
  destruct res as [rc out err|e]; [|now rewrite lookup_nil].
  destruct (rc =? 0); [|now rewrite lookup_nil].
  rewrite list_lookup_imap.
  destruct (Extra.query_lines out !! k) as [line|]; [|discriminate].
  intros [= <-]. now exists line.
Qed.

(** The loop of the enumeration appends one record per monitor. *)
Lemma enum_display_loop_records (ms : list monitor) (acc : list DisplayInfo) :
  enum_display_loop ms acc =
  acc ++ imap (fun k mon =>
                 Extra.external_record (Z.of_nat (length acc + k)) mon) ms.
Proof.
  revert acc. induction ms as [|mon rest IH]; intros acc; simpl.
  - now rewrite app_nil_r.
  - rewrite IH, <- app_assoc. simpl. f_equal.
    unfold Extra.external_record at 2, Extra.external_name. rewrite Nat.add_0_r.
    f_equal. apply imap_ext. intros k x _. simpl.
    rewrite length_app. simpl.
    f_equal. lia.
Qed.

End DetectMore.

(** X11.  Each of the two WMI queries of the detector runs exactly one
    command and returns, without raising, exactly one record per data line
    of the output, in order, when the command exits with status 0: the
    record of data line [k] (from 0) is named "Laptop Display k+1", of type
    "internal" and method "wmi", and carries the stripped line as
    "instance".  A failed, timed-out or non-zero query and an output of at
    most two lines give no record. *)
Theorem wmi_queries_records (w : world) :
  Detector._detect_brightness_methods w =
    (Ret (Extra.query_records "supports_brightness_methods"
            (shell w (invocations w) Extra.methods_command)),
     Spec.ran w Extra.methods_command) /\
  Detector._detect_current_brightness w =
    (Ret (Extra.query_records "supports_current_brightness"
            (shell w (invocations w) Extra.current_command)),
     Spec.ran w Extra.current_command) /\
  (forall flag rc out err,
      rc <> 0 -> Extra.query_records flag (Completed rc out err) = []) /\
  (forall flag out err,
      (length (Text.split Detector.LF (Text.strip out)) <= 2)%nat ->
      Extra.query_records flag (Completed 0 out err) = []) /\
  (forall flag out err (k : nat) (line : string),
      Extra.query_lines out !! k = Some line ->
      Extra.query_records flag (Completed 0 out err) !! k =
      Some {| Detector.name := "Laptop Display " +:+ Text.str_of_int (Z.of_nat k + 1);
              Detector.type := "internal";
              Detector.method := "wmi";
              Detector.properties :=
                <["instance" := PyStr (Text.strip line)]>
                  (<[flag := PyBool true]> ∅) |}) /\
  (forall flag out err,
      length (Extra.query_records flag (Completed 0 out err)) =
      length (Extra.query_lines out)).
Proof.
  split; [apply DetectMore.wmi_query_run|].
  split; [apply DetectMore.wmi_query_run|].
  split; [|split; [|split]].
  - intros flag rc out err Hrc. simpl.
    destruct (Z.eqb_spec rc 0); [contradiction | reflexivity].
  - intros flag out err Hlen. simpl.
    unfold Extra.query_lines, Detector.data_lines_of.
    rewrite drop_ge by exact Hlen. reflexivity.
  - intros flag out err k line Hk. simpl.
    now rewrite list_lookup_imap, Hk.
  - intros flag out err. simpl. apply length_imap.
Qed.

Lemma wmi_queries_records_witness :
  Extra.query_records "supports_brightness_methods"
    (Completed 0 "InstanceName" "") = [] /\
  Extra.query_records "supports_brightness_methods" (Completed 1 "x" "") = [].
Proof.
  split.
  - apply (proj1 (proj2 (proj2 (proj2 (wmi_queries_records Spec.idle_world))))).
    vm_compute. lia.
  - apply (proj1 (proj2 (proj2 (wmi_queries_records Spec.idle_world)))).
    discriminate.
Defined.

(** X13.  The monitor enumeration returns exactly one record per monitor,
    in the order of the enumeration, and runs no command: the record of
    monitor [k] (from 0) is named "External Monitor k+1", of type
    "external" and method "ddc", and carries the monitor's handle. *)
Theorem ddc_detect_displays_records (w : world) :
  exists l,
    Detector.ddc_detect_displays w = (Ret l, w) /\
    length l = length (monitors w) /\
    forall (k : nat) (mon : monitor),
      monitors w !! k = Some mon ->
      l !! k =
      Some {| Detector.name := "External Monitor " +:+ Text.str_of_int (Z.of_nat k + 1);
              Detector.type := "external";
              Detector.method := "ddc";
              Detector.properties :=
                <["handle" := PyInt (hMonitor mon)]>
                  (<["rect_info" := Detector.rect_value (lprcMonitor mon)]> ∅) |}.
Proof.
  unfold Detector.ddc_detect_displays.
  rewrite DetectMore.enum_display_loop_records. simpl.
  eexists. split; [reflexivity|]. split; [apply length_imap|].
  intros k mon Hk. now rewrite list_lookup_imap, Hk.
Qed.

Lemma ddc_detect_displays_records_witness :
  exists l,
    Detector.ddc_detect_displays
      {| invocations := []; shell := fun _ _ => Failed OSError;
         monitors := [ {| hMonitor := 65537; lprcMonitor := None |} ] |} =
    (Ret l, {| invocations := []; shell := fun _ _ => Failed OSError;
               monitors := [ {| hMonitor := 65537; lprcMonitor := None |} ] |}) /\
    Detector.name <$> l !! 0%nat = Some "External Monitor 1".
Proof.
  destruct (ddc_detect_displays_records
              {| invocations := []; shell := fun _ _ => Failed OSError;
                 monitors := [ {| hMonitor := 65537; lprcMonitor := None |} ] |})
    as (l & Heq & _ & Hk).
  exists l. split; [exact Heq|].
  rewrite (Hk 0%nat {| hMonitor := 65537; lprcMonitor := None |} eq_refl).
  reflexivity.
Defined.

Module MergeFacts.
Import Detector.

Lemma laptop_name_inj a b : Extra.laptop_name a = Extra.laptop_name b -> a = b.
Proof.
  unfold Extra.laptop_name, Text.str_of_int. intros H.
  apply (inj (String.app "Laptop Display ")) in H.
  now apply (inj pretty) in H.
Qed.

Lemma external_name_inj a b : Extra.external_name a = Extra.external_name b -> a = b.
Proof.
  unfold Extra.external_name, Text.str_of_int. intros H.
  apply (inj (String.app "External Monitor ")) in H.
  now apply (inj pretty) in H.
Qed.

Lemma laptop_not_external a b : Extra.laptop_name a <> Extra.external_name b.
Proof. unfold Extra.laptop_name, Extra.external_name. discriminate. Qed.

Lemma numbered_nil : Extra.numbered [].
Proof. intros k r H. now rewrite lookup_nil in H. Qed.

Lemma numbered_snoc l r :
  Extra.numbered l ->
  name r = Extra.laptop_name (Z.of_nat (length l) + 1) ->
  Extra.numbered (l ++ [r]).
Proof.
  intros Hl Hr k r' Hk.
  destruct (decide (k < length l)%nat) as [Hlt|Hge].
  - rewrite lookup_app_l in Hk by exact Hlt. now apply Hl.
  - rewrite lookup_app_r in Hk by lia.
    destruct (k - length l)%nat as [|n] eqn:Hn; [|now destruct n].
    injection Hk as <-. rewrite Hr. do 2 f_equal. lia.
Qed.

Lemma query_records_numbered flag res : Extra.numbered (Extra.query_records flag res).
Proof.
  intros k r Hk.
  destruct (DetectMore.query_records_lookup flag res k r Hk) as [line ->].
  reflexivity.
Qed.

(** In a numbered list a laptop name is known exactly when its number is
    within the list. *)
Lemma name_known_numbered l (j : nat) :
  Extra.numbered l ->
  name_known l (Extra.laptop_name (Z.of_nat j + 1)) = bool_decide (j < length l)%nat.
Proof.
  intros Hl. unfold name_known.
  destruct (bool_decide_reflect (j < length l)%nat) as [Hlt|Hge].
  - destruct (lookup_lt_is_Some_2 l j Hlt) as [r Hr].
    apply existsb_exists. exists r. split.
    + apply list_elem_of_In, list_elem_of_lookup. now exists j.
    + rewrite (Hl j r Hr). apply String.eqb_refl.
  - apply not_true_is_false. intros Hex.
    apply existsb_exists in Hex as (r & Hin & Heq).
    apply list_elem_of_In, list_elem_of_lookup in Hin as [k Hk].
    apply String.eqb_eq in Heq. rewrite (Hl k r Hk) in Heq.
    apply laptop_name_inj in Heq.
    apply lookup_lt_Some in Hk. lia.
Qed.

(** Merging a run of numbered records into a numbered list adds those
    whose number is beyond the list. *)
Lemma merge_loop_numbered flag (lines : list string) :
  forall (j : nat) (l : list DisplayInfo),
    Extra.numbered l -> (j <= length l)%nat ->
    merge_loop
      (imap (fun k line => Extra.laptop_record flag (Z.of_nat (j + k)) line) lines) l =
    l ++ drop (length l - j)
           (imap (fun k line => Extra.laptop_record flag (Z.of_nat (j + k)) line) lines).
Proof.
  induction lines as [|line rest IH]; intros j l Hl Hj.
  - simpl. now rewrite drop_nil, app_nil_r.
  - rewrite imap_cons. simpl merge_loop.
    assert (Hext : imap ((fun k line0 =>
                      Extra.laptop_record flag (Z.of_nat (j + k)) line0) ∘ S) rest =
                   imap (fun k line0 =>
                      Extra.laptop_record flag (Z.of_nat (S j + k)) line0) rest).
    { apply imap_ext. intros k x _. simpl.
      now replace (j + S k)%nat with (S (j + k)) by lia. }
    rewrite Hext.
    change (name (Extra.laptop_record flag (Z.of_nat (j + 0)) line))
      with (Extra.laptop_name (Z.of_nat (j + 0) + 1)).
    rewrite Nat.add_0_r, (name_known_numbered l j Hl).
    destruct (bool_decide_reflect (j < length l)%nat) as [Hlt|Hge]; simpl negb;
      cbv iota.
    + rewrite (IH (S j) l Hl) by lia.
      f_equal.
      replace (length l - j)%nat with (S (length l - S j)) by lia.
      reflexivity.
    + assert (Hjl : j = length l) by lia.
      rewrite (IH (S j)).
      * rewrite length_app. simpl.
        replace (length l + 1 - S j)%nat with 0%nat by lia.
        replace (length l - j)%nat with 0%nat by lia.
        simpl. now rewrite <- app_assoc.
      * apply numbered_snoc; [exact Hl|]. simpl. do 2 f_equal. lia.
      * rewrite length_app. simpl. lia.
Qed.

Lemma merge_query_records flag res l :
  Extra.numbered l ->
  merge_loop (Extra.query_records flag res) l =
  l ++ drop (length l) (Extra.query_records flag res).
Proof.
  intros Hl. unfold Extra.query_records.
  destruct res as [rc out err|e]; [|simpl; now rewrite drop_nil, app_nil_r].
  destruct (rc =? 0); [|simpl; now rewrite drop_nil, app_nil_r].
  pose proof (merge_loop_numbered flag (Extra.query_lines out) 0 l Hl) as H.
  simpl in H. rewrite H by lia.
  now rewrite Nat.sub_0_r.
Qed.

(** The WMI detector, whatever the shell does. *)
Lemma wmi_detect_displays_run w :
  let methods := Extra.query_records "supports_brightness_methods"
                   (shell w (invocations w) Extra.methods_command) in
  let current := Extra.query_records "supports_current_brightness"
                   (shell w (invocations w ++ [Extra.methods_command])
                      Extra.current_command) in
  wmi_detect_displays w =
  (Ret (methods ++ drop (length methods) current),
   Spec.ran (Spec.ran w Extra.methods_command) Extra.current_command).
Proof.
  intros methods current.
  unfold wmi_detect_displays, mbind, _detect_brightness_methods,
    _detect_current_brightness.
  rewrite DetectMore.wmi_query_run. cbv beta iota.
  rewrite DetectMore.wmi_query_run. unfold mret. simpl app.
  fold Extra.methods_command Extra.current_command.
  f_equal. f_equal.
  apply (merge_query_records _ _ _ (query_records_numbered _ _)).
Qed.

End MergeFacts.

(** X12.  The WMI detector runs its two queries, one after the other, and
    returns the records of the first followed by those records of the
    second whose position is beyond the first's count: a record of the
    second query is kept only if the first query found fewer records than
    its position. *)
Theorem wmi_detect_displays_merge (w : world) :
  exists methods current w1 w2,
    Detector._detect_brightness_methods w = (Ret methods, w1) /\
    Detector._detect_current_brightness w1 = (Ret current, w2) /\
    invocations w2 =
      invocations w ++ [Extra.methods_command; Extra.current_command] /\
    Detector.wmi_detect_displays w =
      (Ret (methods ++ drop (length methods) current), w2).
Proof.
  eexists _, _, _, _.
  split; [apply DetectMore.wmi_query_run|].
  split; [apply DetectMore.wmi_query_run|].
  split; [simpl; now rewrite <- app_assoc|].
  apply MergeFacts.wmi_detect_displays_run.
Qed.

Module DetectAll.
Import Detector.

(** The detector as a whole, whatever the shell and the monitors are. *)
Lemma detect_displays_run self w :
  let methods := Extra.query_records "supports_brightness_methods"
                   (shell w (invocations w) Extra.methods_command) in
  let current := Extra.query_records "supports_current_brightness"
                   (shell w (invocations w ++ [Extra.methods_command])
                      Extra.current_command) in
  let wmi := methods ++ drop (length methods) current in
  let ddc := imap (fun k mon => Extra.external_record (Z.of_nat k) mon)
               (monitors w) in
  detect_displays self w =
  (Ret {| displays := match wmi ++ ddc with
                      | [] => [fallback_display]
                      | found => found
                      end |},
   Spec.ran (Spec.ran w Extra.methods_command) Extra.current_command).
Proof.
  intros methods current wmi ddc.
  unfold detect_displays, mbind.
  rewrite MergeFacts.wmi_detect_displays_run. cbv beta iota zeta.
  unfold ddc_detect_displays, mret.
  rewrite DetectMore.enum_display_loop_records.
  subst ddc wmi methods current. simpl.
  match goal with
  | |- context [match ?found with [] => _ | _ :: _ => _ end] => destruct found
  end; reflexivity.
Qed.

Lemma numbered_merge a b :
  Extra.numbered a -> Extra.numbered b ->
  Extra.numbered (a ++ drop (length a) b).
Proof.
  intros Ha Hb k r Hk.
  destruct (decide (k < length a)%nat) as [Hlt|Hge].
  - rewrite lookup_app_l in Hk by exact Hlt. now apply Ha.
  - rewrite lookup_app_r, lookup_drop in Hk by lia.
    replace (length a + (k - length a))%nat with k in Hk by lia.
    now apply Hb.
Qed.

(** In what the two strategies find, a record's name tells its position. *)
Lemma found_names_distinct (wmi : list DisplayInfo) (ms : list monitor) :
  Extra.numbered wmi ->
  let found := wmi ++ imap (fun k mon => Extra.external_record (Z.of_nat k) mon) ms in
  forall (i j : nat) (r1 r2 : DisplayInfo),
    found !! i = Some r1 -> found !! j = Some r2 -> name r1 = name r2 -> i = j.
Proof.
  intros Hw found.
  assert (Hname : forall k r, found !! k = Some r ->
            ((k < length wmi)%nat /\ name r = Extra.laptop_name (Z.of_nat k + 1)) \/
            ((length wmi <= k)%nat /\
             name r = Extra.external_name (Z.of_nat (k - length wmi) + 1))).
  { intros k r Hk. unfold found in Hk.
    destruct (decide (k < length wmi)%nat) as [Hlt|Hge].
    - left. split; [exact Hlt|]. rewrite lookup_app_l in Hk by exact Hlt.
      now apply Hw.
    - right. split; [lia|]. rewrite lookup_app_r, list_lookup_imap in Hk by lia.
      destruct (ms !! (k - length wmi)%nat) as [mon|]; [|discriminate].
      now injection Hk as <-. }
  intros i j r1 r2 Hi Hj Heq.
  destruct (Hname i r1 Hi) as [[Hi1 Hn1]|[Hi1 Hn1]];
    destruct (Hname j r2 Hj) as [[Hj1 Hn2]|[Hj1 Hn2]];
    rewrite Hn1, Hn2 in Heq.
  - apply MergeFacts.laptop_name_inj in Heq. lia.
  - now apply MergeFacts.laptop_not_external in Heq.
  - symmetry in Heq. now apply MergeFacts.laptop_not_external in Heq.
  - apply MergeFacts.external_name_inj in Heq. lia.
Qed.

Lemma laptop_record_servable_methods i line :
  Extra.servable (Extra.laptop_record "supports_brightness_methods" i line).
Proof. split; [now left | reflexivity]. Qed.

Lemma laptop_record_servable_current i line :
  Extra.servable (Extra.laptop_record "supports_current_brightness" i line).
Proof. split; [now left | reflexivity]. Qed.

Lemma external_record_servable n mon : Extra.servable (Extra.external_record n mon).
Proof. split; [now right | reflexivity]. Qed.

Lemma fallback_servable : Extra.servable fallback_display.
Proof. split; [now left | reflexivity]. Qed.

Lemma servable_to_dict r :
  Extra.servable r ->
  Controller.is_empty (to_dict r) = false /\
  exists c, Controller.controller_for Controller.controllers
              (Controller.method_of (to_dict r)) = Some c.
Proof.
  intros [Hm Hp].
  assert (Hlook : to_dict r !! "method" = Some (PyStr (method r))).
  { unfold to_dict. rewrite lookup_union_r by exact Hp. reflexivity. }
  split.
  - apply bool_decide_eq_false_2. intros Hempty.
    rewrite Hempty, lookup_empty in Hlook. discriminate.
  - unfold Controller.method_of. rewrite Hlook. simpl.
    destruct Hm as [-> | ->]; eexists; reflexivity.
Qed.

End DetectAll.

(** X14.  No two records of a detection result share a name: in the list
    that [detect_displays] stores, equal names mean equal positions. *)
Theorem detected_names_distinct (self : Detector.DisplayDetector) (w : world) :
  exists det w',
    Detector.detect_displays self w = (Ret det, w') /\
    forall (i j : nat) (r1 r2 : Detector.DisplayInfo),
      Detector.displays det !! i = Some r1 ->
      Detector.displays det !! j = Some r2 ->
      Detector.name r1 = Detector.name r2 -> i = j.
Proof.
  rewrite DetectAll.detect_displays_run. cbv zeta.
  eexists _, _. split; [reflexivity|]. simpl Detector.displays.
  match goal with
  | |- context [match ?wmi ++ imap ?f ?ms with [] => _ | _ :: _ => _ end] =>
      pose proof (DetectAll.found_names_distinct wmi ms) as Hfound;
      destruct (wmi ++ imap f ms) as [|r0 rest] eqn:Hlist
  end.
  - intros [|i] [|j] r1 r2 Hi Hj _; try reflexivity; discriminate.
  - apply Hfound.
    apply DetectAll.numbered_merge; apply MergeFacts.query_records_numbered.
Qed.

(** X15.  Every display that a detection stores can be served by the
    controllers of the application: its dictionary is not empty and a
    controller is registered for its method, so that [get_brightness] and
    [set_brightness] on it never stop for want of a display or of a
    controller. *)
Theorem detected_displays_are_served (self : Detector.DisplayDetector) (w : world) :
  exists det w',
    Detector.detect_displays self w = (Ret det, w') /\
    forall (i : nat) (d : gmap string pyvalue),
      Detector.get_displays det !! i = Some d ->
      Controller.is_empty d = false /\
      exists c, Controller.controller_for Controller.controllers
                  (Controller.method_of d) = Some c.
Proof.
  rewrite DetectAll.detect_displays_run. cbv zeta.
  eexists _, _. split; [reflexivity|].
  unfold Detector.get_displays. simpl Detector.displays.
  set (methods := Extra.query_records "supports_brightness_methods" _).
  set (current := Extra.query_records "supports_current_brightness" _).
  set (ddc := imap _ (monitors w)).
  assert (Hall : Forall Extra.servable ((methods ++ drop (length methods) current) ++ ddc)).
  { apply Forall_app. split; [apply Forall_app; split; [|apply Forall_drop]|].
    - apply Forall_lookup. intros k r Hk.
      destruct (DetectMore.query_records_lookup _ _ k r Hk) as [line ->].
      apply DetectAll.laptop_record_servable_methods.
    - apply Forall_lookup. intros k r Hk.
      destruct (DetectMore.query_records_lookup _ _ k r Hk) as [line ->].
      apply DetectAll.laptop_record_servable_current.
    - apply Forall_lookup. intros k r Hk. unfold ddc in Hk.
      rewrite list_lookup_imap in Hk.
      destruct (monitors w !! k) as [mon|]; [|discriminate].
      injection Hk as <-. apply DetectAll.external_record_servable. }
  assert (Hres : Forall Extra.servable
            match (methods ++ drop (length methods) current) ++ ddc with
            | [] => [Detector.fallback_display]
            | found => found
            end).
  { destruct ((methods ++ drop (length methods) current) ++ ddc);
      [repeat constructor; apply DetectAll.fallback_servable | exact Hall]. }
  intros i d Hi.
  change (map Detector.to_dict ?l) with (Detector.to_dict <$> l) in Hi.
  rewrite list_lookup_fmap in Hi.
  destruct (_ !! i) as [r|] eqn:Hr; [|discriminate].
  injection Hi as <-.
  apply DetectAll.servable_to_dict.
  now apply (proj1 (Forall_lookup _ _) Hres i r).
Qed.

Lemma detected_displays_are_served_witness :
  exists det w',
    Detector.detect_displays {| Detector.displays := [] |} Spec.idle_world =
      (Ret det, w') /\
    Controller.is_empty (Detector.to_dict Detector.fallback_display) = false.
Proof.
  destruct (detected_displays_are_served {| Detector.displays := [] |}
              Spec.idle_world) as (det & w' & Heq & Hserved).
  exists det, w'. split; [exact Heq|].
  apply (Hserved 0%nat).
  vm_compute in Heq. injection Heq as <- _. reflexivity.
Defined.

(** X16.  [get_display_by_index] agrees with [get_displays]: for a
    non-negative index it returns what the list of dictionaries holds at
    that position (nothing past the end), for a negative one nothing; the
    two have as many entries as displays are stored. *)
Theorem get_display_by_index_get_displays
    (self : Detector.DisplayDetector) (index : Z) :
  Detector.get_display_by_index self index =
    Item (if index <? 0 then None
          else Detector.get_displays self !! Z.to_nat index) /\
  length (Detector.get_displays self) = length (Detector.displays self).
Proof.
  split; [|apply length_map].
  unfold Detector.get_display_by_index, Detector.get_displays, py_index.
  set (l := Detector.displays self).
  change (map Detector.to_dict l) with (Detector.to_dict <$> l).
  rewrite list_lookup_fmap.
  destruct (Z.ltb_spec index 0) as [Hneg|Hpos].
  - destruct (Z.leb_spec 0 index); [lia | reflexivity].
  - destruct (Z.leb_spec 0 index); [|lia]. simpl.
    destruct (Z.ltb_spec index (Z.of_nat (length l))) as [Hin|Hout]; simpl.
    + destruct (lookup_lt_is_Some_2 l (Z.to_nat index)) as [r Hr]; [lia|].
      now rewrite Hr.
    + rewrite (lookup_ge_None_2 l (Z.to_nat index)) by lia. reflexivity.
Qed.

(** ** The single-file version *)

Module LegacyFacts.
Import Legacy.

Lemma not_wmi_spec (d : gmap string pyvalue) :
  not_wmi d = false <-> d <> ∅ /\ d !! "method" = Some (PyStr "wmi").
Proof.
  unfold not_wmi. split.
  - intros [Hd Hm]%orb_false_elim. split.
    + now apply bool_decide_eq_false_1 in Hd.
    + destruct (d !! "method") as [[|b|z|x|m|id]|]; try discriminate.
      apply negb_false_iff, String.eqb_eq in Hm. now subst.
  - intros [Hd Hm]. rewrite Hm. simpl.
    now rewrite bool_decide_eq_false_2.
Qed.

(** A float within the range truncates to an integer within the range. *)
Lemma in_range_truncates x :
  Spec.in_range x = true ->
  exists n, Num.int_of_float x = Ret n /\ 0 <= n <= 100.
Proof.
  destruct x as [|neg|neg m e]; try (destruct neg; discriminate); [discriminate|].
  unfold Spec.in_range, Num.int_le, Num.le_int, Num.cmp_int, Num.int_of_float,
    Num.smant.
  intros H. eexists. split; [reflexivity|].
  destruct (Z.leb_spec 0 e) as [He|He].
  - pose proof (NumFacts.pow2_pos e He) as Hp.
    destruct neg.
    + destruct (Z.compare_spec (- Z.of_N m * 2 ^ e) 0);
        destruct (Z.compare_spec (- Z.of_N m * 2 ^ e) 100);
        try discriminate; nia.
    + destruct (Z.compare_spec (Z.of_N m * 2 ^ e) 0);
        destruct (Z.compare_spec (Z.of_N m * 2 ^ e) 100);
        try discriminate; nia.
  - assert (Hp : 0 < 2 ^ (- e)) by (apply NumFacts.pow2_pos; lia).
    destruct neg.
    + destruct (Z.compare_spec (- Z.of_N m) (0 * 2 ^ (- e)));
        destruct (Z.compare_spec (- Z.of_N m) (100 * 2 ^ (- e)));
        try discriminate.
      all: assert (Hm : Z.of_N m = 0) by lia; rewrite Hm, Z.div_0_l by lia; lia.
    + destruct (Z.compare_spec (Z.of_N m) (0 * 2 ^ (- e)));
        destruct (Z.compare_spec (Z.of_N m) (100 * 2 ^ (- e)));
        try discriminate.
      all: split; [apply Z.div_pos; lia|];
        apply Z.div_le_upper_bound; lia.
  Qed.

Lemma validate_true_truncates v :
  validate_brightness_value v = Ret true ->
  exists n, Controller.to_int v = Ret n /\ 0 <= n <= 100.
Proof.
  unfold validate_brightness_value, try_except, any_Exception, Controller.to_int.
  destruct (py_float v) as [x|e]; [|discriminate].
  intros [= H]. now apply in_range_truncates.
Qed.

Lemma validate_returns v : exists b, validate_brightness_value v = Ret b.
Proof.
  unfold validate_brightness_value, try_except, any_Exception.
  destruct (py_float v); eauto.
Qed.

Lemma enum_loop_records (ms : list monitor) (acc : list (gmap string pyvalue)) :
  enum_loop ms acc =
  acc ++ imap (fun k mon => Extra.legacy_external (Z.of_nat (length acc + k)) mon) ms.
Proof.
  revert acc. induction ms as [|mon rest IH]; intros acc; simpl.
  - now rewrite app_nil_r.
  - rewrite IH, <- app_assoc. simpl. f_equal.
    unfold Extra.legacy_external at 2. rewrite Nat.add_0_r.
    f_equal. apply imap_ext. intros k x _. simpl.
    rewrite length_app. simpl. do 2 f_equal. lia.
Qed.

End LegacyFacts.

(** X17.  The single-file [get_brightness] never raises and always
    returns an integer.  On an empty display, or on one whose "method" is
    missing or is not "wmi", it returns 50 and runs nothing.  On a "wmi"
    display it runs exactly one command; when the exit status is 0 it
    looks for the first output line that is a bare run of digits and
    returns the integer that these digits write.  It returns 50 when
    there is no such line, when there is no integer for the digits (they
    are more than 4300, or not all among 0 to 9), when the status is not
    0, or when the command fails. *)
Theorem legacy_get_brightness_spec (d : gmap string pyvalue) (w : world) :
  (d = ∅ \/ d !! "method" <> Some (PyStr "wmi") ->
   Legacy.get_brightness d w = (Ret 50, w)) /\
  (d <> ∅ -> d !! "method" = Some (PyStr "wmi") ->
   exists found : option string,
     Legacy.get_brightness d w =
       (Ret (default 50 (Spec.brightness_of found)),
        Spec.ran w Legacy.get_command) /\
     match shell w (invocations w) Legacy.get_command with
     | Completed rc out _ =>
         if rc =? 0
         then Spec.first_of Spec.bare_integer (Spec.output_lines out) found
         else found = None
     | Failed _ => found = None
     end).
Proof.
  split.
  - intros H. unfold Legacy.get_brightness.
    destruct (Legacy.not_wmi d) eqn:Hn; [reflexivity|].
    apply LegacyFacts.not_wmi_spec in Hn as [Hd Hm].
    destruct H as [H|H]; contradiction.
  - intros Hd Hm.
    rewrite (WmiFacts.legacy_get_brightness_run d w
               (proj2 (LegacyFacts.not_wmi_spec d) (conj Hd Hm))).
    destruct (shell w (invocations w) Legacy.get_command) as [rc out err|e];
      [|now exists None].
    destruct (rc =? 0); [|now exists None].
    destruct (ScanFacts.first_digit_line_first (Spec.output_lines out))
      as (found & Hfirst & ->).
    exists found. split; [|exact Hfirst].
    rewrite ScanFacts.brightness_of_converted.
    now destruct (Reading.converted found).
Qed.

Lemma legacy_get_brightness_spec_witness :
  Legacy.get_brightness (<["name" := PyStr "Panel"]> ∅) Spec.idle_world =
    (Ret 50, Spec.idle_world) /\
  fst (Legacy.get_brightness Spec.laptop
         {| invocations := []; shell := fun _ _ => Failed TimeoutExpired;
            monitors := [] |}) = Ret 50.
Proof.
  split.
  - apply (proj1 (legacy_get_brightness_spec (<["name" := PyStr "Panel"]> ∅)
                    Spec.idle_world)).
    right. discriminate.
  - destruct (proj2 (legacy_get_brightness_spec Spec.laptop
                       {| invocations := []; shell := fun _ _ => Failed TimeoutExpired;
                          monitors := [] |}))
      as (found & Hrun & Hfound); [discriminate | reflexivity |].
    simpl in Hfound. subst found. now rewrite Hrun.
Defined.

(** X18.  The single-file [set_brightness] never raises.  It validates
    the value as given: a value that the validator rejects gives false
    and runs nothing.  An accepted value truncates to an integer in 0..100;
    on a display that is empty or not "wmi" the call then returns true and
    runs nothing, and on a "wmi" display it runs exactly one command, the
    setter with that integer, and returns true exactly when the command
    completes with exit status 0. *)
Theorem legacy_set_brightness_spec
    (d : gmap string pyvalue) (value : pyvalue) (w : world) :
  (exists b, Legacy.validate_brightness_value value = Ret b) /\
  (Legacy.validate_brightness_value value = Ret false ->
   Legacy.set_brightness d value w = (Ret false, w)) /\
  (Legacy.validate_brightness_value value = Ret true ->
   exists n,
     Controller.to_int value = Ret n /\ 0 <= n <= 100 /\
     Legacy.set_brightness d value w =
     if Legacy.not_wmi d then (Ret true, w)
     else (Ret (Extra.exit_ok (shell w (invocations w) (Legacy.set_command n))),
           Spec.ran w (Legacy.set_command n))).
Proof.
  split; [apply LegacyFacts.validate_returns|]. split.
  - intros Hv. unfold Legacy.set_brightness, mbind, mlift. now rewrite Hv.
  - intros Hv.
    destruct (LegacyFacts.validate_true_truncates value Hv) as (n & Hn & Hr).
    exists n. split; [exact Hn|]. split; [exact Hr|].
    unfold Legacy.set_brightness, mbind, mlift. rewrite Hv, Hn.
    cbn beta iota delta [negb].
    destruct (Legacy.not_wmi d); [reflexivity|].
    unfold mtry, mbind, subprocess_run, any_Exception, mret, Spec.ran, Extra.exit_ok.
    destruct (shell w (invocations w) (Legacy.set_command n)) as [rc out err|e];
      reflexivity.
Qed.

Lemma legacy_set_brightness_spec_witness :
  Legacy.set_brightness Spec.laptop (PyFloat Spec.minus_half) Spec.idle_world =
    (Ret false, Spec.idle_world) /\
  exists n, Controller.to_int (PyStr "99.9") = Ret n /\ 0 <= n <= 100.
Proof.
  split.
  - apply (proj1 (proj2 (legacy_set_brightness_spec Spec.laptop
                           (PyFloat Spec.minus_half) Spec.idle_world))).
    reflexivity.
  - destruct (proj2 (proj2 (legacy_set_brightness_spec Spec.laptop
                              (PyStr "99.9") Spec.idle_world)))
      as (n & Hn & Hr & _); [vm_compute; reflexivity|].
    exists n. split; [exact Hn | exact Hr].
Defined.

(** X19.  The single-file detector never raises and runs exactly one
    command.  It lists a laptop display when that command exits with
    status 0 and prints "Count", then one record per monitor in the order
    of the enumeration, the monitor at position [k] being named "External
    Monitor" with the number of displays listed before it: numbering
    starts at 0 without a laptop display and at 1 with one.  The fallback
    record is the result exactly when nothing was listed. *)
Theorem legacy_detect_displays_records (w : world) :
  let laptop := Extra.legacy_laptop (shell w (invocations w) Legacy.count_command) in
  let externals :=
    imap (fun k mon => Extra.legacy_external (Z.of_nat (length laptop + k)) mon)
      (monitors w) in
  Legacy.detect_displays w =
  (Ret match laptop ++ externals with
       | [] => [Legacy.fallback_display]
       | found => found
       end,
   Spec.ran w Legacy.count_command).
Proof.
  intros laptop externals.
  unfold Legacy.detect_displays, mbind, mtry, subprocess_run, any_Exception, mret,
    Spec.ran.
  subst externals laptop. unfold Extra.legacy_laptop.
  destruct (shell w (invocations w) Legacy.count_command) as [rc out err|e];
    simpl.
  - destruct ((rc =? 0) && Text.contains "Count" out); simpl;
      rewrite LegacyFacts.enum_loop_records; simpl;
      try match goal with
          | |- context [match ?found with [] => _ | _ :: _ => _ end] =>
              destruct found
          end; reflexivity.
  - rewrite LegacyFacts.enum_loop_records; simpl.
    match goal with
    | |- context [match ?found with [] => _ | _ :: _ => _ end] => destruct found
    end; reflexivity.
Qed.

(** X20.  The start-up check of the single-file version never raises.  On
    a platform other than "win32" it returns false, having run nothing
    and put up the "Windows only" dialog.  On "win32" it runs the echo
    command once and returns true whenever that command completes,
    whatever its exit status; it returns false, with the "PowerShell
    required" dialog, exactly when running the command raises.  A dialog is
    put up exactly when the result is false. *)
Theorem check_requirements_spec (platform : string) (s : Startup.desktop) :
  (platform <> "win32" ->
   Startup.check_requirements platform s =
   (Ret false,
    {| Startup.os := Startup.os s;
       Startup.dialogs := Startup.dialogs s ++ [("Error", "Windows only")] |})) /\
  (platform = "win32" ->
   Startup.check_requirements platform s =
   match shell (Startup.os s) (invocations (Startup.os s)) Startup.echo_command with
   | Completed _ _ _ =>
       (Ret true,
        {| Startup.os := Spec.ran (Startup.os s) Startup.echo_command;
           Startup.dialogs := Startup.dialogs s |})
   | Failed _ =>
       (Ret false,
        {| Startup.os := Spec.ran (Startup.os s) Startup.echo_command;
           Startup.dialogs :=
             Startup.dialogs s ++ [("Error", "PowerShell required")] |})
   end).
Proof.
  unfold Startup.check_requirements. split.
  - intros Hp. destruct (String.eqb_spec platform "win32"); [contradiction|].
    reflexivity.
  - intros ->. simpl.
    unfold mtry, mbind, Startup.on_os, subprocess_run, any_Exception, mret,
      Startup.showerror, Spec.ran.
    destruct (shell (Startup.os s) (invocations (Startup.os s)) Startup.echo_command)
      as [rc out err|e]; reflexivity.
Qed.

Lemma check_requirements_spec_witness :
  Startup.check_requirements "linux"
    {| Startup.os := Spec.idle_world; Startup.dialogs := [] |} =
  (Ret false,
   {| Startup.os := Spec.idle_world;
      Startup.dialogs := [("Error", "Windows only")] |}) /\
  Startup.check_requirements "win32"
    {| Startup.os := {| invocations := [];
                        shell := fun _ _ => Completed 1 "" "denied";
                        monitors := [] |};
       Startup.dialogs := [] |} =
  (Ret true,
   {| Startup.os := {| invocations := [Startup.echo_command];
                       shell := fun _ _ => Completed 1 "" "denied";
                       monitors := [] |};
      Startup.dialogs := [] |}).
Proof.
  split.
  - apply (proj1 (check_requirements_spec "linux"
                    {| Startup.os := Spec.idle_world; Startup.dialogs := [] |})).
    discriminate.
  - exact (proj2 (check_requirements_spec "win32"
                    {| Startup.os := {| invocations := [];
                                        shell := fun _ _ => Completed 1 "" "denied";
                                        monitors := [] |};
                       Startup.dialogs := [] |}) eq_refl).
Defined.

Module DispatchMore.
Import Controller.

Lemma set_brightness_table d v b w :
  is_empty d = false -> to_int v = Ret b -> 0 <= b <= 100 ->
  set_brightness controllers d v w =
  match d !! "method" with
  | None => wmi_set_brightness d b w
  | Some (PyStr m) =>
      if String.eqb m "wmi" then wmi_set_brightness d b w
      else if String.eqb m "ddc" then (Ret true, w)
      else (Ret false, w)
  | Some _ => (Ret false, w)
  end.
Proof.
  intros Hd Hv Hb.
  rewrite (ControllerFacts.set_brightness_dispatch controllers d v b w Hd Hv Hb).
  unfold method_of.
  assert (Hwmi : match set_brightness_of wmi_controller d b w with
                 | (Ret r, s') => (Ret r, s')
                 | (Raise _, s') => (Ret false, s')
                 end = wmi_set_brightness d b w).
  { simpl set_brightness_of. now rewrite (WmiMore.wmi_set_brightness_valid d b w Hb). }
  assert (Hddc : ddc_set_brightness d b w = (Ret true, w)).
  { unfold ddc_set_brightness, mbind, mlift.
    now rewrite (proj2 (validate_int_true b) Hb). }
  destruct (d !! "method") as [[|x|z|x|m|id]|]; simpl; try reflexivity.
  - rewrite DispatchFacts.controllers_lookup.
    destruct (String.eqb m "wmi"); [exact Hwmi|].
    destruct (String.eqb m "ddc"); [|reflexivity].
    simpl set_brightness_of. now rewrite Hddc.
  - exact Hwmi.
Qed.

End DispatchMore.

(** X21.  Through the dispatcher of the application, setting a value that
    converts to an integer [b] in 0..100 never raises and does this: on a
    display whose method is "wmi" or missing, exactly one command is run,
    the setter template with [b] in decimal, and the result is true
    exactly when it completes with exit status 0; on a "ddc" display the
    result is true and nothing is run; on any other method the result is
    false and nothing is run. *)
Theorem set_brightness_registered
    (d : gmap string pyvalue) (value : pyvalue) (b : Z) (w : world) :
  Controller.is_empty d = false ->
  Controller.to_int value = Ret b ->
  0 <= b <= 100 ->
  Controller.set_brightness Controller.controllers d value w =
  match d !! "method" with
  | None =>
      (Ret (Extra.exit_ok (shell w (invocations w) (Extra.set_template b))),
       Spec.ran w (Extra.set_template b))
  | Some (PyStr m) =>
      if String.eqb m "wmi" then
        (Ret (Extra.exit_ok (shell w (invocations w) (Extra.set_template b))),
         Spec.ran w (Extra.set_template b))
      else if String.eqb m "ddc" then (Ret true, w)
      else (Ret false, w)
  | Some _ => (Ret false, w)
  end.
Proof.
  intros Hd Hv Hb.
  rewrite (DispatchMore.set_brightness_table d value b w Hd Hv Hb).
  now rewrite (WmiMore.wmi_set_brightness_valid d b w Hb).
Qed.

Lemma set_brightness_registered_witness :
  Controller.set_brightness Controller.controllers Spec.laptop (PyStr "72.9")
    Spec.idle_world =
  (Ret true, Spec.ran Spec.idle_world (Extra.set_template 72)) /\
  Controller.set_brightness Controller.controllers Spec.external (PyInt 100)
    Spec.idle_world = (Ret true, Spec.idle_world).
Proof.
  assert (H72 : Controller.to_int (PyStr "72.9") = Ret 72)
    by (vm_compute; reflexivity).
  assert (H100 : Controller.to_int (PyInt 100) = Ret 100)
    by (vm_compute; reflexivity).
  split.
  - exact (set_brightness_registered Spec.laptop (PyStr "72.9") 72 Spec.idle_world
             eq_refl H72 ltac:(lia)).
  - exact (set_brightness_registered Spec.external (PyInt 100) 100 Spec.idle_world
             eq_refl H100 ltac:(lia)).
Defined.

(** ** Reading back what was written *)

Module RoundTrip.
Import StringFacts.

(** A text that ends in a character that is no white space keeps its
    end under [rstrip]. *)
Lemma rstrip_end (a : string) (c : ascii) :
  Text.isspace c = false ->
  Text.rstrip (a +:+ String c "") = a +:+ String c "".
Proof.
  intros Hc. unfold Text.rstrip.
  assert (Hrev : String.rev (a +:+ String c "") = String c (String.rev a)).
  { unfold String.rev. now rewrite rev_app_app. }
  rewrite Hrev. simpl. rewrite Hc.
  rewrite <- Hrev. apply rev_rev.
Qed.

Lemma digit_not_space c : Text.isdigit_char c = true -> Text.isspace c = false.
Proof. intros H. now destruct (ScanFacts.isdigit_char_plain c H) as (_ & ? & _). Qed.

(** A run of digits is its own [strip]. *)
Lemma strip_digits (ds : string) :
  Text.isdigit ds = true -> Text.strip ds = ds.
Proof.
  unfold Text.isdigit. intros [Hne Hall]%andb_prop.
  unfold Text.strip.
  assert (Hl : Text.lstrip ds = ds).
  { destruct ds as [|c ds]; [reflexivity|]. simpl in *.
    apply andb_prop in Hall as [Hc _]. now rewrite (digit_not_space c Hc). }
  rewrite Hl.
  destruct (last_char _ ds Hne Hall) as (a & c & -> & Hc).
  apply rstrip_end. now apply digit_not_space.
Qed.

Lemma lstrip_spaces_then (pad rest : string) :
  Text.all_chars Text.isspace pad = true ->
  Text.lstrip (pad +:+ rest) = Text.lstrip rest.
Proof.
  induction pad as [|c pad IH]; simpl; [reflexivity|].
  intros [Hc Hp]%andb_prop. rewrite Hc. now apply IH.
Qed.

Lemma pretty_N_char_value (r : N) :
  (r < 10)%N -> Text.digit_value (pretty_N_char r) = Z.of_N r.
Proof.
  intros Hr.
  assert (H : (r = 0 \/ r = 1 \/ r = 2 \/ r = 3 \/ r = 4 \/ r = 5 \/ r = 6 \/
               r = 7 \/ r = 8 \/ r = 9)%N) by lia.
  repeat destruct H as [-> | H]; try subst r; reflexivity.
Qed.

(** Reading the digits that were written for a number gives the number
    back, whatever was read before and whatever follows. *)
Lemma decimal_go_pretty (x : N) :
  exists k, 0 <= k /\
    forall (acc : Z) (s : string),
      Text.decimal_go acc (pretty_N_go x s) =
      Text.decimal_go (acc * 10 ^ k + Z.of_N x) s.
Proof.
  induction (N.lt_wf_0 x) as [x _ IH].
  destruct (N.eq_dec x 0%N) as [->|Hx].
  - exists 0. split; [lia|]. intros acc s. rewrite pretty_N_go_0. f_equal. lia.
  - destruct (IH (N.div x 10)) as (k & Hk & Hgo); [apply N.div_lt; lia|].
    exists (k + 1). split; [lia|]. intros acc s.
    rewrite pretty_N_go_step by lia. rewrite Hgo. simpl Text.decimal_go.
    f_equal. rewrite pretty_N_char_value by (apply N.mod_lt; lia).
    rewrite Z.pow_add_r by lia.
    pose proof (N.div_mod x 10 ltac:(lia)) as Hdm.
    rewrite N2Z.inj_div, N2Z.inj_mod.
    pose proof (Z.div_mod (Z.of_N x) 10 ltac:(lia)) as Hz.
    change (Z.of_N 10) with 10. lia.
Qed.

Lemma pretty_N_go_nonempty (x : N) (s : string) :
  Text.nonempty s = true -> Text.nonempty (pretty_N_go x s) = true.
Proof.
  revert s. induction (N.lt_wf_0 x) as [x _ IH]; intros s Hs.
  destruct (N.eq_dec x 0%N) as [->|Hx]; [now rewrite pretty_N_go_0|].
  rewrite pretty_N_go_step by lia.
  apply IH; [apply N.div_lt; lia | reflexivity].
Qed.

(** A number below [10 ^ k] is written with at most [k] digits. *)
Lemma pretty_N_go_length (k : nat) (x : N) (s : string) :
  Z.of_N x < 10 ^ Z.of_nat k ->
  (String.length (pretty_N_go x s) <= k + String.length s)%nat.
Proof.
  revert x s. induction k as [|k IH]; intros x s Hx.
  - assert (x = 0%N) as -> by (change (10 ^ Z.of_nat 0) with 1 in Hx; lia).
    rewrite pretty_N_go_0. lia.
  - destruct (N.eq_dec x 0%N) as [->|Hx0]; [rewrite pretty_N_go_0; lia|].
    rewrite pretty_N_go_step by lia.
    rewrite Nat2Z.inj_succ, Z.pow_succ_r in Hx by lia.
    assert (Hdiv : Z.of_N (x `div` 10) < 10 ^ Z.of_nat k).
    { rewrite N2Z.inj_div. change (Z.of_N 10) with 10.
      apply Z.div_lt_upper_bound; lia. }
    pose proof (IH _ (String (pretty_N_char (x `mod` 10)) s) Hdiv) as H.
    simpl String.length in H. lia.
Qed.

Lemma str_of_nat_length (n : Z) (k : nat) :
  0 <= n < 10 ^ Z.of_nat k -> (1 <= k)%nat ->
  (String.length (Text.str_of_int n) <= k)%nat.
Proof.
  intros Hn Hk. unfold Text.str_of_int, pretty, pretty_Z.
  destruct n as [|p|p]; [simpl; lia| |lia].
  unfold pretty, pretty_positive, pretty, pretty_N.
  destruct (decide (N.pos p = 0%N)); [discriminate|].
  pose proof (pretty_N_go_length k (N.pos p) "" ltac:(simpl; lia)) as H.
  simpl String.length in H. lia.
Qed.

(** A run of [n] digits writes a number below [10 ^ n]. *)
Lemma value_bound (t : string) :
  Spec.value t < 10 ^ Z.of_nat (String.length t).
Proof.
  induction t as [|c t IH]; [reflexivity|].
  simpl Spec.value. simpl String.length.
  rewrite Nat2Z.inj_succ, Z.pow_succ_r by lia.
  assert (Hd : 0 <= default 0 (Spec.digit c) <= 9).
  { destruct c as [[] [] [] [] [] [] [] []]; simpl; lia. }
  pose proof (Z.pow_pos_nonneg 10 (Z.of_nat (String.length t)) ltac:(lia) ltac:(lia)).
  nia.
Qed.

Lemma str_of_nat_decimal (n : Z) :
  0 <= n -> Text.all_chars Text.isdecimal_char (Text.str_of_int n) = true.
Proof.
  intros Hn. unfold Text.str_of_int, pretty, pretty_Z.
  destruct n as [|p|p]; [reflexivity| |lia].
  apply (TextFacts.pretty_N_digits (N.pos p)).
Qed.

Lemma str_of_nat_isdigit (n : Z) :
  0 <= n -> Text.isdigit (Text.str_of_int n) = true.
Proof.
  intros Hn. unfold Text.isdigit. apply andb_true_intro. split.
  - unfold Text.str_of_int, pretty, pretty_Z.
    destruct n as [|p|p]; [reflexivity| |lia].
    unfold pretty, pretty_positive, pretty, pretty_N.
    destruct (decide (N.pos p = 0%N)); [reflexivity|].
    rewrite pretty_N_go_step by lia.
    now apply pretty_N_go_nonempty.
  - apply (TextFacts.all_chars_weaken _ _ _ TextFacts.decimal_isdigit),
      (str_of_nat_decimal n Hn).
Qed.

Lemma decimal_value_str_of_nat (n : Z) :
  0 <= n -> Text.decimal_value (Text.str_of_int n) = n.
Proof.
  intros Hn. unfold Text.decimal_value, Text.str_of_int, pretty, pretty_Z.
  destruct n as [|p|p]; [reflexivity| |lia].
  unfold pretty, pretty_positive, pretty, pretty_N.
  destruct (decide (N.pos p = 0%N)); [discriminate|].
  destruct (decimal_go_pretty (N.pos p)) as (k & _ & Hgo).
  rewrite Hgo. simpl. lia.
Qed.

(** The integer of the digits that [str] wrote is the number written,
    as long as the digits are no more than 4300. *)
Lemma integer_of_str_of_nat (n : Z) :
  0 <= n ->
  Spec.integer_of (Text.str_of_int n) = if n <? 10 ^ 4300 then Some n else None.
Proof.
  intros Hn. unfold Spec.integer_of.
  pose proof (str_of_nat_decimal n Hn) as Hdec.
  rewrite <- (all_chars_ext _ _ _ NumeralFacts.is_digit_decimal) in Hdec.
  pose proof (NumeralFacts.decimal_value_value _ Hdec) as Hv.
  rewrite (decimal_value_str_of_nat n Hn) in Hv.
  rewrite Hdec. simpl andb.
  destruct (Z.ltb_spec n (10 ^ 4300)) as [Hlt|Hge].
  - pose proof (str_of_nat_length n 4300 ltac:(split; [lia | exact Hlt]) ltac:(lia)) as Hl.
    apply Nat.leb_le in Hl. rewrite Hl. now rewrite <- Hv.
  - destruct (Nat.leb_spec (String.length (Text.str_of_int n)) 4300) as [Hl|_];
      [|reflexivity].
    pose proof (value_bound (Text.str_of_int n)) as Hb. rewrite <- Hv in Hb.
    assert (Hp : 10 ^ Z.of_nat (String.length (Text.str_of_int n)) <= 10 ^ 4300)
      by (apply Z.pow_le_mono_r; lia).
    lia.
Qed.

End RoundTrip.

Module ReadBack.
Import Controller StringFacts RoundTrip.

Lemma contains_char_app (sep : ascii) (a b : string) :
  Text.contains (String sep "") (a +:+ b) =
  Text.contains (String sep "") a || Text.contains (String sep "") b.
Proof.
  induction a as [|c a IH].
  - simpl. now destruct b.
  - rewrite app_cons. simpl. rewrite IH.
    destruct (Ascii.ascii_dec sep c); simpl; [|reflexivity].
    assert (Hp : forall s, String.prefix "" s = true) by (now intros [|? ?]).
    now rewrite !Hp.
Qed.

Lemma digits_no_colon ds :
  Text.isdigit ds = true -> Text.contains ":" ds = false.
Proof.
  unfold Text.isdigit. intros [_ H]%andb_prop.
  now apply (contains_char_none ":" Text.isdigit_char).
Qed.

Lemma digits_no_LF ds :
  Text.isdigit ds = true -> Text.contains (String Detector.LF "") ds = false.
Proof.
  unfold Text.isdigit. intros [_ H]%andb_prop.
  now apply (contains_char_none Detector.LF Text.isdigit_char).
Qed.

(** A line that is a number in digits, after blanks. *)
Lemma strip_padded_digits (pad ds : string) :
  Text.all_chars Text.isspace pad = true ->
  Text.isdigit ds = true ->
  Text.strip (pad +:+ ds) = ds.
Proof.
  intros Hp Hd. unfold Text.strip. rewrite (lstrip_spaces_then pad ds Hp).
  apply (strip_digits ds Hd).
Qed.

Lemma scan_bare (ds : string) :
  Text.isdigit ds = true ->
  scan_lines (Spec.output_lines ds) = Reading.converted (Some ds).
Proof.
  intros Hd. unfold Spec.output_lines.
  rewrite (strip_digits ds Hd).
  rewrite (split_without_sep _ _ (digits_no_LF ds Hd)).
  rewrite ScanFacts.scan_lines_cons.
  unfold Spec.line_match, Spec.bare_integer.
  now rewrite (strip_digits ds Hd), Hd.
Qed.

Lemma strip_keyed (ds : string) :
  Text.isdigit ds = true ->
  Text.strip ("CurrentBrightness : " +:+ ds) = "CurrentBrightness : " +:+ ds.
Proof.
  intros Hd. unfold Text.strip.
  assert (Hl : Text.lstrip ("CurrentBrightness : " +:+ ds) =
               "CurrentBrightness : " +:+ ds) by reflexivity.
  rewrite Hl.
  unfold Text.isdigit in Hd. apply andb_prop in Hd as [Hne Hall].
  destruct (last_char _ ds Hne Hall) as (a & c & -> & Hc).
  rewrite <- app_assoc_str.
  apply rstrip_end. now apply digit_not_space.
Qed.

Lemma scan_keyed (ds : string) :
  Text.isdigit ds = true ->
  scan_lines (Spec.output_lines ("CurrentBrightness : " +:+ ds)) =
  Reading.converted (Some ds).
Proof.
  intros Hd. unfold Spec.output_lines.
  rewrite (strip_keyed ds Hd).
  assert (HLF : Text.contains (String Detector.LF "")
                  ("CurrentBrightness : " +:+ ds) = false).
  { rewrite contains_char_app, (digits_no_LF ds Hd). reflexivity. }
  rewrite (split_without_sep _ _ HLF).
  rewrite ScanFacts.scan_lines_cons.
  unfold Spec.line_match, Spec.bare_integer, Spec.key_value.
  rewrite (strip_keyed ds Hd).
  assert (Hnd : Text.isdigit ("CurrentBrightness : " +:+ ds) = false) by reflexivity.
  rewrite Hnd.
  change ("CurrentBrightness : " +:+ ds)
    with ("CurrentBrightness " +:+ String ":" (" " +:+ ds)).
  rewrite split_at_sep by reflexivity.
  assert (Hc : Text.contains ":" (" " +:+ ds) = false).
  { rewrite contains_char_app, (digits_no_colon ds Hd). reflexivity. }
  rewrite (split_without_sep _ _ Hc).
  now rewrite (strip_padded_digits " " ds eq_refl Hd), Hd.
Qed.

End ReadBack.

(** X22.  The WMI [get_brightness] reads back every brightness below
    [10 ^ 4300] that the shell prints, and no other: for every integer
    [n] from 0 on, when the query exits with status 0 and its output is
    [n] in decimal, alone or in the form "CurrentBrightness : n", the
    result is [n] if [n] is below [10 ^ 4300], and [None] if it is not
    (a number of more than 4300 digits is not converted). *)
Theorem wmi_get_brightness_reads_back
    (d : gmap string pyvalue) (w : world) (n : Z) (out err : string) :
  0 <= n ->
  out = Text.str_of_int n \/ out = "CurrentBrightness : " +:+ Text.str_of_int n ->
  shell w (invocations w) Controller.wmi_get_command = Completed 0 out err ->
  fst (Controller.wmi_get_brightness d w) =
  Ret (if n <? 10 ^ 4300 then Some n else None).
Proof.
  intros Hn Hout Hrun.
  rewrite WmiFacts.wmi_get_brightness_run, Hrun. simpl.
  pose proof (RoundTrip.str_of_nat_isdigit n Hn) as Hd.
  assert (Hscan : Controller.scan_lines (Spec.output_lines out) =
                  Reading.converted (Some (Text.str_of_int n))).
  { destruct Hout as [-> | ->];
      [apply (ReadBack.scan_bare _ Hd) | apply (ReadBack.scan_keyed _ Hd)]. }
  rewrite Hscan. unfold Reading.converted.
  rewrite (RoundTrip.integer_of_str_of_nat n Hn).
  now destruct (n <? 10 ^ 4300).
Qed.

Lemma wmi_get_brightness_reads_back_witness :
  fst (Controller.wmi_get_brightness Spec.laptop
         (Spec.printing "CurrentBrightness : 100")) = Ret (Some 100).
Proof.
  apply (wmi_get_brightness_reads_back Spec.laptop _ 100
           "CurrentBrightness : 100" "").
  - lia.
  - right. reflexivity.
  - reflexivity.
Defined.

Module SelfTest.
Import Controller.

(** The WMI setter never runs a command for a value outside 0..100,
    also when the validator raises. *)
Lemma wmi_set_out_of_range d v w :
  v < 0 \/ 100 < v ->
  snd (wmi_set_brightness d v w) = w.
Proof.
  intros Hv. unfold wmi_set_brightness, mbind, mlift.
  destruct (validate_int v) as [-> | [-> _]]; [|reflexivity].
  destruct (Z.leb_spec 0 v); destruct (Z.leb_spec v 100); try lia; reflexivity.
Qed.

(** The commands of the self-test on a display that the WMI controller
    serves. *)
Lemma wmi_self_test d w :
  controller_for controllers (method_of d) = Some wmi_controller ->
  invocations (snd (test_brightness_support (S := world) controllers d w)) =
  invocations w ++
    wmi_get_command ::
    match fst (wmi_get_brightness d w) with
    | Ret (Some v) =>
        if (0 <=? v) && (v <=? 100) then [Extra.set_template v] else []
    | _ => []
    end.
Proof.
  intros Hc. unfold test_brightness_support. rewrite Hc.
  unfold mbind, mtry, mret, any_Exception. simpl get_brightness_of.
  simpl set_brightness_of.
  rewrite WmiFacts.wmi_get_brightness_run. cbn [fst].
  set (r := match shell w (invocations w) wmi_get_command with
            | Completed rc out _ => _
            | Failed _ => None
            end).
  destruct r as [v|]; [|reflexivity].
  cbn beta iota.
  change (set_brightness_of wmi_controller d v) with (wmi_set_brightness d v).
  destruct (Z.leb_spec 0 v) as [H0|H0]; destruct (Z.leb_spec v 100) as [H100|H100];
    simpl andb; cbv iota.
  - rewrite (WmiMore.wmi_set_brightness_valid d v _ (conj H0 H100)). simpl.
    now rewrite <- app_assoc.
  - pose proof (wmi_set_out_of_range d v (Spec.ran w wmi_get_command)
                  ltac:(lia)) as Hsame.
    destruct (wmi_set_brightness d v (Spec.ran w wmi_get_command))
      as [[b|e] w2]; simpl in Hsame; subst w2; reflexivity.
  - pose proof (wmi_set_out_of_range d v (Spec.ran w wmi_get_command)
                  ltac:(lia)) as Hsame.
    destruct (wmi_set_brightness d v (Spec.ran w wmi_get_command))
      as [[b|e] w2]; simpl in Hsame; subst w2; reflexivity.
  - lia.
Qed.

(** The self-test on a display that the placeholder serves runs
    nothing. *)
Lemma ddc_self_test d w :
  controller_for controllers (method_of d) = Some ddc_controller ->
  snd (test_brightness_support (S := world) controllers d w) = w.
Proof.
  intros Hc. unfold test_brightness_support. rewrite Hc. reflexivity.
Qed.

End SelfTest.

(** X23.  The self-test on the controllers of the application runs at
    most two commands, and which ones is decided by the display's method
    and by what is read: nothing for a "ddc" display, for an unknown
    method and for a method that is no text; for a display whose method
    is "wmi" or missing, the brightness query, followed by the setter
    exactly when the query gave a value within 0..100, and then with
    that very value. *)
Theorem test_brightness_support_commands (d : gmap string pyvalue) (w : world) :
  let w' := snd (Controller.test_brightness_support Controller.controllers d w) in
  let probe :=
    Controller.wmi_get_command ::
    match fst (Controller.wmi_get_brightness d w) with
    | Ret (Some v) =>
        if (0 <=? v) && (v <=? 100) then [Extra.set_template v] else []
    | _ => []
    end in
  invocations w' =
  invocations w ++
    match d !! "method" with
    | None => probe
    | Some (PyStr m) => if String.eqb m "wmi" then probe else []
    | Some _ => []
    end.
Proof.
  intros w' probe. subst w' probe.
  assert (Hnone : Controller.controller_for Controller.controllers
                    (Controller.method_of d) = None ->
                  invocations (snd (Controller.test_brightness_support
                                      Controller.controllers d w)) =
                  invocations w ++ []).
  { intros Hc. unfold Controller.test_brightness_support. rewrite Hc.
    simpl. now rewrite app_nil_r. }
  unfold Controller.method_of in *.
  destruct (d !! "method") as [[|b|z|x|m|id]|] eqn:Hm; simpl default in *;
    try (apply Hnone; reflexivity).
  - unfold Controller.controller_for in Hnone.
    pose proof (DispatchFacts.controllers_lookup m) as Hl.
    destruct (String.eqb m "wmi") eqn:Hw.
    + rewrite <- (SelfTest.wmi_self_test d w); [reflexivity|].
      unfold Controller.method_of. now rewrite Hm.
    + destruct (String.eqb m "ddc").
      * rewrite (SelfTest.ddc_self_test d w); [now rewrite app_nil_r|].
        unfold Controller.method_of. now rewrite Hm.
      * apply Hnone. exact Hl.
  - rewrite <- (SelfTest.wmi_self_test d w); [reflexivity|].
    unfold Controller.method_of. now rewrite Hm.
Qed.
